(** * Sony IMX586 V4L2 sensor driver: control plane

    A shallow embedding of [imx586.c] (format resolution, timing arithmetic,
    gain staging, control application and the streaming sequence) together
    with the properties established about it.

    Conventions.
    - C integers are [Z]; every conversion to a fixed-width type is written
      out ([u8], [u16], [u32], [u64], [s32], [s64]).
    - Undefined behaviour (a read past the end of an array, a division by
      zero, a null dereference) is a [Fault]; stateful functions live in the
      monad [M] over [world], which carries the driver structure, the I2C
      transfer log and the runtime-PM usage counter.
    - Kernel log output ([dev_info], [dev_err]) and the device mutex are not
      represented: they do not influence any value computed here. *)

From Stdlib Require Import ZArith List Bool Lia QArith Qround.
Import ListNotations.
Local Open Scope Z_scope.

(** ** Fixed-width integers *)

Definition u8  (x : Z) : Z := x mod 2 ^ 8.
Definition u16 (x : Z) : Z := x mod 2 ^ 16.
Definition u32 (x : Z) : Z := x mod 2 ^ 32.
Definition u64 (x : Z) : Z := x mod 2 ^ 64.

(** Conversion to a signed type: reduce modulo [2^w], then re-centre. *)
Definition signed (w : Z) (x : Z) : Z :=
  let m := x mod 2 ^ w in
  if m <? 2 ^ (w - 1) then m else m - 2 ^ w.
Definition s32 (x : Z) : Z := signed 32 x.
Definition s64 (x : Z) : Z := signed 64 x.

(** ** Undefined behaviour and results *)

Inductive fault : Type :=
| DivByZero
| OutOfBounds (i : nat)
| NullDeref.

Inductive outcome (A : Type) : Type :=
| Done (a : A)
| Fault (f : fault).
Arguments Done {A} a.
Arguments Fault {A} f.

Definition obind {A B} (o : outcome A) (k : A -> outcome B) : outcome B :=
  match o with
  | Done a => k a
  | Fault f => Fault f
  end.

(** [arr[i]] for a C array of known length. *)
Definition array_get {A} (arr : list A) (i : nat) : outcome A :=
  match nth_error arr i with
  | Some v => Done v
  | None => Fault (OutOfBounds i)
  end.

(** [do_div(n, base)] of asm-generic/div64.h: the divisor is a [uint32_t],
    [n] becomes the quotient (the remainder, the macro's value, is never
    used by the driver). *)
Definition do_div (n base : Z) : outcome Z :=
  let b := u32 base in
  if b =? 0 then Fault DivByZero else Done (u64 n / b).

(** [clamp_t(uint32_t, val, lo, hi)]: the three operands are cast first. *)
Definition clamp_t_u32 (v lo hi : Z) : Z :=
  Z.min (Z.max (u32 v) (u32 lo)) (u32 hi).

(** [min_t(uint64_t, a, b)]. *)
Definition min_t_u64 (a b : Z) : Z := Z.min (u64 a) (u64 b).

(** ** Constants of the driver *)

Definition MEDIA_BUS_FMT_SENSOR_DATA : Z := 0x7002.

Definition IMX586_REG_MODE_SELECT : Z := 0x3000.
Definition IMX586_MODE_STANDBY : Z := 0x01.
Definition IMX586_MODE_STREAMING : Z := 0x00.

Definition IMX586_REG_VMAX : Z := 0x3028.
Definition IMX586_VMAX_MAX : Z := 0xfffff.
Definition IMX586_REG_HMAX : Z := 0x302C.
Definition IMX586_HMAX_MAX : Z := 0xffff.
Definition IMX586_REG_SHR : Z := 0x3050.

Definition IMX586_EXPOSURE_MIN : Z := 52.
Definition IMX586_EXPOSURE_STEP : Z := 1.
Definition IMX586_EXPOSURE_DEFAULT : Z := 1000.
Definition IMX586_EXPOSURE_MAX : Z := 49865.

Definition IMX586_REG_EXP_TH_H : Z := 0x36D0.
Definition IMX586_REG_EXP_TH_L : Z := 0x36D4.
Definition IMX586_REG_EXP_BK : Z := 0x36E2.

Definition IMX586_REG_CCMP1_EXP : Z := 0x36E8.
Definition IMX586_REG_CCMP2_EXP : Z := 0x36E4.
Definition IMX586_REG_ACMP1_EXP : Z := 0x36EE.
Definition IMX586_REG_ACMP2_EXP : Z := 0x36EC.

Definition IMX586_REG_BLKLEVEL : Z := 0x30DC.
Definition IMX586_BLKLEVEL_DEFAULT : Z := 0.
Definition IMX586_REG_DIGITAL_CLAMP : Z := 0x3458.

Definition IMX586_REG_ANALOG_GAIN : Z := 0x306C.
Definition IMX586_REG_FDG_SEL0 : Z := 0x3030.
Definition IMX586_ANA_GAIN_MIN : Z := 0.
Definition IMX586_ANA_GAIN_MAX : Z := 240.
Definition IMX586_ANA_GAIN_STEP : Z := 1.
Definition IMX586_ANA_GAIN_DEFAULT : Z := 0.
Definition IMX586_ANA_GAIN_HCG_LEVEL : Z := 51.
Definition IMX586_ANA_GAIN_HCG_THRESHOLD : Z := IMX586_ANA_GAIN_HCG_LEVEL + 29.
Definition IMX586_ANA_GAIN_HCG_MIN : Z := 34.

Definition IMX586_FLIP_WINMODEH : Z := 0x3020.
Definition IMX586_FLIP_WINMODEV : Z := 0x3021.

Definition IMX586_EMBEDDED_LINE_WIDTH : Z := 16384.
Definition IMX586_NUM_EMBEDDED_LINES : Z := 1.
Definition IMX586_PIXEL_RATE : Z := 74250000.

Definition IMAGE_PAD : Z := 0.
Definition METADATA_PAD : Z := 1.
Definition NUM_PADS : Z := 2.

Definition V4L2_XFER_FUNC_GRADATION_COMPRESSION : Z := 10.

Definition IMX586_NATIVE_WIDTH : Z := 3856.
Definition IMX586_NATIVE_HEIGHT : Z := 2180.
Definition IMX586_PIXEL_ARRAY_LEFT : Z := 8.
Definition IMX586_PIXEL_ARRAY_TOP : Z := 8.
Definition IMX586_PIXEL_ARRAY_WIDTH : Z := 3840.
Definition IMX586_PIXEL_ARRAY_HEIGHT : Z := 2160.

(** Values the driver takes from kernel headers (errno-base.h,
    media-bus-format.h, videodev2.h, v4l2-subdev.h). *)
Definition EIO : Z := 5.
Definition EACCES : Z := 13.
Definition EBUSY : Z := 16.
Definition EINVAL : Z := 22.
Definition ERANGE : Z := 34.

Definition MEDIA_BUS_FMT_SRGGB16_1X16 : Z := 0x3020.
Definition MEDIA_BUS_FMT_SGRBG16_1X16 : Z := 0x301f.
Definition MEDIA_BUS_FMT_SGBRG16_1X16 : Z := 0x301e.
Definition MEDIA_BUS_FMT_SBGGR16_1X16 : Z := 0x301d.
Definition MEDIA_BUS_FMT_SRGGB12_1X12 : Z := 0x3012.
Definition MEDIA_BUS_FMT_SGRBG12_1X12 : Z := 0x3011.
Definition MEDIA_BUS_FMT_SGBRG12_1X12 : Z := 0x3010.
Definition MEDIA_BUS_FMT_SBGGR12_1X12 : Z := 0x3008.
Definition MEDIA_BUS_FMT_Y16_1X16 : Z := 0x202e.
Definition MEDIA_BUS_FMT_Y12_1X12 : Z := 0x2013.

Definition V4L2_FIELD_NONE : Z := 1.
Definition V4L2_COLORSPACE_RAW : Z := 11.
Definition V4L2_YCBCR_ENC_601 : Z := 1.
Definition V4L2_QUANTIZATION_FULL_RANGE : Z := 1.
Definition V4L2_XFER_FUNC_DEFAULT : Z := 0.
Definition V4L2_XFER_FUNC_NONE : Z := 5.
Definition V4L2_SUBDEV_FORMAT_TRY : Z := 0.
Definition V4L2_SUBDEV_FORMAT_ACTIVE : Z := 1.

(** ** Register tables and the mode catalog *)

Record imx586_reg : Type := R { address : Z; val : Z }.

Record v4l2_rect : Type :=
  Rect { rect_left : Z; rect_top : Z; rect_width : Z; rect_height : Z }.

Record imx586_mode : Type := {
  width : Z;
  height : Z;
  hdr : bool;
  linear : bool;
  min_HMAX : Z;
  min_VMAX : Z;
  default_HMAX : Z;
  default_VMAX : Z;
  min_SHR : Z;
  crop : v4l2_rect;
  reg_list : list imx586_reg
}.

Definition mode_common_regs : list imx586_reg :=
  [ R 0x3002 0x01; R 0x301A 0x00; R 0x301B 0x00; R 0x3024 0x00; R 0x3069 0x00; R 0x3074 0x64;
    R 0x30D5 0x04; R 0x3930 0x0C; R 0x3931 0x01; R 0x3A4C 0x39; R 0x3A4D 0x01; R 0x3A50 0x48;
    R 0x3A51 0x01; R 0x3E10 0x10; R 0x493C 0x23; R 0x4940 0x41; R 0x3014 0x04; R 0x3015 0x02;
    R 0x3030 0x00; R 0x3040 0x03; R 0x3023 0x01; R 0x30A6 0x00; R 0x3081 0x00; R 0x3460 0x21;
    R 0x3478 0xA1; R 0x347C 0x01; R 0x3480 0x01; R 0x3A4E 0x14; R 0x3A52 0x14; R 0x3A56 0x00;
    R 0x3A5A 0x00; R 0x3A5E 0x00; R 0x3A62 0x00; R 0x3A6A 0x20; R 0x3A6C 0x42; R 0x3A6E 0xA0;
    R 0x3B2C 0x0C; R 0x3B30 0x1C; R 0x3B34 0x0C; R 0x3B38 0x1C; R 0x3BA0 0x0C; R 0x3BA4 0x1C;
    R 0x3BA8 0x0C; R 0x3BAC 0x1C; R 0x3D3C 0x11; R 0x3D46 0x0B; R 0x3DE0 0x3F; R 0x3DE1 0x08;
    R 0x3E14 0x87; R 0x3E16 0x91; R 0x3E18 0x91; R 0x3E1A 0x87; R 0x3E1C 0x78; R 0x3E1E 0x50;
    R 0x3E20 0x50; R 0x3E22 0x50; R 0x3E24 0x87; R 0x3E26 0x91; R 0x3E28 0x91; R 0x3E2A 0x87;
    R 0x3E2C 0x78; R 0x3E2E 0x50; R 0x3E30 0x50; R 0x3E32 0x50; R 0x3E34 0x87; R 0x3E36 0x91;
    R 0x3E38 0x91; R 0x3E3A 0x87; R 0x3E3C 0x78; R 0x3E3E 0x50; R 0x3E40 0x50; R 0x3E42 0x50;
    R 0x4054 0x64; R 0x4148 0xFE; R 0x4149 0x05; R 0x414A 0xFF; R 0x414B 0x05; R 0x420A 0x03;
    R 0x4231 0x08; R 0x423D 0x9C; R 0x4242 0xB4; R 0x4246 0xB4; R 0x424E 0xB4; R 0x425C 0xB4;
    R 0x425E 0xB6; R 0x426C 0xB4; R 0x426E 0xB6; R 0x428C 0xB4; R 0x428E 0xB6; R 0x4708 0x00;
    R 0x4709 0x00; R 0x470A 0xFF; R 0x470B 0x03; R 0x470C 0x00; R 0x470D 0x00; R 0x470E 0xFF;
    R 0x470F 0x03; R 0x47EB 0x1C; R 0x47F0 0xA6; R 0x47F2 0xA6; R 0x47F4 0xA0; R 0x47F6 0x96;
    R 0x4808 0xA6; R 0x480A 0xA6; R 0x480C 0xA0; R 0x480E 0x96; R 0x492C 0xB2; R 0x4930 0x03;
    R 0x4932 0x03; R 0x4936 0x5B; R 0x4938 0x82; R 0x493E 0x23; R 0x4BA8 0x1C; R 0x4BA9 0x03;
    R 0x4BAC 0x1C; R 0x4BAD 0x1C; R 0x4BAE 0x1C; R 0x4BAF 0x1C; R 0x4BB0 0x1C; R 0x4BB1 0x1C;
    R 0x4BB2 0x1C; R 0x4BB3 0x1C; R 0x4BB4 0x1C; R 0x4BB8 0x03; R 0x4BB9 0x03; R 0x4BBA 0x03;
    R 0x4BBB 0x03; R 0x4BBC 0x03; R 0x4BBD 0x03; R 0x4BBE 0x03; R 0x4BBF 0x03; R 0x4BC0 0x03;
    R 0x4C14 0x87; R 0x4C16 0x91; R 0x4C18 0x91; R 0x4C1A 0x87; R 0x4C1C 0x78; R 0x4C1E 0x50;
    R 0x4C20 0x50; R 0x4C22 0x50; R 0x4C24 0x87; R 0x4C26 0x91; R 0x4C28 0x91; R 0x4C2A 0x87;
    R 0x4C2C 0x78; R 0x4C2E 0x50; R 0x4C30 0x50; R 0x4C32 0x50; R 0x4C34 0x87; R 0x4C36 0x91;
    R 0x4C38 0x91; R 0x4C3A 0x87; R 0x4C3C 0x78; R 0x4C3E 0x50; R 0x4C40 0x50; R 0x4C42 0x50;
    R 0x4D12 0x1F; R 0x4D13 0x1E; R 0x4D26 0x33; R 0x4E0E 0x59; R 0x4E14 0x55; R 0x4E16 0x59;
    R 0x4E1E 0x3B; R 0x4E20 0x47; R 0x4E22 0x54; R 0x4E26 0x81; R 0x4E2C 0x7D; R 0x4E2E 0x81;
    R 0x4E36 0x63; R 0x4E38 0x6F; R 0x4E3A 0x7C; R 0x4F3A 0x3C; R 0x4F3C 0x46; R 0x4F3E 0x59;
    R 0x4F42 0x64; R 0x4F44 0x6E; R 0x4F46 0x81; R 0x4F4A 0x82; R 0x4F5A 0x81; R 0x4F62 0xAA;
    R 0x4F72 0xA9; R 0x4F78 0x36; R 0x4F7A 0x41; R 0x4F7C 0x61; R 0x4F7D 0x01; R 0x4F7E 0x7C;
    R 0x4F7F 0x01; R 0x4F80 0x77; R 0x4F82 0x7B; R 0x4F88 0x37; R 0x4F8A 0x40; R 0x4F8C 0x62;
    R 0x4F8D 0x01; R 0x4F8E 0x76; R 0x4F8F 0x01; R 0x4F90 0x5E; R 0x4F91 0x02; R 0x4F92 0x69;
    R 0x4F93 0x02; R 0x4F94 0x89; R 0x4F95 0x02; R 0x4F96 0xA4; R 0x4F97 0x02; R 0x4F98 0x9F;
    R 0x4F99 0x02; R 0x4F9A 0xA3; R 0x4F9B 0x02; R 0x4FA0 0x5F; R 0x4FA1 0x02; R 0x4FA2 0x68;
    R 0x4FA3 0x02; R 0x4FA4 0x8A; R 0x4FA5 0x02; R 0x4FA6 0x9E; R 0x4FA7 0x02; R 0x519E 0x79;
    R 0x51A6 0xA1; R 0x51F0 0xAC; R 0x51F2 0xAA; R 0x51F4 0xA5; R 0x51F6 0xA0; R 0x5200 0x9B;
    R 0x5202 0x91; R 0x5204 0x87; R 0x5206 0x82; R 0x5208 0xAC; R 0x520A 0xAA; R 0x520C 0xA5;
    R 0x520E 0xA0; R 0x5210 0x9B; R 0x5212 0x91; R 0x5214 0x87; R 0x5216 0x82; R 0x5218 0xAC;
    R 0x521A 0xAA; R 0x521C 0xA5; R 0x521E 0xA0; R 0x5220 0x9B; R 0x5222 0x91; R 0x5224 0x87;
    R 0x5226 0x82; R 0x3002 0x00 ].

Definition mode_4k_regs : list imx586_reg :=
  [ R 0x301A 0x00; R 0x301B 0x00; R 0x3022 0x02; R 0x3023 0x01; R 0x3024 0x00; R 0x36EF 0x00;
    R 0x3069 0x00; R 0x3074 0x64; R 0x30D5 0x04; R 0x3930 0x0C; R 0x3931 0x01; R 0x3A4C 0x39;
    R 0x3A4D 0x01; R 0x3A50 0x48; R 0x3A51 0x01; R 0x3E10 0x10; R 0x493C 0x23; R 0x4940 0x41 ].

Definition mode_1080_regs : list imx586_reg :=
  [ R 0x301A 0x00; R 0x301B 0x01; R 0x3022 0x00; R 0x3023 0x01; R 0x3024 0x00; R 0x36EF 0x00;
    R 0x3069 0x00; R 0x3074 0x64; R 0x30D5 0x02; R 0x3930 0x0C; R 0x3931 0x01; R 0x3A4C 0x39;
    R 0x3A4D 0x01; R 0x3A50 0x48; R 0x3A51 0x01; R 0x3E10 0x10; R 0x493C 0x23; R 0x4940 0x41 ].

Definition mode_4k_nonlinear_regs : list imx586_reg :=
  [ R 0x301A 0x10; R 0x301B 0x00; R 0x3022 0x02; R 0x3023 0x01; R 0x3024 0x02; R 0x36EF 0x01;
    R 0x3030 0x00; R 0x3069 0x02; R 0x3074 0x63; R 0x3081 0x02; R 0x30D5 0x02; R 0x3930 0xE6;
    R 0x3931 0x00; R 0x3A4C 0x61; R 0x3A4D 0x02; R 0x3A50 0x70; R 0x3A51 0x02; R 0x3E10 0x17;
    R 0x493C 0x41; R 0x4940 0x41 ].

Definition mode_4k_16bit_regs : list imx586_reg :=
  [ R 0x301A 0x10; R 0x301B 0x00; R 0x3022 0x02; R 0x3023 0x03; R 0x3024 0x02; R 0x36EF 0x00;
    R 0x3030 0x00; R 0x3069 0x02; R 0x3074 0x63; R 0x3081 0x02; R 0x30D5 0x02; R 0x3930 0xE6;
    R 0x3931 0x00; R 0x3A4C 0x61; R 0x3A4D 0x02; R 0x3A50 0x70; R 0x3A51 0x02; R 0x3E10 0x17;
    R 0x493C 0x41; R 0x4940 0x41 ].

Definition mode_1080_16bit_regs : list imx586_reg :=
  [ R 0x301A 0x10; R 0x301B 0x01; R 0x3022 0x02; R 0x3023 0x03; R 0x3024 0x02; R 0x36EF 0x00;
    R 0x3030 0x00; R 0x3069 0x02; R 0x3074 0x63; R 0x3081 0x02; R 0x30D5 0x02; R 0x3930 0xE6;
    R 0x3931 0x00; R 0x3A4C 0x61; R 0x3A4D 0x02; R 0x3A50 0x70; R 0x3A51 0x02; R 0x3E10 0x17;
    R 0x493C 0x41; R 0x4940 0x41 ].

Definition pixel_array_crop : v4l2_rect :=
  Rect IMX586_PIXEL_ARRAY_LEFT IMX586_PIXEL_ARRAY_TOP
       IMX586_PIXEL_ARRAY_WIDTH IMX586_PIXEL_ARRAY_HEIGHT.

(** The entries of the three mode tables, named after their register
    lists. *)

(* 4K60 All pixel *)
Definition mode_4k : imx586_mode :=
  {| width := 3856; height := 2180; hdr := false; linear := true;
     min_HMAX := 550; min_VMAX := 2250;
     default_HMAX := 550; default_VMAX := 2250;
     min_SHR := 20; crop := pixel_array_crop;
     reg_list := mode_4k_regs |}.

(* 1080p90 2x2 binning *)
Definition mode_1080 : imx586_mode :=
  {| width := 1928; height := 1090; hdr := false; linear := true;
     min_HMAX := 366; min_VMAX := 2250;
     default_HMAX := 366; default_VMAX := 2250;
     min_SHR := 20; crop := pixel_array_crop;
     reg_list := mode_1080_regs |}.

(* 4K30 All pixel, gradation compression *)
Definition mode_4k_nonlinear : imx586_mode :=
  {| width := 3856; height := 2180; hdr := true; linear := false;
     min_HMAX := 550; min_VMAX := 4500;
     default_HMAX := 550; default_VMAX := 4500;
     min_SHR := 20; crop := pixel_array_crop;
     reg_list := mode_4k_nonlinear_regs |}.

(* 1080p30 2x2 binning, Clear HDR *)
Definition mode_1080_16bit : imx586_mode :=
  {| width := 1928; height := 1090; hdr := true; linear := true;
     min_HMAX := 550; min_VMAX := 4500;
     default_HMAX := 550; default_VMAX := 4500;
     min_SHR := 20; crop := pixel_array_crop;
     reg_list := mode_1080_16bit_regs |}.

(* 4K30 All pixel, Clear HDR *)
Definition mode_4k_16bit : imx586_mode :=
  {| width := 3856; height := 2180; hdr := true; linear := true;
     min_HMAX := 550; min_VMAX := 4500;
     default_HMAX := 550; default_VMAX := 4500;
     min_SHR := 20; crop := pixel_array_crop;
     reg_list := mode_4k_16bit_regs |}.

Definition supported_modes_12bit : list imx586_mode := [ mode_4k; mode_1080 ].

Definition supported_modes_nonlinear_12bit : list imx586_mode := [ mode_4k_nonlinear ].

Definition supported_modes_16bit : list imx586_mode := [ mode_1080_16bit; mode_4k_16bit ].

(** Every mode the driver can select. *)
Definition mode_catalog : list imx586_mode :=
  supported_modes_12bit ++ supported_modes_nonlinear_12bit ++ supported_modes_16bit.

(** The supported formats: four entries per format, in the order
    no flip, h flip, v flip, h&v flips. *)
Definition codes : list Z :=
  [ (* 16-bit modes. *)
    MEDIA_BUS_FMT_SRGGB16_1X16; MEDIA_BUS_FMT_SGRBG16_1X16;
    MEDIA_BUS_FMT_SGBRG16_1X16; MEDIA_BUS_FMT_SBGGR16_1X16;
    (* 12-bit modes. *)
    MEDIA_BUS_FMT_SRGGB12_1X12; MEDIA_BUS_FMT_SGRBG12_1X12;
    MEDIA_BUS_FMT_SGBRG12_1X12; MEDIA_BUS_FMT_SBGGR12_1X12 ].

Definition mono_codes : list Z :=
  [ MEDIA_BUS_FMT_Y16_1X16; MEDIA_BUS_FMT_Y12_1X12 ].

(** ** Timing arithmetic *)

(** [calculate_v4l2_cid_exposure]: all operands are [u64]. *)
Definition calculate_v4l2_cid_exposure (hmax vmax shr svr offset : Z) : outcome Z :=
  let numerator := u64 ((vmax * (svr + 1) - shr) * hmax + offset) in
  obind (do_div numerator hmax) (fun numerator =>
  Done (clamp_t_u32 numerator 0 0xFFFFFFFF)).

(** [calculate_min_max_v4l2_cid_exposure]: the two out-parameters are returned
    as the pair [(min_exposure, max_exposure)]. *)
Definition calculate_min_max_v4l2_cid_exposure
    (hmax vmax min_shr svr offset : Z) : outcome (Z * Z) :=
  let max_shr := u64 ((svr + 1) * vmax - 4) in
  let max_shr := min_t_u64 max_shr 0xFFFF in
  obind (calculate_v4l2_cid_exposure hmax vmax max_shr svr offset) (fun min_exposure =>
  obind (calculate_v4l2_cid_exposure hmax vmax min_shr svr offset) (fun max_exposure =>
  Done (min_exposure, max_exposure))).

(** [calculate_shr]: [exposure], [hmax], [svr] and [offset] are [uint32_t]
    parameters, [vmax] is [uint64_t]; the result is a [uint32_t]. *)
Definition calculate_shr (exposure hmax vmax svr offset : Z) : outcome Z :=
  let exposure := u32 exposure in
  let hmax := u32 hmax in
  let vmax := u64 vmax in
  let svr := u32 svr in
  let offset := u32 offset in
  let temp := u64 (exposure * hmax - offset) in
  obind (do_div temp hmax) (fun temp =>
  Done (u32 (vmax * u32 (svr + 1) - temp))).

(** The pixel rate reported for a mode, as computed both in
    [imx586_set_ctrl] (HBLANK) and in [imx586_set_framing_limits]:
    [pixel_rate = (u64)mode->width * IMX586_PIXEL_RATE; do_div(pixel_rate, mode->min_HMAX)]. *)
Definition mode_pixel_rate (mode : imx586_mode) : outcome Z :=
  do_div (u64 (u32 (width mode) * IMX586_PIXEL_RATE)) (min_HMAX mode).

(** The HBLANK case of [imx586_set_ctrl]:
    [hmax = (u64)(mode->width + ctrl->val) * IMX586_PIXEL_RATE; do_div(hmax, pixel_rate)]. *)
Definition hblank_to_hmax (mode : imx586_mode) (ctrl_val : Z) : outcome Z :=
  obind (mode_pixel_rate mode) (fun pixel_rate =>
  do_div (u64 (u32 (width mode + ctrl_val) * IMX586_PIXEL_RATE)) pixel_rate).

(** The conversion as the specification words it: a nearest-integer rounding
    of [(width + hblank) * rate / pixel_rate_at_min_line_length], with
    [pixel_rate_at_min_line_length = width * rate / min_line_length] taken
    exactly ([spec_line_length_exact]) or as an integer quotient
    ([spec_line_length_floor]). *)
Definition Qnearest (q : Q) : Z := Qfloor (q + (1 # 2)).

Definition spec_line_length_exact (mode : imx586_mode) (hblank : Z) : Z :=
  let rate := inject_Z IMX586_PIXEL_RATE in
  let pixel_rate_at_min := (inject_Z (width mode) * rate / inject_Z (min_HMAX mode))%Q in
  Qnearest (inject_Z (width mode + hblank) * rate / pixel_rate_at_min)%Q.

Definition spec_line_length_floor (mode : imx586_mode) (hblank : Z) : Z :=
  let rate := inject_Z IMX586_PIXEL_RATE in
  let pixel_rate_at_min := width mode * IMX586_PIXEL_RATE / min_HMAX mode in
  Qnearest (inject_Z (width mode + hblank) * rate / inject_Z pixel_rate_at_min)%Q.

(** ** Controls and the driver structure *)

Inductive ctrl_id : Type :=
| V4L2_CID_PIXEL_RATE
| V4L2_CID_VBLANK
| V4L2_CID_HBLANK
| V4L2_CID_EXPOSURE
| V4L2_CID_ANALOGUE_GAIN
| V4L2_CID_HFLIP
| V4L2_CID_VFLIP.

(** The part of [struct v4l2_ctrl] the driver reads or causes to change:
    the published range, the current value and the two flags involved. *)
Record v4l2_ctrl : Type := {
  minimum : Z;
  maximum : Z;
  step : Z;
  default_value : Z;
  cur : Z;
  read_only : bool;
  grabbed : bool
}.

(** [struct imx586].  The controls are held by value; [analogue_gain] is the
    control that the source registers on the handler without keeping a
    pointer to it.  Clocks, regulators, pads and the mutex are left out. *)
Record imx586 : Type := {
  fmt_code : Z;
  pixel_rate : v4l2_ctrl;
  exposure : v4l2_ctrl;
  vflip : v4l2_ctrl;
  hflip : v4l2_ctrl;
  vblank : v4l2_ctrl;
  hblank : v4l2_ctrl;
  analogue_gain : v4l2_ctrl;
  mode : imx586_mode;
  mono : bool;
  HMAX : Z;  (* uint16_t *)
  VMAX : Z;  (* uint32_t *)
  streaming : bool;
  common_regs_written : bool
}.

Definition set_fmt_code (v : Z) (d : imx586) : imx586 :=
  {| fmt_code := v; pixel_rate := pixel_rate d; exposure := exposure d;
     vflip := vflip d; hflip := hflip d; vblank := vblank d; hblank := hblank d;
     analogue_gain := analogue_gain d; mode := mode d; mono := mono d;
     HMAX := HMAX d; VMAX := VMAX d; streaming := streaming d;
     common_regs_written := common_regs_written d |}.

Definition set_mode (v : imx586_mode) (d : imx586) : imx586 :=
  {| fmt_code := fmt_code d; pixel_rate := pixel_rate d; exposure := exposure d;
     vflip := vflip d; hflip := hflip d; vblank := vblank d; hblank := hblank d;
     analogue_gain := analogue_gain d; mode := v; mono := mono d;
     HMAX := HMAX d; VMAX := VMAX d; streaming := streaming d;
     common_regs_written := common_regs_written d |}.

Definition set_HMAX (v : Z) (d : imx586) : imx586 :=
  {| fmt_code := fmt_code d; pixel_rate := pixel_rate d; exposure := exposure d;
     vflip := vflip d; hflip := hflip d; vblank := vblank d; hblank := hblank d;
     analogue_gain := analogue_gain d; mode := mode d; mono := mono d;
     HMAX := v; VMAX := VMAX d; streaming := streaming d;
     common_regs_written := common_regs_written d |}.

Definition set_VMAX (v : Z) (d : imx586) : imx586 :=
  {| fmt_code := fmt_code d; pixel_rate := pixel_rate d; exposure := exposure d;
     vflip := vflip d; hflip := hflip d; vblank := vblank d; hblank := hblank d;
     analogue_gain := analogue_gain d; mode := mode d; mono := mono d;
     HMAX := HMAX d; VMAX := v; streaming := streaming d;
     common_regs_written := common_regs_written d |}.

Definition set_streaming (v : bool) (d : imx586) : imx586 :=
  {| fmt_code := fmt_code d; pixel_rate := pixel_rate d; exposure := exposure d;
     vflip := vflip d; hflip := hflip d; vblank := vblank d; hblank := hblank d;
     analogue_gain := analogue_gain d; mode := mode d; mono := mono d;
     HMAX := HMAX d; VMAX := VMAX d; streaming := v;
     common_regs_written := common_regs_written d |}.

Definition set_common_regs_written (v : bool) (d : imx586) : imx586 :=
  {| fmt_code := fmt_code d; pixel_rate := pixel_rate d; exposure := exposure d;
     vflip := vflip d; hflip := hflip d; vblank := vblank d; hblank := hblank d;
     analogue_gain := analogue_gain d; mode := mode d; mono := mono d;
     HMAX := HMAX d; VMAX := VMAX d; streaming := streaming d;
     common_regs_written := v |}.

(** The control a [struct v4l2_ctrl *] of the given id points to. *)
Definition get_ctrl (d : imx586) (id : ctrl_id) : v4l2_ctrl :=
  match id with
  | V4L2_CID_PIXEL_RATE => pixel_rate d
  | V4L2_CID_VBLANK => vblank d
  | V4L2_CID_HBLANK => hblank d
  | V4L2_CID_EXPOSURE => exposure d
  | V4L2_CID_ANALOGUE_GAIN => analogue_gain d
  | V4L2_CID_HFLIP => hflip d
  | V4L2_CID_VFLIP => vflip d
  end.

Definition put_ctrl (id : ctrl_id) (c : v4l2_ctrl) (d : imx586) : imx586 :=
  let pick (i : ctrl_id) (old : v4l2_ctrl) : v4l2_ctrl :=
    match id, i with
    | V4L2_CID_PIXEL_RATE, V4L2_CID_PIXEL_RATE
    | V4L2_CID_VBLANK, V4L2_CID_VBLANK
    | V4L2_CID_HBLANK, V4L2_CID_HBLANK
    | V4L2_CID_EXPOSURE, V4L2_CID_EXPOSURE
    | V4L2_CID_ANALOGUE_GAIN, V4L2_CID_ANALOGUE_GAIN
    | V4L2_CID_HFLIP, V4L2_CID_HFLIP
    | V4L2_CID_VFLIP, V4L2_CID_VFLIP => c
    | _, _ => old
    end in
  {| fmt_code := fmt_code d;
     pixel_rate := pick V4L2_CID_PIXEL_RATE (pixel_rate d);
     exposure := pick V4L2_CID_EXPOSURE (exposure d);
     vflip := pick V4L2_CID_VFLIP (vflip d);
     hflip := pick V4L2_CID_HFLIP (hflip d);
     vblank := pick V4L2_CID_VBLANK (vblank d);
     hblank := pick V4L2_CID_HBLANK (hblank d);
     analogue_gain := pick V4L2_CID_ANALOGUE_GAIN (analogue_gain d);
     mode := mode d; mono := mono d;
     HMAX := HMAX d; VMAX := VMAX d; streaming := streaming d;
     common_regs_written := common_regs_written d |}.

(** ** The world the driver runs in *)

(** One [i2c_master_send]: the bytes handed over and the value returned. *)
Record i2c_xfer : Type := Xfer { buf : list Z; status : Z }.

Record world : Type := {
  dev : imx586;
  (* every I2C transfer issued so far, oldest first *)
  i2c_log : list i2c_xfer;
  (* the bus: transfer number [n] (counted from 0) returns the status listed
     for [n]; a transfer that is not listed sends all its bytes *)
  i2c_faults : list (nat * Z);
  (* runtime-PM usage counter of the I2C client device *)
  usage_count : nat;
  (* what [pm_runtime_get_sync] reports when it resumes the device *)
  resume_status : Z;
  (* the indeterminate content of the uninitialised local
     [current_exposure] of [imx586_set_ctrl] *)
  stack_junk : Z
}.

Definition with_dev (d : imx586) (w : world) : world :=
  {| dev := d; i2c_log := i2c_log w; i2c_faults := i2c_faults w;
     usage_count := usage_count w; resume_status := resume_status w;
     stack_junk := stack_junk w |}.

Definition with_i2c_log (l : list i2c_xfer) (w : world) : world :=
  {| dev := dev w; i2c_log := l; i2c_faults := i2c_faults w;
     usage_count := usage_count w; resume_status := resume_status w;
     stack_junk := stack_junk w |}.

Definition with_usage_count (n : nat) (w : world) : world :=
  {| dev := dev w; i2c_log := i2c_log w; i2c_faults := i2c_faults w;
     usage_count := n; resume_status := resume_status w;
     stack_junk := stack_junk w |}.

(** A computation of the driver: it runs to a value and a new world, or
    hits undefined behaviour. *)
Definition M (A : Type) : Type := world -> outcome (A * world).

Definition ret {A} (a : A) : M A := fun w => Done (a, w).

Definition bind {A B} (m : M A) (k : A -> M B) : M B :=
  fun w => match m w with
           | Done (a, w') => k a w'
           | Fault f => Fault f
           end.

Definition lift {A} (o : outcome A) : M A :=
  fun w => match o with
           | Done a => Done (a, w)
           | Fault f => Fault f
           end.

Definition get_dev : M imx586 := fun w => Done (dev w, w).
Definition modify_dev (f : imx586 -> imx586) : M unit :=
  fun w => Done (tt, with_dev (f (dev w)) w).

Declare Scope drv_scope.
Delimit Scope drv_scope with drv.
Notation "x <- m ;; k" := (bind m (fun x => k))
  (at level 61, m at next level, right associativity) : drv_scope.
Notation "m ;;; k" := (bind m (fun _ => k))
  (at level 61, right associativity) : drv_scope.
Local Open Scope drv_scope.

(** ** Register transport *)

Fixpoint fault_at (n : nat) (faults : list (nat * Z)) : option Z :=
  match faults with
  | [] => None
  | (k, r) :: rest => if Nat.eqb k n then Some r else fault_at n rest
  end.

(** [i2c_master_send(client, buf, count)]: the number of bytes sent, or what
    the bus reports for this transfer. *)
Definition i2c_master_send (b : list Z) (count : Z) : M Z :=
  fun w =>
    let r := match fault_at (length (i2c_log w)) (i2c_faults w) with
             | Some r => r
             | None => count
             end in
    Done (r, with_i2c_log (i2c_log w ++ [Xfer b r]) w).

(** [put_unaligned_be16(reg, buf)] for a [u16 reg]. *)
Definition put_unaligned_be16 (reg : Z) : list Z :=
  [u8 (Z.shiftr (u16 reg) 8); u8 (u16 reg)].

Definition imx586_write_reg_1byte (reg v : Z) : M Z :=
  let b := put_unaligned_be16 reg ++ [u8 v] in
  r <- i2c_master_send b 3 ;;
  if r =? 3 then ret 0 else ret r.

Definition imx586_write_reg_2byte (reg v : Z) : M Z :=
  let v := u16 v in
  let b := put_unaligned_be16 reg ++ [u8 v; u8 (Z.shiftr v 8)] in
  r <- i2c_master_send b 4 ;;
  if r =? 4 then ret 0 else ret r.

Definition imx586_write_reg_3byte (reg v : Z) : M Z :=
  let v := u32 v in
  let b := put_unaligned_be16 reg ++ [u8 v; u8 (Z.shiftr v 8); u8 (Z.shiftr v 16)] in
  r <- i2c_master_send b 5 ;;
  if r =? 5 then ret 0 else ret (- EIO).

(** [imx586_write_regs]: stops at the first write that reports an error. *)
Fixpoint imx586_write_regs (regs : list imx586_reg) : M Z :=
  match regs with
  | [] => ret 0
  | r :: rest =>
      e <- imx586_write_reg_1byte (address r) (val r) ;;
      if e =? 0 then imx586_write_regs rest else ret e
  end.

(** [imx586_register_hold]: the status of the write is dropped. *)
Definition imx586_register_hold (hold : bool) : M unit :=
  imx586_write_reg_1byte 0x3001 (if hold then 1 else 0) ;;; ret tt.

(** ** Runtime PM (pm_runtime.h), reduced to the usage counter *)

Definition pm_runtime_get_if_in_use : M Z :=
  fun w => match usage_count w with
           | O => Done (0, w)
           | S _ => Done (1, with_usage_count (S (usage_count w)) w)
           end.

Definition pm_runtime_put : M unit :=
  fun w => Done (tt, with_usage_count (Nat.pred (usage_count w)) w).

Definition pm_runtime_put_noidle : M unit := pm_runtime_put.

Definition pm_runtime_get_sync : M Z :=
  fun w => Done (resume_status w, with_usage_count (S (usage_count w)) w).

(** ** The V4L2 control framework, as far as the driver calls it

    This is kernel code outside the repository (v4l2-ctrls-core.c and
    v4l2-ctrls-api.c).  The definitions follow it for integer controls of
    step 1, which all controls of this driver are; the events the
    framework sends to user space are not represented. *)

Definition clamp (v lo hi : Z) : Z := Z.min (Z.max v lo) hi.

(** A control with another current value. *)
Definition set_cur (v : Z) (c : v4l2_ctrl) : v4l2_ctrl :=
  {| minimum := minimum c; maximum := maximum c; step := step c;
     default_value := default_value c; cur := v;
     read_only := read_only c; grabbed := grabbed c |}.

(** [set_ctrl], with [try_or_set_cluster], for a control that is alone in
    its cluster.  The new value is validated, that is brought into the
    range; a grabbed control is refused with [-EBUSY]; a value equal to the
    current one is not handed to the driver ("don't set if there is no
    change"); otherwise the driver's operation [s_ctrl] is called, and the
    new value becomes current when it returns 0. *)
Definition set_ctrl (s_ctrl : ctrl_id -> Z -> M Z) (id : ctrl_id) (v : Z) : M Z :=
  d <- get_dev ;;
  let c := get_ctrl d id in
  let v := clamp v (minimum c) (maximum c) in
  if grabbed c then ret (- EBUSY)
  else if v =? cur c then ret 0
  else
    r <- s_ctrl id v ;;
    if negb (r =? 0) then ret r
    else modify_dev (fun d => put_ctrl id (set_cur v (get_ctrl d id)) d) ;;; ret 0.

(** [__v4l2_ctrl_modify_range]: rejects an inconsistent range with
    [-ERANGE]; otherwise publishes it, and when the current value lies
    outside it, sets the control to the nearest value of the range through
    [set_ctrl], which calls the driver back. *)
Definition modify_range (s_ctrl : ctrl_id -> Z -> M Z)
    (id : ctrl_id) (min max stp def : Z) : M Z :=
  let min := s64 min in
  let max := s64 max in
  let stp := u64 stp in
  let def := s64 def in
  d <- get_dev ;;
  let c := get_ctrl d id in
  if (stp =? 0) || (max <? min) || (def <? min) || (max <? def) then ret (- ERANGE)
  else
    modify_dev (put_ctrl id
      {| minimum := min; maximum := max; step := stp; default_value := def;
         cur := cur c;
         read_only := read_only c; grabbed := grabbed c |}) ;;;
    if negb (clamp (cur c) min max =? cur c) then set_ctrl s_ctrl id (cur c)
    else ret 0.

(** [__v4l2_ctrl_grab]: sets or clears the flag that makes the framework
    refuse, with [-EBUSY], every request to change the control. *)
Definition __v4l2_ctrl_grab (id : ctrl_id) (g : bool) : M unit :=
  d <- get_dev ;;
  let c := get_ctrl d id in
  modify_dev (put_ctrl id
    {| minimum := minimum c; maximum := maximum c; step := step c;
       default_value := default_value c; cur := cur c;
       read_only := read_only c; grabbed := g |}).

(** [v4l2_ctrl_new_std]: a control starts at its default value;
    [V4L2_CID_PIXEL_RATE] is read-only. *)
Definition v4l2_ctrl_new_std (id : ctrl_id) (min max stp def : Z) : v4l2_ctrl :=
  {| minimum := min; maximum := max; step := stp; default_value := def;
     cur := def;
     read_only := match id with V4L2_CID_PIXEL_RATE => true | _ => false end;
     grabbed := false |}.

(** The controls of the handler, in the order [imx586_init_controls]
    creates them. *)
Definition handler_ctrls : list ctrl_id :=
  [ V4L2_CID_PIXEL_RATE; V4L2_CID_VBLANK; V4L2_CID_HBLANK; V4L2_CID_EXPOSURE;
    V4L2_CID_ANALOGUE_GAIN; V4L2_CID_HFLIP; V4L2_CID_VFLIP ].

(** ** Applying a control: [imx586_set_ctrl] *)

Definition get_stack_junk : M Z := fun w => Done (stack_junk w, w).

(** [imx586_set_ctrl], in the three parts the source has in sequence;
    [ctrl->id] and [ctrl->val] are passed as [id] and [ctrl_val], and
    [mode] is [imx586->mode].

    Third part, [switch (ctrl->id)]. *)
Definition imx586_set_ctrl_switch (id : ctrl_id) (ctrl_val : Z) : M Z :=
  d <- get_dev ;;
  let mode := mode d in
  match id with
  | V4L2_CID_EXPOSURE =>
      shr <- lift (calculate_shr ctrl_val (HMAX d) (VMAX d) 0 209) ;;
      imx586_write_reg_2byte IMX586_REG_SHR shr
  | V4L2_CID_ANALOGUE_GAIN =>
      let gain := ctrl_val in
      (* Use HCG mode when gain is over the HGC level;
         this can only be done when HDR is disabled *)
      let useHGC := negb (hdr mode) && (IMX586_ANA_GAIN_HCG_THRESHOLD <=? gain) in
      let gain :=
        if useHGC then
          let gain := gain - IMX586_ANA_GAIN_HCG_LEVEL in
          if gain <? IMX586_ANA_GAIN_HCG_MIN then IMX586_ANA_GAIN_HCG_MIN else gain
        else gain in
      (* Apply gain; the status of this write is overwritten below *)
      imx586_register_hold true ;;;
      imx586_write_reg_2byte IMX586_REG_ANALOG_GAIN gain ;;;
      (* Set HGC/LCG channel *)
      r <- imx586_write_reg_1byte IMX586_REG_FDG_SEL0 (if useHGC then 0x01 else 0x00) ;;
      imx586_register_hold false ;;;
      ret r
  | V4L2_CID_VBLANK =>
      modify_dev (set_VMAX (u32 (u64 (u32 (height mode) + ctrl_val)))) ;;;
      d <- get_dev ;;
      imx586_write_reg_3byte IMX586_REG_VMAX (VMAX d)
  | V4L2_CID_HBLANK =>
      hmax <- lift (hblank_to_hmax mode ctrl_val) ;;
      modify_dev (set_HMAX (u16 hmax)) ;;;
      imx586_write_reg_2byte IMX586_REG_HMAX hmax
  | V4L2_CID_HFLIP =>
      imx586_write_reg_1byte IMX586_FLIP_WINMODEH ctrl_val
  | V4L2_CID_VFLIP =>
      imx586_write_reg_1byte IMX586_FLIP_WINMODEV ctrl_val
  | V4L2_CID_PIXEL_RATE => ret 0
  end.

(** Second and third part: applying V4L2 control value only happens when
    power is up for streaming.  For every control but VBLANK this is all
    of [imx586_set_ctrl]. *)
Definition imx586_set_ctrl_apply (id : ctrl_id) (ctrl_val : Z) : M Z :=
  in_use <- pm_runtime_get_if_in_use ;;
  if in_use =? 0 then ret 0
  else
    r <- imx586_set_ctrl_switch id ctrl_val ;;
    pm_runtime_put ;;;
    ret r.

(** First part, the block guarded by [ctrl->id == V4L2_CID_VBLANK]: the
    VBLANK control may change the limits of usable exposure.  When the
    framework has to move the exposure into the new range it calls
    [imx586_set_ctrl] back on the exposure control, for which the first
    part is skipped: the operation it runs is [imx586_set_ctrl_apply].
    The status of [__v4l2_ctrl_modify_range] is dropped. *)
Definition imx586_set_ctrl_vblank_limits (ctrl_val : Z) : M unit :=
  d <- get_dev ;;
  let mode := mode d in
  let vmax := u64 (u32 (height mode) + ctrl_val) in
  modify_dev (set_VMAX (u32 vmax)) ;;;
  d <- get_dev ;;
  mm <- lift (calculate_min_max_v4l2_cid_exposure
                (HMAX d) (VMAX d) (u64 (min_SHR mode)) 0 209) ;;
  let (min_exposure, max_exposure) := mm in
  (* current_exposure is read before anything was stored in it *)
  current_exposure <- get_stack_junk ;;
  let current_exposure := clamp_t_u32 current_exposure min_exposure max_exposure in
  modify_range imx586_set_ctrl_apply V4L2_CID_EXPOSURE
    min_exposure max_exposure 1 current_exposure ;;;
  ret tt.

Definition imx586_set_ctrl (id : ctrl_id) (ctrl_val : Z) : M Z :=
  match id with
  | V4L2_CID_VBLANK => imx586_set_ctrl_vblank_limits ctrl_val
  | _ => ret tt
  end ;;;
  imx586_set_ctrl_apply id ctrl_val.

(** The framework with [imx586_set_ctrl] as the operation of every
    control ([imx586_ctrl_ops]). *)
Definition __v4l2_ctrl_modify_range (id : ctrl_id) (min max stp def : Z) : M Z :=
  modify_range imx586_set_ctrl id min max stp def.

(** [__v4l2_ctrl_s_ctrl]: the value is a [s32]. *)
Definition __v4l2_ctrl_s_ctrl (id : ctrl_id) (v : Z) : M Z :=
  set_ctrl imx586_set_ctrl id (s32 v).

(** [v4l2_s_ctrl], the entry point of a user request ([VIDIOC_S_CTRL]): the
    64-bit pixel-rate control cannot be set through it ([-EINVAL]), and a
    read-only control is refused with [-EACCES]. *)
Definition v4l2_s_ctrl (id : ctrl_id) (v : Z) : M Z :=
  d <- get_dev ;;
  match id with
  | V4L2_CID_PIXEL_RATE => ret (- EINVAL)
  | _ =>
      if read_only (get_ctrl d id) then ret (- EACCES)
      else set_ctrl imx586_set_ctrl id (s32 v)
  end.

(** [__v4l2_ctrl_handler_setup]: hands the current value of every writable
    control to the driver, in handler order, until one call fails. *)
Fixpoint handler_setup_from (ids : list ctrl_id) : M Z :=
  match ids with
  | [] => ret 0
  | id :: rest =>
      d <- get_dev ;;
      let c := get_ctrl d id in
      if read_only c then handler_setup_from rest
      else
        r <- imx586_set_ctrl id (cur c) ;;
        if r =? 0 then handler_setup_from rest else ret r
  end.

Definition __v4l2_ctrl_handler_setup : M Z := handler_setup_from handler_ctrls.

(** ** Format resolution *)

(** The search loop of [imx586_get_format_code]:
    [for (i = 0; i < ARRAY_SIZE(tbl); i++) if (tbl[i] == code) break;]
    started at index [i]; the result is the value of [i] after the loop. *)
Fixpoint code_index (tbl : list Z) (code : Z) (i : nat) : nat :=
  match tbl with
  | [] => i
  | c :: rest => if c =? code then i else code_index rest code (S i)
  end.

(** The table [imx586_get_format_code] searches. *)
Definition code_table (imx586 : imx586) : list Z :=
  if mono imx586 then mono_codes else codes.

(** Get bayer order based on flip setting. *)
Definition imx586_get_format_code (imx586 : imx586) (code : Z) : outcome Z :=
  let code := u32 code in
  if mono imx586 then
    let i := code_index mono_codes code 0 in
    array_get mono_codes i
  else
    let i := code_index codes code 0 in
    array_get codes i.

(** The resolver as the comment above the [codes] table words it: entry
    [4 * (i / 4) + (vflip ? 2 : 0) + (hflip ? 1 : 0)] of the quadruplet that
    holds the requested code. *)
Definition spec_format_code (imx586 : imx586) (code : Z) : outcome Z :=
  let i := code_index codes (u32 code) 0 in
  let i := (4 * (i / 4) + (if Z.eqb (cur (vflip imx586)) 0 then 0 else 2)
                        + (if Z.eqb (cur (hflip imx586)) 0 then 0 else 1))%nat in
  array_get codes i.

(** [get_mode_table]: [*mode_list] with [*num_modes] entries; [NULL] with 0
    entries is the empty list. *)
Definition get_mode_table (imx586 : imx586) (code transfer_function : Z)
  : list imx586_mode :=
  let code := u32 code in
  let by_xfer :=
    if transfer_function =? V4L2_XFER_FUNC_GRADATION_COMPRESSION
    then supported_modes_nonlinear_12bit
    else supported_modes_12bit in
  if mono imx586 then
    if code =? MEDIA_BUS_FMT_Y16_1X16 then supported_modes_16bit
    else if code =? MEDIA_BUS_FMT_Y12_1X12 then by_xfer
    else []
  else
    if (code =? MEDIA_BUS_FMT_SRGGB16_1X16) || (code =? MEDIA_BUS_FMT_SGRBG16_1X16)
       || (code =? MEDIA_BUS_FMT_SGBRG16_1X16) || (code =? MEDIA_BUS_FMT_SBGGR16_1X16)
    then supported_modes_16bit
    else if (code =? MEDIA_BUS_FMT_SRGGB12_1X12) || (code =? MEDIA_BUS_FMT_SGRBG12_1X12)
       || (code =? MEDIA_BUS_FMT_SGBRG12_1X12) || (code =? MEDIA_BUS_FMT_SBGGR12_1X12)
    then by_xfer
    else [].

(** [v4l2_find_nearest_size] (v4l2-common.h) over the [width] and [height]
    fields: the entry with the least [|width - w| + |height - h|]; [NULL]
    ([None]) for an empty array. *)
Fixpoint find_nearest_size_from (arr : list imx586_mode) (w h : Z)
    (min_error : Z) (best : option imx586_mode) : option imx586_mode :=
  match arr with
  | [] => best
  | e :: rest =>
      let error := u32 (Z.abs (s32 (width e - w)) + Z.abs (s32 (height e - h))) in
      if min_error <? error then find_nearest_size_from rest w h min_error best
      else if error =? 0 then Some e
      else find_nearest_size_from rest w h error (Some e)
  end.

Definition v4l2_find_nearest_size (arr : list imx586_mode) (w h : Z)
  : option imx586_mode :=
  find_nearest_size_from arr (s32 w) (s32 h) 0xFFFFFFFF None.

Record v4l2_mbus_framefmt : Type := {
  fmt_width : Z;
  fmt_height : Z;
  code : Z;
  field : Z;
  colorspace : Z;
  ycbcr_enc : Z;
  quantization : Z;
  xfer_func : Z
}.

Record v4l2_subdev_format : Type := {
  which : Z;
  pad : Z;
  format : v4l2_mbus_framefmt
}.

(** The try formats of a [struct v4l2_subdev_state], one per pad. *)
Record v4l2_subdev_state : Type := {
  try_fmt_image : v4l2_mbus_framefmt;
  try_fmt_meta : v4l2_mbus_framefmt
}.

Definition set_try_format (p : Z) (f : v4l2_mbus_framefmt) (s : v4l2_subdev_state)
  : v4l2_subdev_state :=
  if u32 p =? IMAGE_PAD
  then {| try_fmt_image := f; try_fmt_meta := try_fmt_meta s |}
  else {| try_fmt_image := try_fmt_image s; try_fmt_meta := f |}.

Definition with_format (f : v4l2_mbus_framefmt) (fmt : v4l2_subdev_format)
  : v4l2_subdev_format :=
  {| which := which fmt; pad := pad fmt; format := f |}.

Definition with_code (c : Z) (f : v4l2_mbus_framefmt) : v4l2_mbus_framefmt :=
  {| fmt_width := fmt_width f; fmt_height := fmt_height f; code := c;
     field := field f; colorspace := colorspace f; ycbcr_enc := ycbcr_enc f;
     quantization := quantization f; xfer_func := xfer_func f |}.

(** [imx586_update_image_pad_format] with [imx586_reset_colorspace] inlined;
    [mode] is dereferenced, so a null [mode] is a fault. *)
Definition imx586_update_image_pad_format (mode : option imx586_mode)
    (fmt : v4l2_subdev_format) : outcome v4l2_subdev_format :=
  match mode with
  | None => Fault NullDeref
  | Some mode =>
      Done (with_format
        {| fmt_width := width mode;
           fmt_height := height mode;
           code := code (format fmt);
           field := V4L2_FIELD_NONE;
           colorspace := V4L2_COLORSPACE_RAW;
           ycbcr_enc := V4L2_YCBCR_ENC_601;
           quantization := V4L2_QUANTIZATION_FULL_RANGE;
           xfer_func := if linear mode then V4L2_XFER_FUNC_NONE
                        else V4L2_XFER_FUNC_GRADATION_COMPRESSION |} fmt)
  end.

Definition imx586_update_metadata_pad_format (fmt : v4l2_subdev_format)
  : v4l2_subdev_format :=
  with_format
    {| fmt_width := IMX586_EMBEDDED_LINE_WIDTH;
       fmt_height := IMX586_NUM_EMBEDDED_LINES;
       code := MEDIA_BUS_FMT_SENSOR_DATA;
       field := V4L2_FIELD_NONE;
       colorspace := colorspace (format fmt); ycbcr_enc := ycbcr_enc (format fmt);
       quantization := quantization (format fmt); xfer_func := xfer_func (format fmt) |} fmt.

Definition imx586_reg_eqb (a b : imx586_reg) : bool :=
  (address a =? address b) && (val a =? val b).

Fixpoint reg_list_eqb (a b : list imx586_reg) : bool :=
  match a, b with
  | [], [] => true
  | x :: a', y :: b' => imx586_reg_eqb x y && reg_list_eqb a' b'
  | _, _ => false
  end.

(** Pointer equality on modes.  The catalog holds five pairwise different
    records ([mode_catalog_NoDup]), so comparing the records decides whether
    two pointers into it are the same. *)
Definition mode_eqb (a b : imx586_mode) : bool :=
  (width a =? width b) && (height a =? height b)
  && Bool.eqb (hdr a) (hdr b) && Bool.eqb (linear a) (linear b)
  && (min_HMAX a =? min_HMAX b) && (min_VMAX a =? min_VMAX b)
  && (default_HMAX a =? default_HMAX b) && (default_VMAX a =? default_VMAX b)
  && (min_SHR a =? min_SHR b)
  && reg_list_eqb (reg_list a) (reg_list b).

(** [imx586_set_framing_limits] *)
Definition imx586_set_framing_limits : M unit :=
  d <- get_dev ;;
  let mode := mode d in
  modify_dev (set_VMAX (u32 (default_VMAX mode))) ;;;
  modify_dev (set_HMAX (u16 (default_HMAX mode))) ;;;
  pixel_rate <- lift (mode_pixel_rate mode) ;;
  def_hblank <- lift (do_div (u64 (default_HMAX mode * pixel_rate)) IMX586_PIXEL_RATE) ;;
  let def_hblank := u64 (def_hblank - width mode) in
  __v4l2_ctrl_modify_range V4L2_CID_HBLANK 0 IMX586_HMAX_MAX 1 def_hblank ;;;
  __v4l2_ctrl_s_ctrl V4L2_CID_HBLANK def_hblank ;;;
  (* Update limits and set FPS to default *)
  __v4l2_ctrl_modify_range V4L2_CID_VBLANK
    (u64 (min_VMAX mode - height mode)) (u64 (IMX586_VMAX_MAX - height mode))
    1 (u64 (default_VMAX mode - height mode)) ;;;
  __v4l2_ctrl_s_ctrl V4L2_CID_VBLANK (u64 (default_VMAX mode - height mode)) ;;;
  __v4l2_ctrl_modify_range V4L2_CID_PIXEL_RATE pixel_rate pixel_rate 1 pixel_rate ;;;
  ret tt.

(** [imx586_set_pad_format]: the status, with the caller's [sd_state] and
    [fmt] as the function leaves them. *)
Definition imx586_set_pad_format (sd_state : v4l2_subdev_state)
    (fmt : v4l2_subdev_format) : M (Z * v4l2_subdev_state * v4l2_subdev_format) :=
  if NUM_PADS <=? u32 (pad fmt) then ret (- EINVAL, sd_state, fmt)
  else if u32 (pad fmt) =? IMAGE_PAD then
    imx586 <- get_dev ;;
    let current_mode := mode imx586 in
    (* Bayer order varies with flips *)
    c <- lift (imx586_get_format_code imx586 (code (format fmt))) ;;
    let fmt := with_format (with_code c (format fmt)) fmt in
    let mode_list := get_mode_table imx586 (code (format fmt)) (xfer_func (format fmt)) in
    let mode := v4l2_find_nearest_size mode_list
                  (fmt_width (format fmt)) (fmt_height (format fmt)) in
    fmt <- lift (imx586_update_image_pad_format mode fmt) ;;
    match mode with
    | None => lift (Fault NullDeref)
    | Some mode =>
        if which fmt =? V4L2_SUBDEV_FORMAT_TRY then
          ret (0, set_try_format (pad fmt) (format fmt) sd_state, fmt)
        else if negb (mode_eqb current_mode mode) then
          modify_dev (set_mode mode) ;;;
          modify_dev (set_fmt_code (code (format fmt))) ;;;
          imx586_set_framing_limits ;;;
          ret (0, sd_state, fmt)
        else ret (0, sd_state, fmt)
    end
  else
    if which fmt =? V4L2_SUBDEV_FORMAT_TRY then
      ret (0, set_try_format (pad fmt) (format fmt) sd_state, fmt)
    else
      (* Only one embedded data mode is supported *)
      ret (0, sd_state, imx586_update_metadata_pad_format fmt).

(** [imx586_enum_frame_size] on the image pad: the status and, on success,
    the frame size [(width, height)] reported as both minimum and maximum. *)
Definition imx586_enum_frame_size (imx586 : imx586) (fse_code : Z) (fse_index : Z)
  : outcome (Z * option (Z * Z)) :=
  let mode_list := get_mode_table imx586 fse_code V4L2_XFER_FUNC_DEFAULT in
  if Z.of_nat (length mode_list) <=? u32 fse_index then Done (- EINVAL, None)
  else
    obind (imx586_get_format_code imx586 fse_code) (fun c =>
    if negb (u32 fse_code =? c) then Done (- EINVAL, None)
    else
      obind (array_get mode_list (Z.to_nat (u32 fse_index))) (fun m =>
      Done (0, Some (width m, height m)))).

(** ** Streaming *)

(** [imx586_start_streaming] *)
Definition imx586_start_streaming : M Z :=
  imx586 <- get_dev ;;
  r <- (if negb (common_regs_written imx586) then
          r <- imx586_write_regs mode_common_regs ;;
          if negb (r =? 0) then ret r
          else
            imx586_write_reg_2byte IMX586_REG_BLKLEVEL IMX586_BLKLEVEL_DEFAULT ;;;
            modify_dev (set_common_regs_written true) ;;;
            ret 0
        else ret 0) ;;
  if negb (r =? 0) then ret r
  else
    (* Apply default values of current mode *)
    imx586 <- get_dev ;;
    r <- imx586_write_regs (reg_list (mode imx586)) ;;
    if negb (r =? 0) then ret r
    else
      (* Apply gradation compression curve for non-linear mode *)
      (if negb (linear (mode imx586)) then
         imx586_write_reg_3byte IMX586_REG_CCMP1_EXP 500 ;;;
         imx586_write_reg_1byte IMX586_REG_ACMP1_EXP 0x2 ;;;
         imx586_write_reg_3byte IMX586_REG_CCMP2_EXP 11500 ;;;
         imx586_write_reg_1byte IMX586_REG_ACMP2_EXP 0x6 ;;;
         ret tt
       else
         imx586_write_reg_3byte IMX586_REG_CCMP1_EXP 0 ;;;
         imx586_write_reg_1byte IMX586_REG_ACMP1_EXP 0 ;;;
         imx586_write_reg_3byte IMX586_REG_CCMP2_EXP 0 ;;;
         imx586_write_reg_1byte IMX586_REG_ACMP2_EXP 0 ;;;
         ret tt) ;;;
      (* Apply HDR combining options *)
      (if hdr (mode imx586) then
         imx586_write_reg_2byte IMX586_REG_EXP_TH_H 4095 ;;;
         imx586_write_reg_2byte IMX586_REG_EXP_TH_L 512 ;;;
         imx586_write_reg_1byte IMX586_REG_EXP_BK 0 ;;;
         ret tt
       else ret tt) ;;;
      (* Disable digital clamp *)
      imx586_write_reg_1byte IMX586_REG_DIGITAL_CLAMP 0 ;;;
      (* Apply customized values from user *)
      r <- __v4l2_ctrl_handler_setup ;;
      if negb (r =? 0) then ret r
      else
        (* Set stream on register; the settle delay that follows has no
           effect on the state *)
        imx586_write_reg_1byte IMX586_REG_MODE_SELECT IMX586_MODE_STREAMING.

(** [imx586_stop_streaming]: the status of the write is only logged. *)
Definition imx586_stop_streaming : M unit :=
  imx586_write_reg_1byte IMX586_REG_MODE_SELECT IMX586_MODE_STANDBY ;;; ret tt.

(** [imx586_set_stream]; [enable] is the C [int]. *)
Definition imx586_set_stream (enable : Z) : M Z :=
  imx586 <- get_dev ;;
  if (if streaming imx586 then 1 else 0) =? enable then ret 0
  else if negb (enable =? 0) then
    r <- pm_runtime_get_sync ;;
    if r <? 0 then
      pm_runtime_put_noidle ;;; ret r
    else
      (* Apply default & customized values and then start streaming. *)
      r <- imx586_start_streaming ;;
      if negb (r =? 0) then
        pm_runtime_put ;;; ret r
      else
        modify_dev (set_streaming true) ;;;
        (* vflip and hflip cannot change during streaming *)
        __v4l2_ctrl_grab V4L2_CID_VFLIP true ;;;
        ret r
  else
    imx586_stop_streaming ;;;
    pm_runtime_put ;;;
    modify_dev (set_streaming false) ;;;
    __v4l2_ctrl_grab V4L2_CID_VFLIP false ;;;
    ret 0.

(** ** Device attach *)

(** The driver structure as [imx586_probe] has it when it calls
    [imx586_init_controls]: zeroed by [devm_kzalloc], [mono] read from the
    device tree, the default format set by [imx586_set_default_format], and
    the seven controls created by [v4l2_ctrl_new_std]. *)
Definition imx586_new_controls (mono_mode : bool) : imx586 :=
  {| fmt_code := if mono_mode then MEDIA_BUS_FMT_Y12_1X12
                 else MEDIA_BUS_FMT_SRGGB12_1X12;
     pixel_rate := v4l2_ctrl_new_std V4L2_CID_PIXEL_RATE 0xffff 0xffff 1 0xffff;
     vblank := v4l2_ctrl_new_std V4L2_CID_VBLANK 0 0xfffff 1 0;
     hblank := v4l2_ctrl_new_std V4L2_CID_HBLANK 0 0xffff 1 0;
     exposure := v4l2_ctrl_new_std V4L2_CID_EXPOSURE IMX586_EXPOSURE_MIN
                   IMX586_EXPOSURE_MAX IMX586_EXPOSURE_STEP IMX586_EXPOSURE_DEFAULT;
     analogue_gain := v4l2_ctrl_new_std V4L2_CID_ANALOGUE_GAIN IMX586_ANA_GAIN_MIN
                   IMX586_ANA_GAIN_MAX IMX586_ANA_GAIN_STEP IMX586_ANA_GAIN_DEFAULT;
     hflip := v4l2_ctrl_new_std V4L2_CID_HFLIP 0 1 1 0;
     vflip := v4l2_ctrl_new_std V4L2_CID_VFLIP 0 1 1 0;
     mode := mode_4k;  (* &supported_modes_12bit[0] *)
     mono := mono_mode;
     HMAX := 0; VMAX := 0;
     streaming := false;
     common_regs_written := false |}.

(** The world when [imx586_init_controls] reaches
    [imx586_set_framing_limits]: nothing sent yet, the device idle. *)
Definition attach_world (mono_mode : bool) (faults : list (nat * Z))
    (resume junk : Z) : world :=
  {| dev := imx586_new_controls mono_mode;
     i2c_log := [];
     i2c_faults := faults;
     usage_count := 0;
     resume_status := resume;
     stack_junk := junk |}.

(** Run a computation from a world; a fault leaves the world as it was
    found (used only to name concrete reachable worlds). *)
Definition exec {A} (m : M A) (w : world) : world :=
  match m w with
  | Done (_, w') => w'
  | Fault _ => w
  end.

(** The world after a successful probe. *)
Definition probed_world (mono_mode : bool) (faults : list (nat * Z))
    (resume junk : Z) : world :=
  exec imx586_set_framing_limits (attach_world mono_mode faults resume junk).

(** ** Worlds and predicates used in the statements *)

(** The invariants of the driver structure that every entry point relies on:
    the current mode is one of the catalog, [HMAX] is a non-zero [uint16_t],
    and the horizontal blanking lies in the range published for it. *)
Definition wf_dev (d : imx586) : Prop :=
  In (mode d) mode_catalog /\
  0 < HMAX d < 2 ^ 16 /\
  0 <= cur (hblank d) <= IMX586_HMAX_MAX.

(** The configured exposure lies in the range [imx586_set_ctrl] derives
    when the vertical blanking [v] is applied, as
    [__v4l2_ctrl_modify_range] receives it: the framework then has no reason
    to move the exposure and does not call the driver back. *)
Definition exposure_fits (d : imx586) (v : Z) : Prop :=
  match calculate_min_max_v4l2_cid_exposure (HMAX d)
          (u32 (u64 (u32 (height (mode d)) + v))) (u64 (min_SHR (mode d))) 0 209 with
  | Done (lo, hi) => s64 lo <= cur (exposure d) <= s64 hi
  | Fault _ => False
  end.

(** The same for the vertical blanking that is configured. *)
Definition exposure_settled (d : imx586) : Prop :=
  exposure_fits d (cur (vblank d)).

(** The transfers a computation adds to the log. *)
Definition new_xfers (w w' : world) : list i2c_xfer :=
  skipn (length (i2c_log w)) (i2c_log w').

(** The register a transfer addresses (the first two bytes, big endian). *)
Definition xfer_reg (x : i2c_xfer) : Z :=
  match buf x with
  | hi :: lo :: _ => 256 * hi + lo
  | _ => -1
  end.

(** Registers written by [imx586_start_streaming] and by the controls it
    re-applies whose write status the source drops: black level, the four
    compression-curve points, the three HDR registers, the digital clamp,
    the register hold and the analogue gain word. *)
Definition status_dropped (reg : Z) : bool :=
  existsb (Z.eqb reg)
    [ IMX586_REG_BLKLEVEL;
      IMX586_REG_CCMP1_EXP; IMX586_REG_ACMP1_EXP;
      IMX586_REG_CCMP2_EXP; IMX586_REG_ACMP2_EXP;
      IMX586_REG_EXP_TH_H; IMX586_REG_EXP_TH_L; IMX586_REG_EXP_BK;
      IMX586_REG_DIGITAL_CLAMP;
      0x3001; IMX586_REG_ANALOG_GAIN ].

(** A colour device after probe on which user space has set the horizontal
    flip (the device is idle, so the value is only recorded). *)
Definition hflipped_world : world :=
  exec (v4l2_s_ctrl V4L2_CID_HFLIP 1) (probed_world false [] 0 0).

(** Format requests as user space builds them. *)
Definition zero_framefmt : v4l2_mbus_framefmt :=
  {| fmt_width := 0; fmt_height := 0; code := 0; field := 0; colorspace := 0;
     ycbcr_enc := 0; quantization := 0; xfer_func := 0 |}.

Definition blank_sd_state : v4l2_subdev_state :=
  {| try_fmt_image := zero_framefmt; try_fmt_meta := zero_framefmt |}.

Definition format_request (wh c w h : Z) : v4l2_subdev_format :=
  {| which := wh; pad := IMAGE_PAD;
     format := {| fmt_width := w; fmt_height := h; code := c; field := 0;
                  colorspace := 0; ycbcr_enc := 0; quantization := 0;
                  xfer_func := V4L2_XFER_FUNC_DEFAULT |} |}.



(** ** The state of the driver structure *)

Definition ctrl_in_range (c : v4l2_ctrl) : Prop := minimum c <= cur c <= maximum c.

(** What holds of the driver structure whatever [HMAX], [VMAX] and the
    vertical-blanking, exposure and pixel-rate controls are: the mode and
    the format code are of the catalog and of the device's table, the
    horizontal-blanking, gain and flip controls carry the ranges they were
    created with and a value inside, the pixel rate is the only read-only
    control and the vertical flip the only one that is ever grabbed, which
    it is while streaming, when the common registers have been written. *)
Record base_inv (d : imx586) : Prop := {
  bi_mode : In (mode d) mode_catalog;
  bi_fmt_code : In (fmt_code d) (code_table d);
  bi_hblank : minimum (hblank d) = 0 /\ maximum (hblank d) = IMX586_HMAX_MAX /\
              ctrl_in_range (hblank d);
  bi_gain : minimum (analogue_gain d) = IMX586_ANA_GAIN_MIN /\
            maximum (analogue_gain d) = IMX586_ANA_GAIN_MAX /\
            ctrl_in_range (analogue_gain d);
  bi_hflip : minimum (hflip d) = 0 /\ maximum (hflip d) = 1 /\ ctrl_in_range (hflip d);
  bi_vflip : minimum (vflip d) = 0 /\ maximum (vflip d) = 1 /\ ctrl_in_range (vflip d);
  bi_read_only :
    forall id, read_only (get_ctrl d id)
               = match id with V4L2_CID_PIXEL_RATE => true | _ => false end;
  bi_free :
    forall id, grabbed (get_ctrl d id)
               = match id with V4L2_CID_VFLIP => grabbed (vflip d) | _ => false end;
  bi_vflip_held : streaming d = true -> grabbed (vflip d) = true;
  bi_common : streaming d = true -> common_regs_written d = true
}.

(** The driver structure once the line length has been set for the mode:
    [HMAX] is a [uint16_t] not below the minimum of the mode. *)
Definition dev_inv (d : imx586) : Prop :=
  base_inv d /\ min_HMAX (mode d) <= HMAX d < 2 ^ 16.

(** The ranges [imx586_set_framing_limits] publishes for the mode: that of
    the vertical blanking, and the pixel rate as the single value of its
    control. *)
Record timing_inv (d : imx586) : Prop := {
  ti_vblank : minimum (vblank d) = min_VMAX (mode d) - height (mode d) /\
              maximum (vblank d) = IMX586_VMAX_MAX - height (mode d);
  ti_pixel_rate : minimum (pixel_rate d) = cur (pixel_rate d) /\
                  maximum (pixel_rate d) = cur (pixel_rate d) /\
                  cur (pixel_rate d)
                  = width (mode d) * IMX586_PIXEL_RATE / min_HMAX (mode d)
}.

(** The invariant of the driver: structure, published timing, and power
    while streaming. *)
Definition driver_inv (w : world) : Prop :=
  dev_inv (dev w) /\ timing_inv (dev w) /\
  (streaming (dev w) = true -> usage_count w <> 0%nat).

(** ** Postconditions *)

(** [returns o Q]: the run [o] ended without a fault, with a value and a
    world that satisfy [Q]. *)
Definition returns {A} (o : outcome (A * world)) (Q : A -> world -> Prop) : Prop :=
  match o with
  | Done (a, w') => Q a w'
  | Fault _ => False
  end.

(** No transfer of the segment reported a failure. *)
Definition clean (new : list i2c_xfer) : Prop :=
  Forall (fun x => 0 <= status x) new.

(** Every transfer of the segment that reported a failure addressed a
    register whose write status the source drops. *)
Definition quiet (new : list i2c_xfer) : Prop :=
  Forall (fun x => status x < 0 -> status_dropped (xfer_reg x) = true) new.

(** Every transfer of the segment to a register whose write status the
    source looks at was taken in full by the bus. *)
Definition smooth (new : list i2c_xfer) : Prop :=
  Forall (fun x => status_dropped (xfer_reg x) = false ->
                   status x = Z.of_nat (length (buf x))) new.

(** What the status [r] of a sequence of writes tells about its transfers:
    it is not 0 after a failure at a register whose status is looked at,
    and it is 0 when every transfer to such a register was taken in full. *)
Definition verdict (r : Z) (new : list i2c_xfer) : Prop :=
  (r = 0 -> quiet new) /\ (smooth new -> r = 0).

(** The result of the start sequence, for a device whose configured
    exposure lies in the range of the configured vertical blanking: the
    status tells whether a write that is looked at failed, and with status 0
    the last transfer is the mode-select write. *)
Definition start_outcome (r : Z) (new : list i2c_xfer) : Prop :=
  verdict r new /\
  (r = 0 -> exists a s,
     new = a ++ [Xfer (put_unaligned_be16 IMX586_REG_MODE_SELECT
                         ++ [u8 IMX586_MODE_STREAMING]) s]).

(** [evolves S w w']: from [w] to [w'] the transfer log grew by a segment
    satisfying [S], the invariants of the driver structure were kept, and
    neither the mode, the format, any control but the exposure, the
    streaming flag nor the runtime-PM usage counter changed; the flag
    [common_regs_written] was not cleared. *)
Record evolves (S : list i2c_xfer -> Prop) (w w' : world) : Prop := {
  ev_log : exists new, i2c_log w' = i2c_log w ++ new /\ S new;
  ev_wf : wf_dev (dev w) -> wf_dev (dev w');
  ev_inv : dev_inv (dev w) -> dev_inv (dev w');
  ev_mode : mode (dev w') = mode (dev w);
  ev_mono : mono (dev w') = mono (dev w);
  ev_fmt_code : fmt_code (dev w') = fmt_code (dev w);
  ev_ctrls : forall id, id <> V4L2_CID_EXPOSURE ->
                        get_ctrl (dev w') id = get_ctrl (dev w) id;
  ev_common : common_regs_written (dev w) = true ->
              common_regs_written (dev w') = true;
  ev_hflip : hflip (dev w') = hflip (dev w);
  ev_streaming : streaming (dev w') = streaming (dev w);
  ev_usage : usage_count w' = usage_count w
}.

(** What the bus answers to the next transfer of [count] bytes. *)
Definition next_status (w : world) (count : Z) : Z :=
  match fault_at (length (i2c_log w)) (i2c_faults w) with
  | Some r => r
  | None => count
  end.

(** The world after one more transfer. *)
Definition sent (b : list Z) (count : Z) (w : world) : world :=
  with_i2c_log (i2c_log w ++ [Xfer b (next_status w count)]) w.

(** A colour device after probe and a successful stream-on. *)
Definition streaming_world : world :=
  exec (imx586_set_stream 1) (probed_world false [] 0 0).



(** [steady d w0 w]: since [w0] the log grew by a quiet segment, and the
    driver structure is [d]. *)
Definition steady (d : imx586) (w0 w : world) : Prop :=
  evolves quiet w0 w /\ dev w = d.

(** The four controls whose range is fixed at creation. *)
Definition fixed_range (id : ctrl_id) : Prop :=
  In id [V4L2_CID_HBLANK; V4L2_CID_ANALOGUE_GAIN; V4L2_CID_HFLIP; V4L2_CID_VFLIP].

(** [framed w w']: what every operation on a control leaves as it was:
    the log only grows; the mode, the format, the streaming flag and the
    usage counter are unchanged, and the flag [common_regs_written] is not
    cleared. *)
Record framed (w w' : world) : Prop := {
  f_log : exists new, i2c_log w' = i2c_log w ++ new;
  f_mode : mode (dev w') = mode (dev w);
  f_mono : mono (dev w') = mono (dev w);
  f_fmt_code : fmt_code (dev w') = fmt_code (dev w);
  f_streaming : streaming (dev w') = streaming (dev w);
  f_usage : usage_count w' = usage_count w;
  f_common : common_regs_written (dev w) = true ->
             common_regs_written (dev w') = true
}.

(** [kept id w w']: an operation of the control framework on the control
    [id] also leaves the controls other than [id] and the exposure
    untouched. *)
Definition kept (id : ctrl_id) (w w' : world) : Prop :=
  framed w w' /\
  forall i, i <> id -> i <> V4L2_CID_EXPOSURE ->
            get_ctrl (dev w') i = get_ctrl (dev w) i.

(** ** The order of the register writes *)

(** The registers a control write addresses, in the order of the
    transfers ([imx586_set_ctrl], third part). *)
Definition ctrl_regs (id : ctrl_id) : list Z :=
  match id with
  | V4L2_CID_PIXEL_RATE => []
  | V4L2_CID_VBLANK => [IMX586_REG_VMAX]
  | V4L2_CID_HBLANK => [IMX586_REG_HMAX]
  | V4L2_CID_EXPOSURE => [IMX586_REG_SHR]
  | V4L2_CID_ANALOGUE_GAIN =>
      [0x3001; IMX586_REG_ANALOG_GAIN; IMX586_REG_FDG_SEL0; 0x3001]
  | V4L2_CID_HFLIP => [IMX586_FLIP_WINMODEH]
  | V4L2_CID_VFLIP => [IMX586_FLIP_WINMODEV]
  end.

(** The registers [imx586_start_streaming] addresses when it runs to its
    end, in the order of its statements. *)
Definition start_regs (d : imx586) : list Z :=
  (if common_regs_written d then []
   else map address mode_common_regs ++ [IMX586_REG_BLKLEVEL])
  ++ map address (reg_list (mode d))
  ++ [IMX586_REG_CCMP1_EXP; IMX586_REG_ACMP1_EXP;
      IMX586_REG_CCMP2_EXP; IMX586_REG_ACMP2_EXP]
  ++ (if hdr (mode d)
      then [IMX586_REG_EXP_TH_H; IMX586_REG_EXP_TH_L; IMX586_REG_EXP_BK] else [])
  ++ [IMX586_REG_DIGITAL_CLAMP]
  ++ concat (map ctrl_regs handler_ctrls)
  ++ [IMX586_REG_MODE_SELECT].

(** [in_order e r new]: the transfers [new] address a prefix of the
    registers [e], in order, and the whole of [e] when the status [r]
    is 0. *)
Definition in_order (e : list Z) (r : Z) (new : list i2c_xfer) : Prop :=
  (exists k, map xfer_reg new = firstn k e) /\ (r = 0 -> map xfer_reg new = e).

(** [logs S w w']: the log of [w'] is that of [w] with transfers of [S]
    added. *)
Definition logs (S : list i2c_xfer -> Prop) (w w' : world) : Prop :=
  exists new, i2c_log w' = i2c_log w ++ new /\ S new.

(** [track d e w0 w]: since [w0] exactly the registers [e] have been
    addressed, the driver structure is [d] and the power usage count is
    unchanged. *)
Definition track (d : imx586) (e : list Z) (w0 w : world) : Prop :=
  logs (fun new => map xfer_reg new = e) w0 w /\ dev w = d /\
  usage_count w = usage_count w0.

(** [exposure_kept w w']: the exposure control, range and value, and
    [VMAX] are in [w'] what they were in [w]. *)
Definition exposure_kept (w w' : world) : Prop :=
  exposure (dev w') = exposure (dev w) /\ VMAX (dev w') = VMAX (dev w).

(** ** Register reads *)

Definition IMX586_REG_CHIP_ID : Z := 0x30DC.
Definition IMX586_CHIP_ID : Z := 0x32.

(** [get_unaligned_be32] over the four bytes of a buffer. *)
Definition get_unaligned_be32 (b : list Z) : Z :=
  fold_left (fun acc x => acc * 256 + x) (firstn 4 b) 0.

(** The bus as [imx586_read_reg] meets it through [i2c_transfer]: handed the
    two address bytes of the first message and the length of the second, it
    answers with the number of messages it completed (or a negative error)
    and the bytes it stored for the second one. *)
Definition i2c_read_bus : Type := list Z -> nat -> Z * list Z.

(** [imx586_read_reg]: the status and the content of [*val] afterwards.
    The bytes read land in [data_buf[4 - len ..]]; the front of the buffer
    stays zero. *)
Definition imx586_read_reg (bus : i2c_read_bus) (reg len : Z) (val : Z) : Z * Z :=
  let reg := u16 reg in
  let len := u32 len in
  let addr_buf := [u8 (Z.shiftr reg 8); u8 (Z.land reg 0xff)] in
  if 4 <? len then (- EINVAL, val)
  else
    let '(r, data) := bus addr_buf (Z.to_nat len) in
    let data_buf := repeat 0 (4 - Z.to_nat len)
                    ++ firstn (Z.to_nat len) (map u8 data ++ repeat 0 4) in
    if negb (r =? 2) then (- EIO, val)
    else (0, get_unaligned_be32 data_buf).

(** [imx586_identify_module]: verify chip ID. *)
Definition imx586_identify_module (bus : i2c_read_bus) (expected_id : Z) (junk : Z) : Z :=
  let '(r, val) := imx586_read_reg bus IMX586_REG_CHIP_ID 1 junk in
  if negb (r =? 0) then r else 0.

(** ** Pad formats, enumeration and selection *)

Definition get_try_format (p : Z) (s : v4l2_subdev_state) : v4l2_mbus_framefmt :=
  if u32 p =? IMAGE_PAD then try_fmt_image s else try_fmt_meta s.

(** [imx586_open]: the status, the try formats of the file handle and its
    try crop rectangle. *)
Definition imx586_open (sd_state : v4l2_subdev_state)
  : M (Z * v4l2_subdev_state * v4l2_rect) :=
  imx586 <- get_dev ;;
  let try_fmt_img := try_fmt_image sd_state in
  let try_fmt_meta := try_fmt_meta sd_state in
  (* Initialize try_fmt for the image pad *)
  c <- lift (imx586_get_format_code imx586
               (if mono imx586 then MEDIA_BUS_FMT_Y12_1X12
                else MEDIA_BUS_FMT_SRGGB12_1X12)) ;;
  let try_fmt_img :=
    {| fmt_width := width mode_4k;  (* supported_modes_12bit[0] *)
       fmt_height := height mode_4k;
       code := c;
       field := V4L2_FIELD_NONE;
       colorspace := colorspace try_fmt_img; ycbcr_enc := ycbcr_enc try_fmt_img;
       quantization := quantization try_fmt_img; xfer_func := xfer_func try_fmt_img |} in
  (* Initialize try_fmt for the embedded metadata pad *)
  let try_fmt_meta :=
    {| fmt_width := IMX586_EMBEDDED_LINE_WIDTH;
       fmt_height := IMX586_NUM_EMBEDDED_LINES;
       code := MEDIA_BUS_FMT_SENSOR_DATA;
       field := V4L2_FIELD_NONE;
       colorspace := colorspace try_fmt_meta; ycbcr_enc := ycbcr_enc try_fmt_meta;
       quantization := quantization try_fmt_meta; xfer_func := xfer_func try_fmt_meta |} in
  (* Initialize try_crop *)
  ret (0, {| try_fmt_image := try_fmt_img; try_fmt_meta := try_fmt_meta |},
       Rect IMX586_PIXEL_ARRAY_LEFT IMX586_PIXEL_ARRAY_TOP
            IMX586_PIXEL_ARRAY_WIDTH IMX586_PIXEL_ARRAY_HEIGHT).

(** [imx586_enum_mbus_code]: the status and, on success, [code->code]. *)
Definition imx586_enum_mbus_code (imx586 : imx586) (code_pad code_index : Z)
  : outcome (Z * option Z) :=
  let code_pad := u32 code_pad in
  let code_index := u32 code_index in
  if NUM_PADS <=? code_pad then Done (- EINVAL, None)
  else if code_pad =? IMAGE_PAD then
    if mono imx586 then
      if Z.of_nat (length mono_codes) <=? code_index then Done (- EINVAL, None)
      else
        obind (array_get mono_codes (Z.to_nat code_index)) (fun c =>
        obind (imx586_get_format_code imx586 c) (fun c =>
        Done (0, Some c)))
    else
      if Z.of_nat (length codes) / 4 <=? code_index then Done (- EINVAL, None)
      else
        obind (array_get codes (Z.to_nat (u32 (code_index * 4)))) (fun c =>
        obind (imx586_get_format_code imx586 c) (fun c =>
        Done (0, Some c)))
  else
    if 0 <? code_index then Done (- EINVAL, None)
    else Done (0, Some MEDIA_BUS_FMT_SENSOR_DATA).

(** [imx586_enum_frame_size] with its dispatch on the pad. *)
Definition imx586_enum_frame_size_pad (imx586 : imx586) (fse_pad fse_code fse_index : Z)
  : outcome (Z * option (Z * Z)) :=
  if NUM_PADS <=? u32 fse_pad then Done (- EINVAL, None)
  else if u32 fse_pad =? IMAGE_PAD then imx586_enum_frame_size imx586 fse_code fse_index
  else
    if negb (u32 fse_code =? MEDIA_BUS_FMT_SENSOR_DATA) || (0 <? u32 fse_index)
    then Done (- EINVAL, None)
    else Done (0, Some (IMX586_EMBEDDED_LINE_WIDTH, IMX586_NUM_EMBEDDED_LINES)).

(** [imx586_get_pad_format]: the status, with the caller's [sd_state] and
    [fmt] as the function leaves them. *)
Definition imx586_get_pad_format (sd_state : v4l2_subdev_state)
    (fmt : v4l2_subdev_format) : M (Z * v4l2_subdev_state * v4l2_subdev_format) :=
  if NUM_PADS <=? u32 (pad fmt) then ret (- EINVAL, sd_state, fmt)
  else
    imx586 <- get_dev ;;
    if which fmt =? V4L2_SUBDEV_FORMAT_TRY then
      let try_fmt := get_try_format (pad fmt) sd_state in
      (* update the code which could change due to vflip or hflip: *)
      c <- (if u32 (pad fmt) =? IMAGE_PAD
            then lift (imx586_get_format_code imx586 (code try_fmt))
            else ret MEDIA_BUS_FMT_SENSOR_DATA) ;;
      let try_fmt := with_code c try_fmt in
      ret (0, set_try_format (pad fmt) try_fmt sd_state, with_format try_fmt fmt)
    else if u32 (pad fmt) =? IMAGE_PAD then
      fmt <- lift (imx586_update_image_pad_format (Some (mode imx586)) fmt) ;;
      c <- lift (imx586_get_format_code imx586 (fmt_code imx586)) ;;
      ret (0, sd_state, with_format (with_code c (format fmt)) fmt)
    else
      ret (0, sd_state, imx586_update_metadata_pad_format fmt).

Definition V4L2_SEL_TGT_CROP : Z := 0x0000.
Definition V4L2_SEL_TGT_CROP_DEFAULT : Z := 0x0001.
Definition V4L2_SEL_TGT_CROP_BOUNDS : Z := 0x0002.
Definition V4L2_SEL_TGT_NATIVE_SIZE : Z := 0x0003.

(** [__imx586_get_pad_crop]: [NULL] is [None]. *)
Definition __imx586_get_pad_crop (imx586 : imx586) (try_crop : v4l2_rect)
    (which : Z) : option v4l2_rect :=
  if which =? V4L2_SUBDEV_FORMAT_TRY then Some try_crop
  else if which =? V4L2_SUBDEV_FORMAT_ACTIVE then Some (crop (mode imx586))
  else None.

(** [imx586_get_selection]: the status and [sel->r] afterwards; [try_crop]
    is the try rectangle of [sd_state]. *)
Definition imx586_get_selection (imx586 : imx586) (try_crop : v4l2_rect)
    (sel_target sel_which : Z) (sel_r : v4l2_rect) : outcome (Z * v4l2_rect) :=
  if u32 sel_target =? V4L2_SEL_TGT_CROP then
    match __imx586_get_pad_crop imx586 try_crop sel_which with
    | Some r => Done (0, r)
    | None => Fault NullDeref
    end
  else if u32 sel_target =? V4L2_SEL_TGT_NATIVE_SIZE then
    Done (0, Rect 0 0 IMX586_NATIVE_WIDTH IMX586_NATIVE_HEIGHT)
  else if (u32 sel_target =? V4L2_SEL_TGT_CROP_DEFAULT)
          || (u32 sel_target =? V4L2_SEL_TGT_CROP_BOUNDS) then
    Done (0, Rect IMX586_PIXEL_ARRAY_LEFT IMX586_PIXEL_ARRAY_TOP
                  IMX586_PIXEL_ARRAY_WIDTH IMX586_PIXEL_ARRAY_HEIGHT)
  else Done (- EINVAL, sel_r).

(** ** Power and system sleep *)

(** The supplies, the clock and the reset line of the sensor. *)
Record power_rails : Type := {
  supplies_enabled : bool;
  xclk_enabled : bool;
  reset_gpio : Z
}.

(** [imx586_power_on]; [regulator_ret] and [clk_ret] are what
    [regulator_bulk_enable] and [clk_prepare_enable] report (a failed call
    enables nothing). *)
Definition imx586_power_on (regulator_ret clk_ret : Z) (p : power_rails)
  : Z * power_rails :=
  if negb (regulator_ret =? 0) then (regulator_ret, p)
  else
    let p := {| supplies_enabled := true; xclk_enabled := xclk_enabled p;
                reset_gpio := reset_gpio p |} in
    if negb (clk_ret =? 0) then
      (* reg_off: *)
      (clk_ret, {| supplies_enabled := false; xclk_enabled := xclk_enabled p;
                   reset_gpio := reset_gpio p |})
    else
      (0, {| supplies_enabled := true; xclk_enabled := true; reset_gpio := 1 |}).

(** [imx586_power_off] *)
Definition imx586_power_off (p : power_rails) (d : imx586)
  : Z * power_rails * imx586 :=
  (0, {| supplies_enabled := false; xclk_enabled := false; reset_gpio := 0 |},
   (* Force reprogramming of the common registers when powered up again. *)
   set_common_regs_written false d).

(** [imx586_suspend] *)
Definition imx586_suspend : M Z :=
  imx586 <- get_dev ;;
  (if streaming imx586 then imx586_stop_streaming else ret tt) ;;;
  ret 0.

(** [imx586_resume] *)
Definition imx586_resume : M Z :=
  imx586 <- get_dev ;;
  if streaming imx586 then
    r <- imx586_start_streaming ;;
    if negb (r =? 0) then
      (* error: *)
      imx586_stop_streaming ;;;
      modify_dev (set_streaming false) ;;;
      ret r
    else ret 0
  else ret 0.

(** ** Calls into the driver *)

(** The operations of the subdevice that user space reaches through the
    V4L2 core, and the two system-sleep callbacks. *)
Inductive call : Type :=
| Set_stream (enable : Z)
| S_ctrl (id : ctrl_id) (v : Z)
| Set_fmt (fmt : v4l2_subdev_format)
| Get_fmt (fmt : v4l2_subdev_format)
| Suspend
| Resume.

(** One call, on the try state [sd] of the file handle; the status is
    dropped. *)
Definition do_call (c : call) (sd : v4l2_subdev_state) : M v4l2_subdev_state :=
  match c with
  | Set_stream enable => imx586_set_stream enable ;;; ret sd
  | S_ctrl id v => v4l2_s_ctrl id v ;;; ret sd
  | Set_fmt fmt => x <- imx586_set_pad_format sd fmt ;; ret (snd (fst x))
  | Get_fmt fmt => x <- imx586_get_pad_format sd fmt ;; ret (snd (fst x))
  | Suspend => imx586_suspend ;;; ret sd
  | Resume => imx586_resume ;;; ret sd
  end.

Fixpoint do_calls (cs : list call) (sd : v4l2_subdev_state) : M v4l2_subdev_state :=
  match cs with
  | [] => ret sd
  | c :: rest => sd <- do_call c sd ;; do_calls rest sd
  end.

(** A file handle is opened on the subdevice, then the calls are made. *)
Definition session (cs : list call) (sd : v4l2_subdev_state) : M v4l2_subdev_state :=
  x <- imx586_open sd ;; do_calls cs (snd (fst x)).

(** A call is within the device's capability when the code of a format
    request on the image pad is one of the device's table. *)
Definition call_ok (mono_mode : bool) (c : call) : bool :=
  match c with
  | Set_fmt fmt =>
      negb (u32 (pad fmt) =? IMAGE_PAD)
      || existsb (Z.eqb (u32 (code (format fmt))))
                 (if mono_mode then mono_codes else codes)
  | _ => true
  end.

(** * Properties *)

(** Split a conjunction into its conjuncts (and nothing else). *)
Ltac conjuncts := repeat match goal with |- _ /\ _ => split end.

(** ** Fixed-width arithmetic *)

Lemma u32_small (x : Z) : 0 <= x < 2 ^ 32 -> u32 x = x.
Proof. intro H. unfold u32. apply Z.mod_small. exact H. Qed.

Lemma u64_small (x : Z) : 0 <= x < 2 ^ 64 -> u64 x = x.
Proof. intro H. unfold u64. apply Z.mod_small. exact H. Qed.

Lemma u16_small (x : Z) : 0 <= x < 2 ^ 16 -> u16 x = x.
Proof. intro H. unfold u16. apply Z.mod_small. exact H. Qed.

Lemma u8_small (x : Z) : 0 <= x < 2 ^ 8 -> u8 x = x.
Proof. intro H. unfold u8. apply Z.mod_small. exact H. Qed.

Lemma do_div_value (n base : Z) :
  0 <= n < 2 ^ 64 -> 0 < base < 2 ^ 32 -> do_div n base = Done (n / base).
Proof.
  intros Hn Hb. unfold do_div.
  rewrite (u32_small base), (u64_small n) by lia.
  destruct (Z.eqb_spec base 0) as [E | _]; [lia | reflexivity].
Qed.

Lemma clamp_t_u32_full (x : Z) :
  0 <= x < 2 ^ 32 -> clamp_t_u32 x 0 0xFFFFFFFF = x.
Proof.
  intro H. unfold clamp_t_u32.
  rewrite (u32_small x H).
  change (u32 0) with 0. change (u32 0xFFFFFFFF) with 0xFFFFFFFF.
  change (2 ^ 32) with 4294967296 in H. lia.
Qed.

(** ** Timing calculator *)

(** With [svr = 0] and without wrap-around the forward formula is
    [vmax - shr + 209 / hmax]. *)
Lemma calculate_v4l2_cid_exposure_value (hmax vmax shr : Z) :
  0 < hmax < 2 ^ 32 -> 0 <= shr <= vmax -> vmax < 2 ^ 32 ->
  vmax - shr + 209 / hmax < 2 ^ 32 ->
  calculate_v4l2_cid_exposure hmax vmax shr 0 209
  = Done (vmax - shr + 209 / hmax).
Proof.
  intros Hh Hs Hv He. unfold calculate_v4l2_cid_exposure.
  replace ((vmax * (0 + 1) - shr) * hmax + 209)
    with ((vmax - shr) * hmax + 209) by ring.
  assert (Hn : 0 <= (vmax - shr) * hmax + 209 < 2 ^ 64).
  { change (2 ^ 32) with 4294967296 in *. change (2 ^ 64) with 18446744073709551616. nia. }
  rewrite (u64_small _ Hn), (do_div_value _ _ Hn Hh). cbn [obind].
  rewrite Z.div_add_l by lia.
  assert (Hq : 0 <= 209 / hmax) by (apply Z.div_pos; lia).
  rewrite clamp_t_u32_full by lia. reflexivity.
Qed.

Lemma calculate_min_max_value (hmax vmax min_shr : Z) :
  0 < hmax < 2 ^ 32 -> 0 <= min_shr <= vmax -> 4 <= vmax < 2 ^ 32 ->
  vmax - min_shr + 209 / hmax < 2 ^ 32 ->
  calculate_min_max_v4l2_cid_exposure hmax vmax min_shr 0 209
  = Done (vmax - Z.min (vmax - 4) 0xFFFF + 209 / hmax,
          vmax - min_shr + 209 / hmax).
Proof.
  intros Hh Hs H4 He. unfold calculate_min_max_v4l2_cid_exposure.
  replace ((0 + 1) * vmax - 4) with (vmax - 4) by ring.
  assert (Hm : min_t_u64 (u64 (vmax - 4)) 0xFFFF = Z.min (vmax - 4) 0xFFFF).
  { unfold min_t_u64.
    assert (Hu : u64 (vmax - 4) = vmax - 4).
    { apply u64_small. change (2 ^ 32) with 4294967296 in *.
      change (2 ^ 64) with 18446744073709551616. lia. }
    rewrite !Hu. reflexivity. }
  rewrite Hm.
  assert (Hq : 0 <= 209 / hmax <= 209).
  { split; [apply Z.div_pos; lia | apply Z.div_le_upper_bound; nia]. }
  rewrite calculate_v4l2_cid_exposure_value;
    [ | change (2 ^ 32) with 4294967296 in *; lia .. ].
  cbn [obind].
  rewrite calculate_v4l2_cid_exposure_value;
    [ | change (2 ^ 32) with 4294967296 in *; lia .. ].
  reflexivity.
Qed.





(** C8.  For every mode of the catalog and every admissible blanking
    ([VMAX >= min_VMAX] held in the [uint32_t] field, [HMAX >= min_HMAX] held
    in the [uint16_t] field) the derived bounds, the exposure at
    [max_hold = min(0xFFFF, VMAX*(svr+1)-4)] and the exposure at the mode's
    [min_SHR], satisfy [min_exposure <= max_exposure]. *)
Theorem exposure_bounds_ordered (m : imx586_mode) (hmax vmax : Z) :
  In m mode_catalog ->
  min_HMAX m <= hmax < 2 ^ 16 ->
  min_VMAX m <= vmax < 2 ^ 32 ->
  exists min_exposure max_exposure,
    calculate_min_max_v4l2_cid_exposure hmax vmax (min_SHR m) 0 209
      = Done (min_exposure, max_exposure) /\
    calculate_v4l2_cid_exposure hmax vmax (Z.min 0xFFFF (vmax * (0 + 1) - 4)) 0 209
      = Done min_exposure /\
    calculate_v4l2_cid_exposure hmax vmax (min_SHR m) 0 209 = Done max_exposure /\
    min_exposure <= max_exposure.
Proof.
  intros Hm Hh Hv.
  change (2 ^ 32) with 4294967296 in *. change (2 ^ 16) with 65536 in *.
  assert (Hb : 366 <= min_HMAX m /\ 2250 <= min_VMAX m /\ min_SHR m = 20).
  { unfold mode_catalog, supported_modes_12bit, supported_modes_nonlinear_12bit,
      supported_modes_16bit in Hm. cbn [app In] in Hm.
    unfold mode_4k, mode_1080, mode_4k_nonlinear, mode_1080_16bit, mode_4k_16bit in Hm.
    repeat (destruct Hm as [<- | Hm]; [cbn; lia | ]). contradiction. }
  destruct Hb as (Hb1 & Hb2 & Hb3). rewrite Hb3.
  assert (H0 : 209 / hmax = 0) by (apply Z.div_small; lia).
  exists (vmax - Z.min (vmax - 4) 0xFFFF + 209 / hmax), (vmax - 20 + 209 / hmax).
  split; [ | split; [ | split ] ].
  - apply calculate_min_max_value; change (2 ^ 32) with 4294967296; lia.
  - replace (vmax * (0 + 1) - 4) with (vmax - 4) by ring.
    rewrite (Z.min_comm 0xFFFF).
    apply calculate_v4l2_cid_exposure_value; change (2 ^ 32) with 4294967296; lia.
  - apply calculate_v4l2_cid_exposure_value; change (2 ^ 32) with 4294967296; lia.
  - lia.
Qed.

Lemma exposure_bounds_ordered_witness :
  exists min_exposure max_exposure,
    calculate_min_max_v4l2_cid_exposure 550 4500 20 0 209
      = Done (min_exposure, max_exposure) /\
    calculate_v4l2_cid_exposure 550 4500 (Z.min 0xFFFF (4500 * (0 + 1) - 4)) 0 209
      = Done min_exposure /\
    calculate_v4l2_cid_exposure 550 4500 20 0 209 = Done max_exposure /\
    min_exposure <= max_exposure.
Proof.
  apply (exposure_bounds_ordered mode_4k_nonlinear 550 4500).
  - cbn. right. right. left. reflexivity.
  - cbn. lia.
  - cbn. lia.
Defined.

(** ** Format resolver *)

(** The search loop stops on the first match, or runs off the table. *)
Lemma code_index_found (tbl : list Z) (c : Z) (i : nat) :
  In c tbl ->
  exists k, code_index tbl c i = (i + k)%nat /\ nth_error tbl k = Some c.
Proof.
  revert i. induction tbl as [| x tbl IH]; intros i Hin; [contradiction | ].
  cbn [code_index]. destruct (Z.eqb_spec x c) as [-> | Hne].
  - exists 0%nat. split; [lia | reflexivity].
  - destruct Hin as [Heq | Hin]; [congruence | ].
    destruct (IH (S i) Hin) as (k & Hk & Hnth).
    exists (S k). split; [lia | exact Hnth].
Qed.

Lemma code_index_missing (tbl : list Z) (c : Z) (i : nat) :
  ~ In c tbl -> code_index tbl c i = (i + length tbl)%nat.
Proof.
  revert i. induction tbl as [| x tbl IH]; intros i Hnin; cbn [code_index length].
  - lia.
  - destruct (Z.eqb_spec x c) as [-> | Hne].
    + exfalso. apply Hnin. left. reflexivity.
    + rewrite IH by (intro H; apply Hnin; right; exact H). lia.
Qed.

Lemma array_get_past_end {A} (arr : list A) :
  array_get arr (length arr) = Fault (OutOfBounds (length arr)).
Proof.
  unfold array_get.
  assert (H : nth_error arr (length arr) = None) by (apply nth_error_None; lia).
  rewrite H. reflexivity.
Qed.

Lemma imx586_get_format_code_unfold (d : imx586) (c : Z) :
  imx586_get_format_code d c
  = array_get (code_table d) (code_index (code_table d) (u32 c) 0).
Proof. unfold imx586_get_format_code, code_table. destruct (mono d); reflexivity. Qed.

(** On a code of the table the lookup is the identity, whatever the flips. *)
Lemma imx586_get_format_code_member (d : imx586) (c : Z) :
  In (u32 c) (code_table d) -> imx586_get_format_code d c = Done (u32 c).
Proof.
  intro Hin. rewrite imx586_get_format_code_unfold.
  destruct (code_index_found (code_table d) (u32 c) 0 Hin) as (k & Hk & Hnth).
  rewrite Hk. cbn. unfold array_get. rewrite Hnth. reflexivity.
Qed.

Lemma imx586_get_format_code_missing (d : imx586) (c : Z) :
  ~ In (u32 c) (code_table d) ->
  imx586_get_format_code d c = Fault (OutOfBounds (length (code_table d))).
Proof.
  intro Hnin. rewrite imx586_get_format_code_unfold.
  rewrite code_index_missing by exact Hnin. cbn.
  apply array_get_past_end.
Qed.

(** C10.  The lookup of [imx586_get_format_code] is total only on the codes
    of the applicable table ([codes] on a colour device, [mono_codes] on a
    mono device): for a code of the table it returns an element of the
    table; for any other code the loop ends with the index equal to the
    table length and the function reads one element past the end of the
    array instead of reporting an error. *)
Theorem format_code_lookup_partial (d : imx586) (c : Z) :
  code_table d = (if mono d then mono_codes else codes) /\
  (In (u32 c) (code_table d) ->
     exists c', imx586_get_format_code d c = Done c' /\ In c' (code_table d)) /\
  (~ In (u32 c) (code_table d) ->
     code_index (code_table d) (u32 c) 0 = length (code_table d) /\
     imx586_get_format_code d c = Fault (OutOfBounds (length (code_table d)))).
Proof.
  split; [reflexivity | split].
  - intro Hin. exists (u32 c). split; [ | exact Hin].
    apply imx586_get_format_code_member. exact Hin.
  - intro Hnin. split.
    + rewrite code_index_missing by exact Hnin. reflexivity.
    + apply imx586_get_format_code_missing. exact Hnin.
Qed.

(** The five modes of the catalog are pairwise different, so [mode_eqb]
    decides equality of pointers into it. *)
Lemma mode_catalog_NoDup : NoDup mode_catalog.
Proof.
  unfold mode_catalog, supported_modes_12bit, supported_modes_nonlinear_12bit,
    supported_modes_16bit. cbn [app].
  unfold mode_4k, mode_1080, mode_4k_nonlinear, mode_1080_16bit, mode_4k_16bit.
  repeat (constructor; [cbn [In]; intros H;
    repeat (destruct H as [H | H]; [discriminate H | ]); exact H | ]).
  constructor.
Qed.

(** C3 (the source departs from its own comments).  On a colour device with
    the horizontal flip set and the vertical flip clear, a request for
    [MEDIA_BUS_FMT_SRGGB12_1X12] is answered with that same code, although the
    table is laid out so that the h-flip variant of its quadruplet is
    [MEDIA_BUS_FMT_SGRBG12_1X12]; more generally, on every colour device and
    for every code of the table the lookup returns the requested code, so no
    flip state ever makes the returned code differ from the requested one. *)
Theorem format_code_ignores_flip :
  mono (dev hflipped_world) = false /\
  cur (hflip (dev hflipped_world)) = 1 /\
  cur (vflip (dev hflipped_world)) = 0 /\
  imx586_get_format_code (dev hflipped_world) MEDIA_BUS_FMT_SRGGB12_1X12
    = Done MEDIA_BUS_FMT_SRGGB12_1X12 /\
  spec_format_code (dev hflipped_world) MEDIA_BUS_FMT_SRGGB12_1X12
    = Done MEDIA_BUS_FMT_SGRBG12_1X12 /\
  Forall (fun c => forall d, mono d = false -> imx586_get_format_code d c = Done c)
         codes.
Proof.
  do 5 (split; [vm_compute; reflexivity | ]).
  unfold codes.
  repeat apply Forall_cons; try apply Forall_nil;
    intros d Hd; unfold imx586_get_format_code; rewrite Hd; reflexivity.
Qed.

(** ** Format negotiation *)

(** A request on the image pad for a code outside the table of the device
    makes [imx586_set_pad_format] read past the end of the table. *)
Lemma imx586_set_pad_format_missing_code
    (sd : v4l2_subdev_state) (fmt : v4l2_subdev_format) (w : world) :
  u32 (pad fmt) = IMAGE_PAD ->
  ~ In (u32 (code (format fmt))) (code_table (dev w)) ->
  imx586_set_pad_format sd fmt w
  = Fault (OutOfBounds (length (code_table (dev w)))).
Proof.
  intros Hpad Hnin. unfold imx586_set_pad_format.
  rewrite Hpad. cbn [Z.leb Z.eqb NUM_PADS IMAGE_PAD Z.compare].
  unfold bind at 1. cbn [get_dev].
  unfold bind at 1. unfold lift.
  rewrite (imx586_get_format_code_missing _ _ Hnin). reflexivity.
Qed.

(** On a valid pad [imx586_set_pad_format] has no error return: whenever it
    returns, the status is 0. *)
Lemma imx586_set_pad_format_status
    (sd sd' : v4l2_subdev_state) (fmt fmt' : v4l2_subdev_format)
    (w w' : world) (r : Z) :
  u32 (pad fmt) < NUM_PADS ->
  imx586_set_pad_format sd fmt w = Done (r, sd', fmt', w') ->
  r = 0.
Proof.
  intros Hpad. unfold imx586_set_pad_format.
  destruct (Z.leb_spec NUM_PADS (u32 (pad fmt))) as [Hge | _]; [lia | ].
  unfold bind, get_dev, lift, ret, modify_dev.
  repeat match goal with
         | |- context [match ?x with _ => _ end] =>
             match type of x with
             | outcome _ => destruct x as [? | ?]
             | option _ => destruct x as [? | ]
             | bool => destruct x
             | prod _ _ => destruct x as [? ?]
             end
         end;
    intro H; try discriminate H; inversion H; reflexivity.
Qed.

(** C4 (the source departs from a sibling path).  A request to set the
    active format of the image pad with a code outside the capability of the
    device is not rejected: [imx586_set_pad_format] reads past the end of
    the code table, for a mono code on a colour device, for a bayer code on a
    mono device and for a code in neither table, and on a valid pad it has no
    error return at all; [imx586_enum_frame_size] rejects the same codes
    with [-EINVAL]. *)
Theorem set_pad_format_unsupported_code :
  imx586_set_pad_format blank_sd_state
    (format_request V4L2_SUBDEV_FORMAT_ACTIVE MEDIA_BUS_FMT_Y12_1X12 3840 2160)
    (probed_world false [] 0 0)
  = Fault (OutOfBounds 8) /\
  imx586_set_pad_format blank_sd_state
    (format_request V4L2_SUBDEV_FORMAT_ACTIVE MEDIA_BUS_FMT_SRGGB12_1X12 3840 2160)
    (probed_world true [] 0 0)
  = Fault (OutOfBounds 2) /\
  imx586_set_pad_format blank_sd_state
    (format_request V4L2_SUBDEV_FORMAT_ACTIVE MEDIA_BUS_FMT_SENSOR_DATA 3840 2160)
    (probed_world false [] 0 0)
  = Fault (OutOfBounds 8) /\
  imx586_enum_frame_size (dev (probed_world false [] 0 0)) MEDIA_BUS_FMT_Y12_1X12 0
  = Done (- EINVAL, None) /\
  imx586_enum_frame_size (dev (probed_world true [] 0 0)) MEDIA_BUS_FMT_SRGGB12_1X12 0
  = Done (- EINVAL, None) /\
  (forall sd fmt w,
     u32 (pad fmt) = IMAGE_PAD ->
     ~ In (u32 (code (format fmt))) (code_table (dev w)) ->
     imx586_set_pad_format sd fmt w
     = Fault (OutOfBounds (length (code_table (dev w))))) /\
  (forall sd sd' fmt fmt' w w' r,
     u32 (pad fmt) < NUM_PADS ->
     imx586_set_pad_format sd fmt w = Done (r, sd', fmt', w') ->
     r = 0).
Proof.
  do 5 (split; [vm_compute; reflexivity | ]).
  split.
  - intros sd fmt w. apply imx586_set_pad_format_missing_code.
  - intros sd sd' fmt fmt' w w' r. apply imx586_set_pad_format_status.
Qed.

(** ** Reasoning about runs *)

Lemma returns_bind {A B} (m : M A) (k : A -> M B) (w : world)
    (Q : B -> world -> Prop) :
  returns (m w) (fun a w1 => returns (k a w1) Q) -> returns (bind m k w) Q.
Proof.
  unfold bind, returns. destruct (m w) as [[a w1] | f]; intro H; exact H.
Qed.

Lemma returns_weaken {A} (o : outcome (A * world)) (Q Q' : A -> world -> Prop) :
  returns o Q -> (forall a w', Q a w' -> Q' a w') -> returns o Q'.
Proof.
  unfold returns. destruct o as [[a w'] | f]; intros H HQ; [apply HQ; exact H | exact H].
Qed.

Lemma returns_done {A} (o : outcome (A * world)) (Q : A -> world -> Prop) :
  returns o Q -> exists a w', o = Done (a, w') /\ Q a w'.
Proof.
  unfold returns. destruct o as [[a w'] | f]; intro H; [ | contradiction].
  exists a, w'. split; [reflexivity | exact H].
Qed.

Lemma returns_ret {A} (a : A) (w : world) (Q : A -> world -> Prop) :
  Q a w -> returns (ret a w) Q.
Proof. intro H. exact H. Qed.

Lemma returns_lift {A} (o : outcome A) (a : A) (w : world) (Q : A -> world -> Prop) :
  o = Done a -> Q a w -> returns (lift o w) Q.
Proof. intros -> H. exact H. Qed.

Lemma clean_quiet (new : list i2c_xfer) : clean new -> quiet new.
Proof.
  unfold clean, quiet. intro H. eapply Forall_impl; [ | exact H].
  cbn beta. intros x Hx Hneg. lia.
Qed.

Lemma quiet_app (a b : list i2c_xfer) : quiet a -> quiet b -> quiet (a ++ b).
Proof. unfold quiet. intros Ha Hb. apply Forall_app. split; assumption. Qed.

Lemma clean_app (a b : list i2c_xfer) : clean a -> clean b -> clean (a ++ b).
Proof. unfold clean. intros Ha Hb. apply Forall_app. split; assumption. Qed.

Lemma evolves_refl (S : list i2c_xfer -> Prop) (w : world) :
  S [] -> evolves S w w.
Proof.
  intro H. split; try reflexivity; try tauto.
  exists []. split; [symmetry; apply app_nil_r | exact H].
Qed.

Lemma evolves_trans (S1 S2 S3 : list i2c_xfer -> Prop) (w w1 w2 : world) :
  evolves S1 w w1 -> evolves S2 w1 w2 ->
  (forall a b, S1 a -> S2 b -> S3 (a ++ b)) ->
  evolves S3 w w2.
Proof.
  intros [(a & Ha & Sa) Hwf1 Hi1 Hm1 Ho1 Hfc1 Hc1 Hcr1 Hf1 Hs1 Hu1]
         [(b & Hb & Sb) Hwf2 Hi2 Hm2 Ho2 Hfc2 Hc2 Hcr2 Hf2 Hs2 Hu2] HS.
  split; try congruence; try tauto.
  - exists (a ++ b). split; [ | apply HS; assumption].
    rewrite Hb, Ha. symmetry. apply app_assoc.
  - intros id Hid. rewrite (Hc2 id Hid). apply Hc1. exact Hid.
Qed.

Lemma evolves_weaken (S S' : list i2c_xfer -> Prop) (w w' : world) :
  evolves S w w' -> (forall new, S new -> S' new) -> evolves S' w w'.
Proof.
  intros [(a & Ha & Sa) Hwf Hi Hm Ho Hfc Hc Hcr Hf Hs Hu] HS. split; try assumption.
  exists a. split; [exact Ha | apply HS; exact Sa].
Qed.

Lemma new_xfers_app (w w' : world) (new : list i2c_xfer) :
  i2c_log w' = i2c_log w ++ new -> new_xfers w w' = new.
Proof.
  intro H. unfold new_xfers. rewrite H.
  rewrite skipn_app, skipn_all, Nat.sub_diag. reflexivity.
Qed.

(** *** The write helpers *)

Lemma i2c_master_send_run (b : list Z) (count : Z) (w : world) :
  i2c_master_send b count w = Done (next_status w count, sent b count w).
Proof. reflexivity. Qed.

Lemma imx586_write_reg_1byte_run (reg v : Z) (w : world) :
  imx586_write_reg_1byte reg v w
  = Done ((if next_status w 3 =? 3 then 0 else next_status w 3),
          sent (put_unaligned_be16 reg ++ [u8 v]) 3 w).
Proof.
  unfold imx586_write_reg_1byte, bind. rewrite i2c_master_send_run.
  destruct (next_status w 3 =? 3); reflexivity.
Qed.

Lemma imx586_write_reg_2byte_run (reg v : Z) (w : world) :
  imx586_write_reg_2byte reg v w
  = Done ((if next_status w 4 =? 4 then 0 else next_status w 4),
          sent (put_unaligned_be16 reg ++ [u8 (u16 v); u8 (Z.shiftr (u16 v) 8)]) 4 w).
Proof.
  unfold imx586_write_reg_2byte, bind. rewrite i2c_master_send_run.
  destruct (next_status w 4 =? 4); reflexivity.
Qed.

Lemma imx586_write_reg_3byte_run (reg v : Z) (w : world) :
  imx586_write_reg_3byte reg v w
  = Done ((if next_status w 5 =? 5 then 0 else - EIO),
          sent (put_unaligned_be16 reg
                  ++ [u8 (u32 v); u8 (Z.shiftr (u32 v) 8); u8 (Z.shiftr (u32 v) 16)]) 5 w).
Proof.
  unfold imx586_write_reg_3byte, bind. rewrite i2c_master_send_run.
  destruct (next_status w 5 =? 5); reflexivity.
Qed.

Lemma imx586_register_hold_run (hold : bool) (w : world) :
  imx586_register_hold hold w
  = Done (tt, sent (put_unaligned_be16 0x3001 ++ [u8 (if hold then 1 else 0)]) 3 w).
Proof.
  unfold imx586_register_hold, bind. rewrite imx586_write_reg_1byte_run. reflexivity.
Qed.

(** One transfer, seen as an evolution of the world. *)
Lemma sent_evolves (S : list i2c_xfer -> Prop) (b : list Z) (count : Z) (w : world) :
  S [Xfer b (next_status w count)] -> evolves S w (sent b count w).
Proof.
  intro H. split; try reflexivity; try tauto.
  exists [Xfer b (next_status w count)]. split; [reflexivity | exact H].
Qed.

Lemma quiet_one_checked (b : list Z) (s : Z) : 0 <= s -> quiet [Xfer b s].
Proof. intro H. apply clean_quiet. repeat constructor. exact H. Qed.

Lemma quiet_one_dropped (b : list Z) (s : Z) :
  status_dropped (xfer_reg (Xfer b s)) = true -> quiet [Xfer b s].
Proof. intro H. repeat constructor. intros _. exact H. Qed.

(** A register list either goes through without a failure, or the write
    that failed is reported. *)
Lemma imx586_write_regs_returns (regs : list imx586_reg) (w : world) :
  returns (imx586_write_regs regs w)
          (fun r w' => evolves (fun new => r = 0 -> clean new) w w').
Proof.
  revert w. induction regs as [| x regs IH]; intro w; cbn [imx586_write_regs].
  - apply returns_ret. apply evolves_refl. intros _. constructor.
  - apply returns_bind. rewrite imx586_write_reg_1byte_run. cbn [returns].
    set (s := next_status w 3). set (w1 := sent _ 3 w).
    destruct (Z.eqb_spec s 3) as [E3 | N3].
    + cbn [Z.eqb]. eapply returns_weaken; [apply IH | ].
      intros r w' Hev. cbn beta.
      eapply evolves_trans; [ | exact Hev | ].
      * apply (sent_evolves (fun new => clean new)).
        repeat constructor. cbn. fold s. lia.
      * cbn beta. intros a b Ha Hb Hr. apply clean_app; [exact Ha | apply Hb; exact Hr].
    + destruct (Z.eqb_spec s 0) as [E0 | N0].
      * eapply returns_weaken; [apply IH | ].
        intros r w' Hev. cbn beta.
        eapply evolves_trans; [ | exact Hev | ].
        -- apply (sent_evolves (fun new => clean new)).
           repeat constructor. cbn. fold s. lia.
        -- cbn beta. intros a b Ha Hb Hr. apply clean_app; [exact Ha | apply Hb; exact Hr].
      * apply returns_ret. apply sent_evolves. intro; contradiction.
Qed.

Lemma bind_done {A B} (m : M A) (k : A -> M B) (w w1 : world) (a : A) :
  m w = Done (a, w1) -> bind m k w = k a w1.
Proof. intro E. unfold bind. rewrite E. reflexivity. Qed.

Lemma pm_runtime_get_if_in_use_idle (w : world) :
  usage_count w = 0%nat -> pm_runtime_get_if_in_use w = Done (0, w).
Proof. intro E. unfold pm_runtime_get_if_in_use. rewrite E. reflexivity. Qed.

Lemma pm_runtime_get_if_in_use_active (w : world) :
  usage_count w <> 0%nat ->
  pm_runtime_get_if_in_use w = Done (1, with_usage_count (S (usage_count w)) w).
Proof.
  intro E. unfold pm_runtime_get_if_in_use.
  destruct (usage_count w); [contradiction | reflexivity].
Qed.

(** ** Horizontal blanking *)

Lemma mode_catalog_cases (P : imx586_mode -> Prop) :
  Forall P mode_catalog -> forall m, In m mode_catalog -> P m.
Proof. intros H m Hin. rewrite Forall_forall in H. apply H. exact Hin. Qed.

(** The pixel rate of each catalog mode is a non-zero 32-bit value, and the
    line length derived from an admissible horizontal blanking lies between
    the mode's minimum and the 16-bit limit. *)
Lemma hblank_to_hmax_value (m : imx586_mode) (v : Z) :
  In m mode_catalog -> 0 <= v <= IMX586_HMAX_MAX ->
  hblank_to_hmax m v
  = Done ((width m + v) * IMX586_PIXEL_RATE
          / (width m * IMX586_PIXEL_RATE / min_HMAX m)) /\
  min_HMAX m <= (width m + v) * IMX586_PIXEL_RATE
                / (width m * IMX586_PIXEL_RATE / min_HMAX m) < 2 ^ 16 /\
  0 < min_HMAX m.
Proof.
  intros Hin Hv. revert m Hin.
  apply mode_catalog_cases.
  unfold IMX586_HMAX_MAX in Hv.
  unfold mode_catalog, supported_modes_12bit, supported_modes_nonlinear_12bit,
    supported_modes_16bit. cbn [app].
  unfold mode_4k, mode_1080, mode_4k_nonlinear, mode_1080_16bit, mode_4k_16bit.
  repeat apply Forall_cons; try apply Forall_nil;
    cbn [width min_HMAX]; unfold hblank_to_hmax, mode_pixel_rate; cbn [width min_HMAX];
    unfold IMX586_PIXEL_RATE;
    match goal with
    | |- context [do_div (u64 (u32 ?W * ?P)) ?H] =>
        let k := eval vm_compute in (W * P / H) in
        change (do_div (u64 (u32 W * P)) H) with (Done k);
        change (W * P / H) with k
    end;
    cbn [obind];
    match goal with
    | |- context [u32 (?W + v)] =>
        rewrite (u32_small (W + v)) by (change (2 ^ 32) with 4294967296; lia)
    end;
    match goal with
    | |- context [u64 ?n] =>
        rewrite (u64_small n) by (change (2 ^ 64) with 18446744073709551616; lia)
    end;
    (rewrite do_div_value;
     [ | change (2 ^ 64) with 18446744073709551616; lia
       | change (2 ^ 32) with 4294967296; lia ]);
    (split; [reflexivity | ]);
    (split; [ | lia]);
    (split; [apply Z.div_le_lower_bound; lia
            | apply Z.div_lt_upper_bound; [lia | change (2 ^ 16) with 65536; lia]]).
Qed.

(** *** Stepping through a computation *)

Lemma bind_get_dev {B} (k : imx586 -> M B) (w : world) :
  bind get_dev k w = k (dev w) w.
Proof. reflexivity. Qed.

Lemma bind_modify_dev {B} (f : imx586 -> imx586) (k : unit -> M B) (w : world) :
  bind (modify_dev f) k w = k tt (with_dev (f (dev w)) w).
Proof. reflexivity. Qed.

Lemma bind_ret {A B} (a : A) (k : A -> M B) (w : world) :
  bind (ret a) k w = k a w.
Proof. reflexivity. Qed.

Lemma bind_lift_done {A B} (o : outcome A) (a : A) (k : A -> M B) (w : world) :
  o = Done a -> bind (lift o) k w = k a w.
Proof. intros ->. reflexivity. Qed.

Lemma bind_get_stack_junk {B} (k : Z -> M B) (w : world) :
  bind get_stack_junk k w = k (stack_junk w) w.
Proof. reflexivity. Qed.

Lemma with_dev_evolves (S : list i2c_xfer -> Prop) (d' : imx586) (w : world) :
  (wf_dev (dev w) -> wf_dev d') ->
  (dev_inv (dev w) -> dev_inv d') ->
  mode d' = mode (dev w) ->
  mono d' = mono (dev w) ->
  fmt_code d' = fmt_code (dev w) ->
  (forall id, id <> V4L2_CID_EXPOSURE -> get_ctrl d' id = get_ctrl (dev w) id) ->
  (common_regs_written (dev w) = true -> common_regs_written d' = true) ->
  hflip d' = hflip (dev w) ->
  streaming d' = streaming (dev w) ->
  S [] ->
  evolves S w (with_dev d' w).
Proof.
  intros Hwf Hi Hm Ho Hfc Hc Hcr Hf Hs HS. split; try assumption; try reflexivity.
  exists []. split; [symmetry; apply app_nil_r | exact HS].
Qed.

(** A change of the driver structure that stays clear of the mode, of the
    format, of every control but the exposure, and of the flags of that
    one, keeps the invariant when the new [HMAX] is admissible. *)
Lemma dev_inv_frame (d d' : imx586) :
  mode d' = mode d -> mono d' = mono d -> fmt_code d' = fmt_code d ->
  (forall id, id <> V4L2_CID_EXPOSURE -> get_ctrl d' id = get_ctrl d id) ->
  read_only (exposure d') = read_only (exposure d) ->
  grabbed (exposure d') = grabbed (exposure d) ->
  streaming d' = streaming d ->
  (common_regs_written d = true -> common_regs_written d' = true) ->
  min_HMAX (mode d) <= HMAX d' < 2 ^ 16 ->
  dev_inv d -> dev_inv d'.
Proof.
  intros Em Eo Ef Hc Er Eg Es Hw Hh [[Hmode Hcode Hhb Hgain Hhf Hvf Hro Hfree Hheld Hcommon] _].
  pose proof (Hc V4L2_CID_HBLANK ltac:(discriminate)) as Ehb.
  pose proof (Hc V4L2_CID_ANALOGUE_GAIN ltac:(discriminate)) as Egn.
  pose proof (Hc V4L2_CID_HFLIP ltac:(discriminate)) as Ehf.
  pose proof (Hc V4L2_CID_VFLIP ltac:(discriminate)) as Evf.
  cbn [get_ctrl] in Ehb, Egn, Ehf, Evf.
  split; [ | rewrite Em; exact Hh].
  constructor.
  - rewrite Em. exact Hmode.
  - unfold code_table in *. rewrite Eo, Ef. exact Hcode.
  - rewrite Ehb. exact Hhb.
  - rewrite Egn. exact Hgain.
  - rewrite Ehf. exact Hhf.
  - rewrite Evf. exact Hvf.
  - intros id. destruct id; try (rewrite Hc by discriminate; apply Hro).
    cbn [get_ctrl]. rewrite Er. apply (Hro V4L2_CID_EXPOSURE).
  - intros id. rewrite Evf. destruct id; try (rewrite Hc by discriminate; apply Hfree).
    cbn [get_ctrl]. rewrite Eg. apply (Hfree V4L2_CID_EXPOSURE).
  - rewrite Es, Evf. exact Hheld.
  - rewrite Es. intro H. apply Hw. apply Hcommon. exact H.
Qed.

(** The side conditions of [with_dev_evolves] for a change of [VMAX], of
    the exposure control (flags apart) or of the flag
    [common_regs_written]. *)
Ltac same_ctrls :=
  let id := fresh "id" in
  let H := fresh "H" in
  intros id H; destruct id; first [reflexivity | contradiction H; reflexivity].

Ltac keeps_inv :=
  let H := fresh "H" in
  intro H; refine (dev_inv_frame _ _ _ _ _ _ _ _ _ _ _ H);
  [ reflexivity | reflexivity | reflexivity | same_ctrls | reflexivity | reflexivity
  | reflexivity | try (intros _; reflexivity); try (intro; assumption) | exact (proj2 H) ].

Ltac dev_frame S :=
  apply (with_dev_evolves S);
  [ let H := fresh "H" in intro H; exact H | keeps_inv | reflexivity | reflexivity
  | reflexivity | same_ctrls
  | try (intros _; reflexivity); try (intro; assumption)
  | reflexivity | reflexivity | ].

Lemma evolves_sent (S1 S2 : list i2c_xfer -> Prop) (b : list Z) (count : Z)
    (w w1 : world) :
  evolves S1 w w1 ->
  (forall a, S1 a -> S2 (a ++ [Xfer b (next_status w1 count)])) ->
  evolves S2 w (sent b count w1).
Proof.
  intros Hev HS.
  eapply evolves_trans; [exact Hev | | ].
  - apply (sent_evolves (fun new => new = [Xfer b (next_status w1 count)])). reflexivity.
  - cbn beta. intros a c Ha ->. apply HS. exact Ha.
Qed.

Lemma quiet_snoc_dropped (a : list i2c_xfer) (b : list Z) (s : Z) :
  quiet a -> status_dropped (xfer_reg (Xfer b s)) = true -> quiet (a ++ [Xfer b s]).
Proof. intros Ha Hd. apply quiet_app; [exact Ha | apply quiet_one_dropped; exact Hd]. Qed.

Lemma quiet_snoc_checked (a : list i2c_xfer) (b : list Z) (s : Z) :
  quiet a -> 0 <= s -> quiet (a ++ [Xfer b s]).
Proof. intros Ha Hs. apply quiet_app; [exact Ha | apply quiet_one_checked; exact Hs]. Qed.

(** A write helper that reports success saw a non-negative status. *)
Lemma checked_status (s c : Z) :
  0 <= c -> (if s =? c then 0 else s) = 0 -> 0 <= s.
Proof. intros Hc. destruct (Z.eqb_spec s c); lia. Qed.

Lemma checked_status_3byte (s : Z) :
  (if s =? 5 then 0 else - EIO) = 0 -> 0 <= s.
Proof. destruct (Z.eqb_spec s 5); [lia | discriminate]. Qed.

Lemma calculate_shr_total (e hmax vmax svr offset : Z) :
  0 < hmax < 2 ^ 16 ->
  exists shr, calculate_shr e hmax vmax svr offset = Done shr.
Proof.
  intro Hh. unfold calculate_shr, do_div.
  rewrite !(u32_small hmax)
    by (change (2 ^ 32) with 4294967296; change (2 ^ 16) with 65536 in Hh; lia).
  destruct (Z.eqb_spec hmax 0) as [E | _]; [lia | ].
  cbn [obind]. eexists. reflexivity.
Qed.

Lemma calculate_v4l2_cid_exposure_total (hmax vmax shr svr offset : Z) :
  0 < hmax < 2 ^ 16 ->
  exists e, calculate_v4l2_cid_exposure hmax vmax shr svr offset = Done e.
Proof.
  intro Hh. unfold calculate_v4l2_cid_exposure, do_div.
  rewrite (u32_small hmax)
    by (change (2 ^ 32) with 4294967296; change (2 ^ 16) with 65536 in Hh; lia).
  destruct (Z.eqb_spec hmax 0) as [E | _]; [lia | ].
  cbn [obind]. eexists. reflexivity.
Qed.

Lemma calculate_min_max_total (hmax vmax min_shr svr offset : Z) :
  0 < hmax < 2 ^ 16 ->
  exists lo hi,
    calculate_min_max_v4l2_cid_exposure hmax vmax min_shr svr offset = Done (lo, hi).
Proof.
  intro Hh. unfold calculate_min_max_v4l2_cid_exposure.
  destruct (calculate_v4l2_cid_exposure_total hmax vmax
              (min_t_u64 (u64 ((svr + 1) * vmax - 4)) 0xFFFF) svr offset Hh) as (lo & ->).
  destruct (calculate_v4l2_cid_exposure_total hmax vmax min_shr svr offset Hh) as (hi & ->).
  cbn [obind]. exists lo, hi. reflexivity.
Qed.

(** *** What a status tells *)

Lemma returns_and {A} (o : outcome (A * world)) (Q1 Q2 : A -> world -> Prop) :
  returns o Q1 -> returns o Q2 -> returns o (fun a w' => Q1 a w' /\ Q2 a w').
Proof.
  unfold returns. destruct o as [[a w'] | f]; intros H1 H2; [split; assumption | exact H1].
Qed.

Lemma xfer_reg_write (reg : Z) (rest : list Z) (s : Z) :
  xfer_reg (Xfer (put_unaligned_be16 reg ++ rest) s)
  = xfer_reg (Xfer (put_unaligned_be16 reg) 0).
Proof. reflexivity. Qed.

Lemma smooth_app (a b : list i2c_xfer) : smooth (a ++ b) -> smooth a /\ smooth b.
Proof. unfold smooth. intro H. apply Forall_app in H. exact H. Qed.

Lemma verdict_nil : verdict 0 [].
Proof. split; [intros _; constructor | reflexivity]. Qed.

Lemma verdict_app_l (r : Z) (a b : list i2c_xfer) :
  quiet a -> verdict r b -> verdict r (a ++ b).
Proof.
  intros Ha [Hq Hs]. split.
  - intro Hr. apply quiet_app; [exact Ha | apply Hq; exact Hr].
  - intro H. apply Hs. apply (smooth_app a b H).
Qed.

Lemma verdict_app_r (r : Z) (a b : list i2c_xfer) :
  verdict r a -> quiet b -> verdict r (a ++ b).
Proof.
  intros [Hq Hs] Hb. split.
  - intro Hr. apply quiet_app; [apply Hq; exact Hr | exact Hb].
  - intro H. apply Hs. apply (smooth_app a b H).
Qed.

(** The status of a one- or two-byte write whose result the caller looks
    at. *)
Lemma verdict_checked (b : list Z) (s c : Z) :
  status_dropped (xfer_reg (Xfer b s)) = false ->
  Z.of_nat (length b) = c -> 0 <= c ->
  verdict (if s =? c then 0 else s) [Xfer b s].
Proof.
  intros Hd Hl Hc. split.
  - intro Hr. apply quiet_one_checked. apply (checked_status s c); assumption.
  - intro H. apply Forall_inv in H. cbn [status buf] in H.
    rewrite (H Hd), Hl, Z.eqb_refl. reflexivity.
Qed.

Lemma verdict_checked_3byte (b : list Z) (s : Z) :
  status_dropped (xfer_reg (Xfer b s)) = false ->
  Z.of_nat (length b) = 5 ->
  verdict (if s =? 5 then 0 else - EIO) [Xfer b s].
Proof.
  intros Hd Hl. split.
  - intro Hr. apply quiet_one_checked. apply checked_status_3byte. exact Hr.
  - intro H. apply Forall_inv in H. cbn [status buf] in H.
    rewrite (H Hd), Hl. reflexivity.
Qed.

Lemma evolves_succeeded (w0 w1 : world) :
  evolves (verdict 0) w0 w1 -> evolves quiet w0 w1.
Proof.
  intro H. eapply evolves_weaken; [exact H | ].
  cbn beta. intros new [Hq _]. apply Hq. reflexivity.
Qed.


(** The same for the register each transfer of these lists addresses on the
    bus. *)
Lemma register_lists_sent_checked :
  Forall (fun r => status_dropped
                     (xfer_reg (Xfer (put_unaligned_be16 (address r)) 0)) = false)
         (mode_common_regs ++ concat (map reg_list mode_catalog)).
Proof.
  apply Forall_forall. intros r Hin.
  assert (H : forallb (fun r => negb (status_dropped
                         (xfer_reg (Xfer (put_unaligned_be16 (address r)) 0))))
                      (mode_common_regs ++ concat (map reg_list mode_catalog)) = true)
    by (vm_compute; reflexivity).
  rewrite forallb_forall in H. specialize (H r Hin).
  destruct (status_dropped _); [discriminate H | reflexivity].
Qed.

Lemma mode_regs_sent_checked (m : imx586_mode) :
  In m mode_catalog ->
  Forall (fun r => status_dropped
                     (xfer_reg (Xfer (put_unaligned_be16 (address r)) 0)) = false)
         (reg_list m).
Proof.
  intro Hm. pose proof register_lists_sent_checked as H.
  apply Forall_app in H. destruct H as [_ H].
  rewrite Forall_forall in *. intros r Hr. apply H.
  apply in_concat. exists (reg_list m). split; [apply in_map; exact Hm | exact Hr].
Qed.

(** A register list either goes through, or the write that failed is
    reported; the driver structure is not touched. *)
Lemma imx586_write_regs_checked (regs : list imx586_reg) (w : world) :
  Forall (fun r => status_dropped
                     (xfer_reg (Xfer (put_unaligned_be16 (address r)) 0)) = false) regs ->
  returns (imx586_write_regs regs w)
          (fun r w' => evolves (verdict r) w w' /\ dev w' = dev w).
Proof.
  revert w. induction regs as [| x regs IH]; intros w Hregs; cbn [imx586_write_regs].
  - apply returns_ret. split; [apply evolves_refl; apply verdict_nil | reflexivity].
  - pose proof (Forall_inv Hregs) as Hx. pose proof (Forall_inv_tail Hregs) as Hrest.
    cbv beta in Hx.
    apply returns_bind. rewrite imx586_write_reg_1byte_run. cbn [returns].
    set (s := next_status w 3). set (w1 := sent _ 3 w).
    assert (Hv : verdict (if s =? 3 then 0 else s)
                   [Xfer (put_unaligned_be16 (address x) ++ [u8 (val x)]) s]).
    { apply verdict_checked; [rewrite xfer_reg_write; exact Hx | reflexivity | lia]. }
    destruct ((if s =? 3 then 0 else s) =? 0) eqn:E.
    + apply Z.eqb_eq in E. rewrite E in Hv.
      eapply returns_weaken; [apply IH; exact Hrest | ].
      cbn beta. intros r w' [Hev Hdev]. split; [ | rewrite Hdev; reflexivity].
      eapply evolves_trans; [ | exact Hev | ].
      * apply (sent_evolves quiet). apply Hv. reflexivity.
      * cbn beta. intros a b Ha Hb. apply verdict_app_l; assumption.
    + apply returns_ret. split; [apply sent_evolves; exact Hv | reflexivity].
Qed.

(** *** Applying a control *)

Lemma wf_dev_nonzero_HMAX (d : imx586) : wf_dev d -> 0 < HMAX d < 2 ^ 16.
Proof. intros (_ & H & _). exact H. Qed.

Ltac not_dropped := rewrite xfer_reg_write; vm_compute; reflexivity.

Lemma imx586_set_ctrl_switch_returns (id : ctrl_id) (v : Z) (w : world) :
  wf_dev (dev w) ->
  (id = V4L2_CID_HBLANK -> 0 <= v <= IMX586_HMAX_MAX) ->
  returns (imx586_set_ctrl_switch id v w)
          (fun r w' => evolves (verdict r) w w').
Proof.
  intros Hwf Hv. unfold imx586_set_ctrl_switch. rewrite bind_get_dev.
  destruct id.
  - (* PIXEL_RATE *)
    apply returns_ret. apply evolves_refl. apply verdict_nil.
  - (* VBLANK *)
    rewrite bind_modify_dev, bind_get_dev, imx586_write_reg_3byte_run. cbn [returns].
    eapply evolves_sent.
    + dev_frame (fun new : list i2c_xfer => new = []). reflexivity.
    + cbn beta. intros a ->. apply verdict_checked_3byte; [not_dropped | reflexivity].
  - (* HBLANK *)
    destruct Hwf as (Hm & Hh & Hb).
    destruct (hblank_to_hmax_value (mode (dev w)) v Hm (Hv eq_refl)) as (E & Hrange & Hmin).
    erewrite bind_lift_done by exact E.
    rewrite bind_modify_dev, imx586_write_reg_2byte_run. cbn [returns].
    eapply evolves_sent.
    + apply (with_dev_evolves (fun new => new = []));
        [ | | reflexivity | reflexivity | reflexivity | same_ctrls
        | intro; assumption | reflexivity | reflexivity | reflexivity ].
      * intros _. split; [exact Hm | split; [ | exact Hb]].
        cbn [HMAX set_HMAX]. rewrite u16_small; lia.
      * intro Hi.
        refine (dev_inv_frame _ _ _ _ _ _ _ _ _ _ _ Hi);
          [ reflexivity | reflexivity | reflexivity | same_ctrls | reflexivity
          | reflexivity | reflexivity | intro; assumption | ].
        cbn [HMAX set_HMAX]. rewrite u16_small; lia.
    + cbn beta. intros a ->. apply verdict_checked; [not_dropped | reflexivity | lia].
  - (* EXPOSURE *)
    destruct (calculate_shr_total v (HMAX (dev w)) (VMAX (dev w)) 0 209
                (wf_dev_nonzero_HMAX _ Hwf)) as (shr & E).
    erewrite bind_lift_done by exact E.
    rewrite imx586_write_reg_2byte_run. cbn [returns].
    eapply evolves_sent; [apply (evolves_refl (fun new => new = [])); reflexivity | ].
    cbn beta. intros a ->. apply verdict_checked; [not_dropped | reflexivity | lia].
  - (* ANALOGUE_GAIN *)
    cbv zeta.
    erewrite bind_done by apply imx586_register_hold_run.
    erewrite bind_done by apply imx586_write_reg_2byte_run.
    erewrite bind_done by apply imx586_write_reg_1byte_run.
    erewrite bind_done by apply imx586_register_hold_run.
    apply returns_ret.
    set (gain := if negb (hdr (mode (dev w))) && (IMX586_ANA_GAIN_HCG_THRESHOLD <=? v)
                 then _ else v).
    set (w1 := sent _ 3 w).
    set (w2 := sent _ 4 w1).
    set (w3 := sent _ 3 w2).
    assert (H1 : evolves quiet w w1).
    { apply sent_evolves. apply quiet_one_dropped. reflexivity. }
    assert (H2 : evolves quiet w w2).
    { apply (evolves_sent quiet quiet _ _ _ _ H1).
      intros a Ha. apply quiet_snoc_dropped; [exact Ha | reflexivity]. }
    assert (H3 : evolves (verdict (if next_status w2 3 =? 3 then 0
                                   else next_status w2 3)) w w3).
    { apply (evolves_sent quiet _ _ _ _ _ H2).
      intros a Ha. apply verdict_app_l; [exact Ha | ].
      apply verdict_checked; [not_dropped | reflexivity | lia]. }
    apply (evolves_sent _ _ _ _ _ _ H3).
    intros a Ha. apply verdict_app_r; [exact Ha | ].
    apply quiet_one_dropped. reflexivity.
  - (* HFLIP *)
    rewrite imx586_write_reg_1byte_run. cbn [returns].
    eapply evolves_sent; [apply (evolves_refl (fun new => new = [])); reflexivity | ].
    cbn beta. intros a ->. apply verdict_checked; [not_dropped | reflexivity | lia].
  - (* VFLIP *)
    rewrite imx586_write_reg_1byte_run. cbn [returns].
    eapply evolves_sent; [apply (evolves_refl (fun new => new = [])); reflexivity | ].
    cbn beta. intros a ->. apply verdict_checked; [not_dropped | reflexivity | lia].
Qed.

(** [pm_runtime_get_if_in_use] and [pm_runtime_put] around a computation
    leave the usage counter where it was. *)
Lemma evolves_pm_bracket (S : list i2c_xfer -> Prop) (w w2 : world) :
  evolves S (with_usage_count (Datatypes.S (usage_count w)) w) w2 ->
  evolves S w (with_usage_count (Nat.pred (usage_count w2)) w2).
Proof.
  intros [Hlog Hwf Hi Hm Ho Hfc Hc Hcr Hf Hs Hu]. cbn in Hu. split; cbn; try assumption.
  rewrite Hu. reflexivity.
Qed.

(** The second and third part of [imx586_set_ctrl]. *)
Lemma imx586_set_ctrl_apply_returns (id : ctrl_id) (v : Z) (w : world) :
  wf_dev (dev w) ->
  (id = V4L2_CID_HBLANK -> 0 <= v <= IMX586_HMAX_MAX) ->
  returns (imx586_set_ctrl_apply id v w)
          (fun r w' => evolves (verdict r) w w').
Proof.
  intros Hwf Hv. unfold imx586_set_ctrl_apply.
  destruct (Nat.eq_dec (usage_count w) 0) as [Eu | Nu].
  - erewrite bind_done by (apply pm_runtime_get_if_in_use_idle; exact Eu).
    cbn [Z.eqb]. apply returns_ret. apply evolves_refl. apply verdict_nil.
  - erewrite bind_done by (apply pm_runtime_get_if_in_use_active; exact Nu).
    cbn [Z.eqb]. apply returns_bind.
    eapply returns_weaken.
    { apply imx586_set_ctrl_switch_returns; [exact Hwf | exact Hv]. }
    cbn beta. intros r w2 Hev2.
    unfold bind at 1. cbn [pm_runtime_put]. apply returns_ret.
    apply evolves_pm_bracket. exact Hev2.
Qed.

(** Applied to the exposure it leaves the driver structure alone, and it
    reports success when the device is idle or the bus takes the write of
    the shutter register. *)
Lemma imx586_set_ctrl_apply_exposure (e : Z) (w : world) :
  wf_dev (dev w) ->
  returns (imx586_set_ctrl_apply V4L2_CID_EXPOSURE e w)
          (fun r w' => dev w' = dev w /\
                       (usage_count w = 0%nat \/ next_status w 4 = 4 -> r = 0)).
Proof.
  intros Hwf. unfold imx586_set_ctrl_apply.
  destruct (Nat.eq_dec (usage_count w) 0) as [Eu | Nu].
  - erewrite bind_done by (apply pm_runtime_get_if_in_use_idle; exact Eu).
    cbn [Z.eqb]. apply returns_ret. split; reflexivity.
  - erewrite bind_done by (apply pm_runtime_get_if_in_use_active; exact Nu).
    cbn [Z.eqb].
    destruct (calculate_shr_total e (HMAX (dev w)) (VMAX (dev w)) 0 209
                (wf_dev_nonzero_HMAX _ Hwf)) as (shr & E).
    erewrite bind_done;
      [ | unfold imx586_set_ctrl_switch; rewrite bind_get_dev;
          cbn [dev with_usage_count];
          erewrite bind_lift_done by exact E;
          apply imx586_write_reg_2byte_run ].
    unfold bind. cbn [pm_runtime_put ret returns].
    split; [reflexivity | ].
    intros [Hidle | Hbus]; [contradiction | ].
    change (next_status (with_usage_count (S (usage_count w)) w) 4)
      with (next_status w 4).
    rewrite Hbus. reflexivity.
Qed.

(** [__v4l2_ctrl_modify_range] on the exposure control, as the block
    guarded by [V4L2_CID_VBLANK] calls it.  The range is published when it
    is consistent; nothing is sent when the exposure lies in it; otherwise
    the exposure is moved to the nearest bound unless the driver, called
    back, reports a failure. *)
Lemma modify_range_exposure_returns (min max stp def : Z) (w : world) :
  wf_dev (dev w) ->
  returns (modify_range imx586_set_ctrl_apply V4L2_CID_EXPOSURE min max stp def w)
    (fun _ w' =>
       evolves (fun new => s64 min <= cur (exposure (dev w)) <= s64 max -> new = []) w w' /\
       mode (dev w') = mode (dev w) /\
       HMAX (dev w') = HMAX (dev w) /\
       VMAX (dev w') = VMAX (dev w) /\
       (cur (exposure (dev w')) = cur (exposure (dev w)) \/
        cur (exposure (dev w'))
        = clamp (cur (exposure (dev w))) (s64 min) (s64 max)) /\
       (u64 stp <> 0 -> s64 min <= s64 def <= s64 max ->
        minimum (exposure (dev w')) = s64 min /\
        maximum (exposure (dev w')) = s64 max /\
        (grabbed (exposure (dev w)) = false ->
         usage_count w = 0%nat \/ next_status w 4 = 4 ->
         cur (exposure (dev w'))
         = clamp (cur (exposure (dev w))) (s64 min) (s64 max)))).
Proof.
  intros Hwf. unfold modify_range. rewrite bind_get_dev. cbn [get_ctrl].
  set (e := cur (exposure (dev w))).
  destruct ((u64 stp =? 0) || (s64 max <? s64 min) || (s64 def <? s64 min)
            || (s64 max <? s64 def)) eqn:Echeck.
  - apply returns_ret.
    split; [apply evolves_refl; intros _; reflexivity | ].
    do 3 (split; [reflexivity | ]).
    split; [left; reflexivity | ].
    intros Hs Hd. exfalso.
    destruct (Z.eqb_spec (u64 stp) 0); [contradiction | ].
    destruct (Z.ltb_spec (s64 max) (s64 min)); [lia | ].
    destruct (Z.ltb_spec (s64 def) (s64 min)); [lia | ].
    destruct (Z.ltb_spec (s64 max) (s64 def)); [lia | discriminate Echeck].
  - rewrite bind_modify_dev.
    set (c1 := {| minimum := s64 min; maximum := s64 max; step := u64 stp;
                  default_value := s64 def; cur := e;
                  read_only := read_only (exposure (dev w));
                  grabbed := grabbed (exposure (dev w)) |}).
    set (w1 := with_dev (put_ctrl V4L2_CID_EXPOSURE c1 (dev w)) w).
    assert (Hev1 : forall S : list i2c_xfer -> Prop, S [] -> evolves S w w1).
    { intros S HS. dev_frame S. exact HS. }
    assert (Hwf1 : wf_dev (dev w1)) by exact Hwf.
    destruct (clamp e (s64 min) (s64 max) =? e) eqn:Efit; cbn [negb].
    + apply Z.eqb_eq in Efit.
      apply returns_ret.
      split; [apply Hev1; intros _; reflexivity | ].
      do 3 (split; [reflexivity | ]).
      split; [left; reflexivity | ].
      intros _ _. split; [reflexivity | split; [reflexivity | ]].
      intros _ _. symmetry. exact Efit.
    + assert (Hout : ~ (s64 min <= e <= s64 max)).
      { intro H. apply Z.eqb_neq in Efit. apply Efit. unfold clamp. lia. }
      unfold set_ctrl. rewrite bind_get_dev.
      change (get_ctrl (dev w1) V4L2_CID_EXPOSURE) with c1.
      cbn [minimum maximum cur grabbed c1].
      destruct (grabbed (exposure (dev w))) eqn:Eg.
      * apply returns_ret.
        split; [apply Hev1; intros _; reflexivity | ].
        do 3 (split; [reflexivity | ]).
        split; [left; reflexivity | ].
        intros _ _. split; [reflexivity | split; [reflexivity | ]].
        intro H. discriminate H.
      * fold e. rewrite Efit.
        apply returns_bind. eapply returns_weaken.
        { apply returns_and;
            [apply imx586_set_ctrl_apply_returns; [exact Hwf1 | discriminate]
            | apply imx586_set_ctrl_apply_exposure; exact Hwf1]. }
        cbn beta. intros r w2 (Hev2 & Hdev2 & Hr2).
        assert (Hev : evolves (fun new => s64 min <= e <= s64 max -> new = []) w w2).
        { eapply evolves_trans; [apply (Hev1 (fun new => new = [])); reflexivity
                                | exact Hev2 | ].
          cbn beta. intros a b _ _ H. contradiction. }
        destruct (r =? 0) eqn:Er; cbn [negb].
        -- rewrite bind_modify_dev. apply returns_ret.
           split.
           { eapply evolves_trans; [exact Hev | | ].
             - dev_frame (fun new : list i2c_xfer => new = []). reflexivity.
             - cbn beta. intros a b Ha -> H. rewrite app_nil_r. apply Ha. exact H. }
           cbn [dev with_dev]. rewrite Hdev2.
           do 3 (split; [reflexivity | ]).
           split; [right; reflexivity | ].
           intros _ _. split; [reflexivity | split; [reflexivity | ]].
           intros _ _. reflexivity.
        -- apply returns_ret.
           split; [exact Hev | ].
           rewrite Hdev2.
           do 3 (split; [reflexivity | ]).
           split; [left; reflexivity | ].
           intros _ _. split; [reflexivity | split; [reflexivity | ]].
           intros _ Hok. apply Z.eqb_neq in Er. exfalso. apply Er. apply Hr2. exact Hok.
Qed.

(** The block guarded by [V4L2_CID_VBLANK] sends nothing when the
    configured exposure lies in the range it derives. *)
Lemma imx586_set_ctrl_vblank_limits_returns (v : Z) (w : world) :
  wf_dev (dev w) ->
  returns (imx586_set_ctrl_vblank_limits v w)
          (fun _ w' => evolves (fun new => exposure_fits (dev w) v -> new = []) w w').
Proof.
  intros Hwf. unfold imx586_set_ctrl_vblank_limits.
  rewrite bind_get_dev, bind_modify_dev, bind_get_dev.
  set (w1 := with_dev _ w).
  assert (Hev1 : evolves (fun new => new = []) w w1).
  { dev_frame (fun new : list i2c_xfer => new = []). reflexivity. }
  assert (Hwf1 : wf_dev (dev w1)) by exact Hwf.
  destruct (calculate_min_max_total (HMAX (dev w1)) (VMAX (dev w1))
              (u64 (min_SHR (mode (dev w)))) 0 209 (wf_dev_nonzero_HMAX _ Hwf1))
    as (lo & hi & Ecalc).
  erewrite bind_lift_done by exact Ecalc. cbv beta iota.
  rewrite bind_get_stack_junk.
  apply returns_bind.
  eapply returns_weaken; [apply modify_range_exposure_returns; exact Hwf1 | ].
  cbn beta. intros _ w2 (Hev2 & _). apply returns_ret.
  eapply evolves_trans; [exact Hev1 | exact Hev2 | ].
  cbn beta. intros a b -> Hb Hfit. apply Hb.
  unfold exposure_fits in Hfit.
  change (calculate_min_max_v4l2_cid_exposure (HMAX (dev w))
            (u32 (u64 (u32 (height (mode (dev w))) + v)))
            (u64 (min_SHR (mode (dev w)))) 0 209)
    with (calculate_min_max_v4l2_cid_exposure (HMAX (dev w1)) (VMAX (dev w1))
            (u64 (min_SHR (mode (dev w)))) 0 209) in Hfit.
  rewrite Ecalc in Hfit. exact Hfit.
Qed.

Lemma imx586_set_ctrl_returns (id : ctrl_id) (v : Z) (w : world) :
  wf_dev (dev w) ->
  (id = V4L2_CID_HBLANK -> 0 <= v <= IMX586_HMAX_MAX) ->
  returns (imx586_set_ctrl id v w)
          (fun r w' =>
             evolves (fun new => (id = V4L2_CID_VBLANK -> exposure_fits (dev w) v) ->
                                 verdict r new) w w').
Proof.
  intros Hwf Hv. unfold imx586_set_ctrl.
  apply returns_bind.
  apply returns_weaken
    with (Q := fun _ w' =>
                 evolves (fun new => (id = V4L2_CID_VBLANK -> exposure_fits (dev w) v) ->
                                     new = []) w w').
  { destruct id; try (apply returns_ret; apply evolves_refl; reflexivity).
    eapply returns_weaken; [apply imx586_set_ctrl_vblank_limits_returns; exact Hwf | ].
    cbn beta. intros _ w' Hev. eapply evolves_weaken; [exact Hev | ].
    cbn beta. intros new Hn Hfit. apply Hn. apply Hfit. reflexivity. }
  cbn beta. intros _ w0 Hev0.
  eapply returns_weaken.
  { apply imx586_set_ctrl_apply_returns; [ | exact Hv].
    apply (ev_wf _ _ _ Hev0). exact Hwf. }
  cbn beta. intros r w1 Hev1.
  eapply evolves_trans; [exact Hev0 | exact Hev1 | ].
  cbn beta. intros a b Ha Hb Hfit. rewrite (Ha Hfit). exact Hb.
Qed.

(** The pixel-rate control has no case in the switch. *)
Lemma imx586_set_ctrl_pixel_rate (v : Z) (w : world) :
  returns (imx586_set_ctrl V4L2_CID_PIXEL_RATE v w)
          (fun r w' => r = 0 /\ dev w' = dev w /\ evolves (fun new => new = []) w w').
Proof.
  unfold imx586_set_ctrl, imx586_set_ctrl_apply. rewrite bind_ret.
  destruct (Nat.eq_dec (usage_count w) 0) as [Eu | Nu].
  - erewrite bind_done by (apply pm_runtime_get_if_in_use_idle; exact Eu).
    cbn [Z.eqb]. apply returns_ret.
    split; [reflexivity | split; [reflexivity | apply evolves_refl; reflexivity]].
  - erewrite bind_done by (apply pm_runtime_get_if_in_use_active; exact Nu).
    cbn [Z.eqb].
    erewrite bind_done
      by (unfold imx586_set_ctrl_switch; rewrite bind_get_dev; reflexivity).
    unfold bind. cbn [pm_runtime_put ret returns].
    split; [reflexivity | split; [reflexivity | ]].
    apply (evolves_pm_bracket (fun new => new = []) w).
    apply evolves_refl. reflexivity.
Qed.

(** *** Re-applying the controls *)

Lemma handler_setup_from_returns (ids : list ctrl_id) (w : world) :
  ~ In V4L2_CID_VBLANK ids ->
  wf_dev (dev w) ->
  returns (handler_setup_from ids w)
          (fun r w' => evolves (verdict r) w w').
Proof.
  revert w. induction ids as [| id ids IH]; intros w Hno Hwf; cbn [handler_setup_from].
  - apply returns_ret. apply evolves_refl. apply verdict_nil.
  - assert (Hid : id <> V4L2_CID_VBLANK) by (intro E; apply Hno; left; exact E).
    assert (Hno' : ~ In V4L2_CID_VBLANK ids) by (intro E; apply Hno; right; exact E).
    rewrite bind_get_dev. destruct (read_only (get_ctrl (dev w) id)).
    + apply IH; assumption.
    + apply returns_bind. eapply returns_weaken.
      { apply imx586_set_ctrl_returns; [exact Hwf | ].
        intros ->. destruct Hwf as (_ & _ & Hb). exact Hb. }
      cbn beta. intros r w1 Hev1.
      assert (Hev1' : evolves (verdict r) w w1).
      { eapply evolves_weaken; [exact Hev1 | ].
        cbn beta. intros new Hn. apply Hn. intro E. contradiction. }
      destruct (Z.eqb_spec r 0) as [-> | Nr].
      * eapply returns_weaken;
          [apply IH; [exact Hno' | apply (ev_wf _ _ _ Hev1); exact Hwf] | ].
        cbn beta. intros r' w2 Hev2.
        eapply evolves_trans; [exact Hev1' | exact Hev2 | ].
        cbn beta. intros a b [Ha _] Hb. apply verdict_app_l; [apply Ha; reflexivity | exact Hb].
      * apply returns_ret. exact Hev1'.
Qed.

(** The vertical blanking is the first control the handler applies. *)
Lemma __v4l2_ctrl_handler_setup_returns (w : world) :
  wf_dev (dev w) ->
  returns (__v4l2_ctrl_handler_setup w)
          (fun r w' => evolves (fun new => exposure_settled (dev w) -> verdict r new) w w').
Proof.
  intros Hwf. unfold __v4l2_ctrl_handler_setup, handler_ctrls.
  set (rest := [V4L2_CID_HBLANK; V4L2_CID_EXPOSURE; V4L2_CID_ANALOGUE_GAIN;
                V4L2_CID_HFLIP; V4L2_CID_VFLIP]).
  assert (Hrest : ~ In V4L2_CID_VBLANK rest).
  { subst rest. cbn [In]. intuition discriminate. }
  assert (HB : forall w1, dev w1 = dev w -> evolves (fun new => new = []) w w1 ->
            returns (handler_setup_from (V4L2_CID_VBLANK :: rest) w1)
              (fun r w' => evolves (fun new => exposure_settled (dev w) -> verdict r new)
                             w w')).
  { intros w1 Hdev Hev1.
    assert (Hwf1 : wf_dev (dev w1)) by (rewrite Hdev; exact Hwf).
    cbn [handler_setup_from]. rewrite bind_get_dev.
    destruct (read_only (get_ctrl (dev w1) V4L2_CID_VBLANK)).
    - eapply returns_weaken; [apply handler_setup_from_returns; assumption | ].
      cbn beta. intros r w2 Hev2.
      eapply evolves_trans; [exact Hev1 | exact Hev2 | ].
      cbn beta. intros a b -> Hb _. exact Hb.
    - apply returns_bind. eapply returns_weaken.
      { apply imx586_set_ctrl_returns; [exact Hwf1 | discriminate]. }
      cbn beta. intros r w2 Hev2.
      assert (Hev2' : evolves (fun new => exposure_settled (dev w) -> verdict r new) w w2).
      { eapply evolves_trans; [exact Hev1 | exact Hev2 | ].
        cbn beta. intros a b -> Hb Hs. apply Hb. intros _.
        rewrite Hdev. exact Hs. }
      destruct (Z.eqb_spec r 0) as [-> | Nr].
      + eapply returns_weaken;
          [apply handler_setup_from_returns;
             [exact Hrest | apply (ev_wf _ _ _ Hev2); exact Hwf1] | ].
        cbn beta. intros r' w3 Hev3.
        eapply evolves_trans; [exact Hev2' | exact Hev3 | ].
        cbn beta. intros a b Ha Hb Hs. apply verdict_app_l; [ | exact Hb].
        destruct (Ha Hs) as [Hq _]. apply Hq. reflexivity.
      + apply returns_ret. exact Hev2'. }
  cbn [handler_setup_from]. rewrite bind_get_dev.
  destruct (read_only (get_ctrl (dev w) V4L2_CID_PIXEL_RATE)).
  - apply (HB w eq_refl). apply evolves_refl. reflexivity.
  - apply returns_bind. eapply returns_weaken; [apply imx586_set_ctrl_pixel_rate | ].
    cbn beta. intros r w1 (-> & Hdev & Hev1). cbn [Z.eqb].
    apply (HB w1 Hdev Hev1).
Qed.

(** *** The start sequence *)

Lemma steady_refl (w : world) : steady (dev w) w w.
Proof. split; [apply evolves_refl; constructor | reflexivity]. Qed.

Lemma steady_sent_dropped (b : list Z) (count : Z) (d : imx586) (w0 w : world) :
  status_dropped (xfer_reg (Xfer b 0)) = true ->
  steady d w0 w -> steady d w0 (sent b count w).
Proof.
  intros Hd [Hev Hdev]. split; [ | exact Hdev].
  apply (evolves_sent quiet quiet _ _ _ _ Hev).
  intros a Ha. apply quiet_snoc_dropped; [exact Ha | exact Hd].
Qed.

(** Rules to walk through the writes whose status is dropped. *)
Lemma step_dropped_1byte {B} {reg v : Z} {k : Z -> M B} {d : imx586} {w0 w : world}
    {Q : B -> world -> Prop} :
  status_dropped (xfer_reg (Xfer (put_unaligned_be16 reg) 0)) = true ->
  steady d w0 w ->
  (forall r w1, steady d w0 w1 -> returns (k r w1) Q) ->
  returns (bind (imx586_write_reg_1byte reg v) k w) Q.
Proof.
  intros Hd Hst Hk. erewrite bind_done by apply imx586_write_reg_1byte_run.
  apply Hk. apply steady_sent_dropped; [exact Hd | exact Hst].
Qed.

Lemma step_dropped_2byte {B} {reg v : Z} {k : Z -> M B} {d : imx586} {w0 w : world}
    {Q : B -> world -> Prop} :
  status_dropped (xfer_reg (Xfer (put_unaligned_be16 reg) 0)) = true ->
  steady d w0 w ->
  (forall r w1, steady d w0 w1 -> returns (k r w1) Q) ->
  returns (bind (imx586_write_reg_2byte reg v) k w) Q.
Proof.
  intros Hd Hst Hk. erewrite bind_done by apply imx586_write_reg_2byte_run.
  apply Hk. apply steady_sent_dropped; [exact Hd | exact Hst].
Qed.

Lemma step_dropped_3byte {B} {reg v : Z} {k : Z -> M B} {d : imx586} {w0 w : world}
    {Q : B -> world -> Prop} :
  status_dropped (xfer_reg (Xfer (put_unaligned_be16 reg) 0)) = true ->
  steady d w0 w ->
  (forall r w1, steady d w0 w1 -> returns (k r w1) Q) ->
  returns (bind (imx586_write_reg_3byte reg v) k w) Q.
Proof.
  intros Hd Hst Hk. erewrite bind_done by apply imx586_write_reg_3byte_run.
  apply Hk. apply steady_sent_dropped; [exact Hd | exact Hst].
Qed.

(** A register list in the sequence: with status 0 the walk goes on. *)
Lemma step_regs {B} {regs : list imx586_reg} {k : Z -> M B} {d : imx586}
    {w0 w : world} {Q : B -> world -> Prop} :
  Forall (fun r => status_dropped
                     (xfer_reg (Xfer (put_unaligned_be16 (address r)) 0)) = false) regs ->
  steady d w0 w ->
  (forall r w1, evolves (verdict r) w0 w1 -> (r = 0 -> steady d w0 w1) ->
                returns (k r w1) Q) ->
  returns (bind (imx586_write_regs regs) k w) Q.
Proof.
  intros Hregs [Hev Hdev] Hk. apply returns_bind.
  eapply returns_weaken; [apply imx586_write_regs_checked; exact Hregs | ].
  cbn beta. intros r w1 [Hev1 Hdev1].
  assert (H : evolves (verdict r) w0 w1).
  { eapply evolves_trans; [exact Hev | exact Hev1 | ].
    cbn beta. intros a b Ha Hb. apply verdict_app_l; assumption. }
  apply Hk; [exact H | ].
  intros ->. split; [apply evolves_succeeded; exact H | rewrite Hdev1; exact Hdev].
Qed.

(** The first block of the start sequence: the common registers, written
    once after power-up. *)
Lemma imx586_start_streaming_common (w : world) :
  returns
    ((if negb (common_regs_written (dev w)) then
        r <- imx586_write_regs mode_common_regs ;;
        if negb (r =? 0) then ret r
        else
          imx586_write_reg_2byte IMX586_REG_BLKLEVEL IMX586_BLKLEVEL_DEFAULT ;;;
          modify_dev (set_common_regs_written true) ;;;
          ret 0
      else ret 0) w)
    (fun r w1 =>
       evolves (verdict r) w w1 /\
       (r = 0 -> dev w1 = if common_regs_written (dev w) then dev w
                          else set_common_regs_written true (dev w))).
Proof.
  pose proof register_lists_sent_checked as Hlists.
  apply Forall_app in Hlists. destruct Hlists as [Hcommon _].
  destruct (common_regs_written (dev w)); cbn [negb].
  - apply returns_ret.
    split; [apply evolves_refl; apply verdict_nil | reflexivity].
  - apply (step_regs Hcommon (steady_refl w)).
    intros r w1 Hev1 Hst1. destruct (Z.eqb_spec r 0) as [-> | Nr]; cbn [negb].
    + specialize (Hst1 eq_refl).
      eapply step_dropped_2byte; [reflexivity | exact Hst1 | ]. intros _ w2 [Hev2 Hdev2].
      rewrite bind_modify_dev. apply returns_ret.
      split; [ | intros _; cbn [dev with_dev]; rewrite Hdev2; reflexivity].
      eapply evolves_trans; [exact Hev2 | | ].
      * dev_frame (fun new : list i2c_xfer => new = []). reflexivity.
      * cbn beta. intros a b Ha ->. rewrite app_nil_r.
        split; [intros _; exact Ha | reflexivity].
    + apply returns_ret. split; [exact Hev1 | intro; contradiction].
Qed.

Lemma imx586_start_streaming_returns (w : world) :
  wf_dev (dev w) ->
  returns (imx586_start_streaming w)
          (fun r w' =>
             evolves (fun new => exposure_settled (dev w) -> start_outcome r new) w w' /\
             (r = 0 -> common_regs_written (dev w') = true)).
Proof.
  intro Hwf. unfold imx586_start_streaming. rewrite bind_get_dev.
  assert (Hfail : forall r w1, r <> 0 -> evolves (verdict r) w w1 ->
            evolves (fun new => exposure_settled (dev w) -> start_outcome r new) w w1 /\
            (r = 0 -> common_regs_written (dev w1) = true)).
  { intros r w1 Nr Hev. split; [ | intro; contradiction].
    eapply evolves_weaken; [exact Hev | ].
    cbn beta. intros new Hv _. split; [exact Hv | intro; contradiction]. }
  apply returns_bind.
  eapply returns_weaken; [apply imx586_start_streaming_common | ].
  cbn beta. intros r w1 [Hev1 Hdev1].
  destruct (Z.eqb_spec r 0) as [-> | Nr]; cbn [negb];
    [ | apply returns_ret; apply Hfail; assumption].
  specialize (Hdev1 eq_refl). apply evolves_succeeded in Hev1.
  assert (Hst1 : steady (dev w1) w w1) by (split; [exact Hev1 | reflexivity]).
  assert (Hmode : mode (dev w1) = mode (dev w)) by apply (ev_mode _ _ _ Hev1).
  assert (Hflag : common_regs_written (dev w1) = true).
  { rewrite Hdev1. destruct (common_regs_written (dev w)) eqn:E; [exact E | reflexivity]. }
  assert (Hset1 : exposure_settled (dev w) -> exposure_settled (dev w1)).
  { rewrite Hdev1. destruct (common_regs_written (dev w)); intro H; exact H. }
  rewrite bind_get_dev, Hmode.
  apply (step_regs (mode_regs_sent_checked _ (proj1 Hwf)) Hst1).
  intros r w2 Hev2 Hst2.
  destruct (Z.eqb_spec r 0) as [-> | Nr]; cbn [negb];
    [ | apply returns_ret; apply Hfail; assumption].
  specialize (Hst2 eq_refl).
  apply returns_bind.
  apply returns_weaken with (Q := fun _ w3 => steady (dev w1) w w3).
  { destruct (linear (mode (dev w))); cbn [negb].
    - eapply step_dropped_3byte; [reflexivity | exact Hst2 | ]. intros _ wa Ha.
      eapply step_dropped_1byte; [reflexivity | exact Ha | ]. intros _ wb Hb.
      eapply step_dropped_3byte; [reflexivity | exact Hb | ]. intros _ wc Hc.
      eapply step_dropped_1byte; [reflexivity | exact Hc | ]. intros _ wd Hd.
      apply returns_ret. exact Hd.
    - eapply step_dropped_3byte; [reflexivity | exact Hst2 | ]. intros _ wa Ha.
      eapply step_dropped_1byte; [reflexivity | exact Ha | ]. intros _ wb Hb.
      eapply step_dropped_3byte; [reflexivity | exact Hb | ]. intros _ wc Hc.
      eapply step_dropped_1byte; [reflexivity | exact Hc | ]. intros _ wd Hd.
      apply returns_ret. exact Hd. }
  cbn beta. intros _ w3 Hst3.
  apply returns_bind.
  apply returns_weaken with (Q := fun _ w4 => steady (dev w1) w w4).
  { destruct (hdr (mode (dev w))).
    - eapply step_dropped_2byte; [reflexivity | exact Hst3 | ]. intros _ wa Ha.
      eapply step_dropped_2byte; [reflexivity | exact Ha | ]. intros _ wb Hb.
      eapply step_dropped_1byte; [reflexivity | exact Hb | ]. intros _ wc Hc.
      apply returns_ret. exact Hc.
    - apply returns_ret. exact Hst3. }
  cbn beta. intros _ w4 Hst4.
  eapply step_dropped_1byte; [reflexivity | exact Hst4 | ]. intros _ w5 [Hev5 Hdev5].
  assert (Hwf5 : wf_dev (dev w5)) by (apply (ev_wf _ _ _ Hev5); exact Hwf).
  apply returns_bind.
  eapply returns_weaken; [apply __v4l2_ctrl_handler_setup_returns; exact Hwf5 | ].
  cbn beta. intros r w6 Hev6.
  assert (Hflag6 : common_regs_written (dev w6) = true).
  { apply (ev_common _ _ _ Hev6). rewrite Hdev5. exact Hflag. }
  assert (Hev6' : evolves (fun new => exposure_settled (dev w) -> verdict r new) w w6).
  { eapply evolves_trans; [exact Hev5 | exact Hev6 | ].
    cbn beta. intros a b Ha Hb Hs. apply verdict_app_l; [exact Ha | ].
    apply Hb. rewrite Hdev5. apply Hset1. exact Hs. }
  destruct (Z.eqb_spec r 0) as [-> | Nr]; cbn [negb].
  - rewrite imx586_write_reg_1byte_run. cbn [returns].
    split; [ | intros _; exact Hflag6].
    apply (evolves_sent _ _ _ _ _ _ Hev6').
    intros a Ha Hs. split.
    + apply verdict_app_l; [destruct (Ha Hs) as [Hq _]; apply Hq; reflexivity | ].
      apply verdict_checked; [not_dropped | reflexivity | lia].
    + intros _. eexists a, _. reflexivity.
  - apply returns_ret. split; [ | intro; contradiction].
    eapply evolves_weaken; [exact Hev6' | ].
    cbn beta. intros new Hv Hs. split; [apply Hv; exact Hs | intro; contradiction].
Qed.

(** *** Stream on *)

(** What a stream-on request does from [Standby]: it returns; a non-zero
    status leaves the streaming flag clear and the usage counter where it
    was; status 0 sets the flag; the horizontal-flip control is not touched
    either way.  For a device whose configured exposure lies in the range
    of the configured vertical blanking, status 0 means that every transfer
    that failed addressed a register whose status the source drops, and
    status 0 is what the request returns when the device resumed and every
    other transfer was taken in full. *)
Lemma imx586_set_stream_on_returns (w : world) :
  wf_dev (dev w) -> streaming (dev w) = false ->
  returns (imx586_set_stream 1 w)
    (fun r w' =>
       (r <> 0 -> streaming (dev w') = false /\ usage_count w' = usage_count w) /\
       (r = 0 -> streaming (dev w') = true /\ grabbed (vflip (dev w')) = true) /\
       (exposure_settled (dev w) ->
          (r = 0 -> quiet (new_xfers w w')) /\
          (0 <= resume_status w -> smooth (new_xfers w w') ->
             r = 0 /\
             exists a s,
               new_xfers w w'
               = a ++ [Xfer (put_unaligned_be16 IMX586_REG_MODE_SELECT
                               ++ [u8 IMX586_MODE_STREAMING]) s])) /\
       hflip (dev w') = hflip (dev w)).
Proof.
  intros Hwf Hs. unfold imx586_set_stream. rewrite bind_get_dev, Hs.
  cbn [Z.eqb negb].
  unfold bind at 1. cbn [pm_runtime_get_sync].
  set (w1 := with_usage_count _ w).
  destruct (Z.ltb_spec (resume_status w) 0) as [Hneg | Hpos].
  - unfold bind. cbn [pm_runtime_put_noidle pm_runtime_put ret returns].
    cbn [dev with_usage_count usage_count w1 Nat.pred].
    split; [intros _; split; [exact Hs | reflexivity] | ].
    split; [lia | ].
    split; [ | reflexivity].
    intros _. split; [lia | lia].
  - apply returns_bind. eapply returns_weaken.
    { apply (imx586_start_streaming_returns w1). exact Hwf. }
    cbn beta. intros r w2 [[(new & Hlog & Hnew) _ _ _ _ _ _ _ Hf2 Hs2 Hu2] _].
    cbn [dev i2c_log usage_count with_usage_count w1] in Hlog, Hnew, Hf2, Hs2, Hu2.
    destruct (Z.eqb_spec r 0) as [-> | Nr]; cbn [negb].
    + cbv [bind modify_dev get_dev __v4l2_ctrl_grab ret returns].
      cbn [dev with_dev set_streaming put_ctrl get_ctrl streaming vflip hflip grabbed].
      split; [intro H; contradiction | ].
      split; [intros _; split; reflexivity | ].
      split; [ | exact Hf2].
      intros Hset.
      erewrite new_xfers_app by (cbn [i2c_log with_dev]; exact Hlog).
      destruct (Hnew Hset) as [[Hq _] Hlast].
      split; [intros _; apply Hq; reflexivity | ].
      intros _ _. split; [reflexivity | apply Hlast; reflexivity].
    + unfold bind. cbn [pm_runtime_put ret returns].
      cbn [dev with_usage_count usage_count].
      split; [intros _; split; [congruence | rewrite Hu2; reflexivity] | ].
      split; [intro H; contradiction | ].
      split; [ | exact Hf2].
      intros Hset.
      erewrite new_xfers_app by (cbn [i2c_log with_usage_count]; exact Hlog).
      destruct (Hnew Hset) as [[_ Hsm] _].
      split; [intro H; contradiction | ].
      intros _ Hsmooth. exfalso. apply Nr. apply Hsm. exact Hsmooth.
Qed.




(** ** Gain stage selector *)

Lemma byte_pair_small (x : Z) :
  0 <= x < 2 ^ 16 ->
  u8 (u16 x) = x mod 256 /\ u8 (Z.shiftr (u16 x) 8) = x / 256.
Proof.
  intro H. change (2 ^ 16) with 65536 in H.
  rewrite u16_small by (change (2 ^ 16) with 65536; lia).
  split; [reflexivity | ].
  rewrite Z.shiftr_div_pow2 by lia. change (2 ^ 8) with 256.
  apply u8_small. change (2 ^ 8) with 256.
  split; [apply Z.div_pos; lia | apply Z.div_lt_upper_bound; lia].
Qed.

Lemma log_after_four (w : world) (x1 x2 x3 x4 : i2c_xfer) :
  (((i2c_log w ++ [x1]) ++ [x2]) ++ [x3]) ++ [x4] = i2c_log w ++ [x1; x2; x3; x4].
Proof. rewrite <- !app_assoc. reflexivity. Qed.

(** C7.  For every requested gain of the control range [[0, 240]], applied
    while the device is powered: in an HDR mode the stage written to
    [FDG_SEL0] is LCG (0) and the gain word is the requested gain; otherwise,
    from the threshold 80 on, the stage is HCG (1) and the gain word is
    [max (gain - 51) 34]; below the threshold the stage is LCG and the
    gain word is the requested gain.  The two values are written between a
    register hold and its release. *)
Theorem analogue_gain_stage (w : world) (g : Z) :
  IMX586_ANA_GAIN_MIN <= g <= IMX586_ANA_GAIN_MAX ->
  usage_count w <> 0%nat ->
  exists r w' stage reg_gain,
    imx586_set_ctrl V4L2_CID_ANALOGUE_GAIN g w = Done (r, w') /\
    map buf (new_xfers w w')
    = [ [0x30; 0x01; 1]; [0x30; 0x6C; reg_gain; 0]; [0x30; 0x30; stage]; [0x30; 0x01; 0] ] /\
    (IMX586_ANA_GAIN_HCG_THRESHOLD = 80 /\ IMX586_ANA_GAIN_HCG_LEVEL = 51 /\
     IMX586_ANA_GAIN_HCG_MIN = 34) /\
    (hdr (mode (dev w)) = true -> stage = 0 /\ reg_gain = g) /\
    (hdr (mode (dev w)) = false -> IMX586_ANA_GAIN_HCG_THRESHOLD <= g ->
       stage = 1 /\
       reg_gain = Z.max (g - IMX586_ANA_GAIN_HCG_LEVEL) IMX586_ANA_GAIN_HCG_MIN) /\
    (hdr (mode (dev w)) = false -> g < IMX586_ANA_GAIN_HCG_THRESHOLD ->
       stage = 0 /\ reg_gain = g).
Proof.
  intros Hg Hu.
  unfold IMX586_ANA_GAIN_MIN, IMX586_ANA_GAIN_MAX in Hg.
  unfold imx586_set_ctrl, imx586_set_ctrl_apply. rewrite bind_ret.
  erewrite bind_done by (apply pm_runtime_get_if_in_use_active; exact Hu).
  cbn [Z.eqb].
  erewrite bind_done;
    [ | unfold imx586_set_ctrl_switch; rewrite bind_get_dev; cbv zeta;
        erewrite bind_done by apply imx586_register_hold_run;
        erewrite bind_done by apply imx586_write_reg_2byte_run;
        erewrite bind_done by apply imx586_write_reg_1byte_run;
        erewrite bind_done by apply imx586_register_hold_run;
        reflexivity ].
  cbn [dev with_usage_count].
  set (useHGC := negb (hdr (mode (dev w))) && (IMX586_ANA_GAIN_HCG_THRESHOLD <=? g)).
  set (gain := if useHGC then _ else g).
  unfold bind. cbn [pm_runtime_put ret].
  assert (Hgain : 0 <= gain <= 240 /\
            (hdr (mode (dev w)) = true -> useHGC = false /\ gain = g) /\
            (hdr (mode (dev w)) = false -> IMX586_ANA_GAIN_HCG_THRESHOLD <= g ->
               useHGC = true /\
               gain = Z.max (g - IMX586_ANA_GAIN_HCG_LEVEL) IMX586_ANA_GAIN_HCG_MIN) /\
            (hdr (mode (dev w)) = false -> g < IMX586_ANA_GAIN_HCG_THRESHOLD ->
               useHGC = false /\ gain = g)).
  { subst gain useHGC.
    unfold IMX586_ANA_GAIN_HCG_THRESHOLD, IMX586_ANA_GAIN_HCG_LEVEL,
      IMX586_ANA_GAIN_HCG_MIN.
    destruct (hdr (mode (dev w))); cbn [negb andb].
    - repeat split; try lia; discriminate.
    - destruct (Z.leb_spec (51 + 29) g) as [Hge | Hlt].
      + destruct (Z.ltb_spec (g - 51) 34); repeat split; try lia; discriminate.
      + repeat split; try lia; discriminate. }
  destruct Hgain as (Hrange & Hhdr & Hhcg & Hlcg).
  eexists _, _, (if useHGC then 1 else 0), gain.
  split; [reflexivity | ].
  split.
  - erewrite new_xfers_app
      by (cbn [i2c_log sent with_i2c_log with_usage_count]; apply log_after_four).
    cbn [map buf].
    destruct (byte_pair_small gain) as [E1 E2];
      [change (2 ^ 16) with 65536; lia | ].
    rewrite E1, E2.
    rewrite (Z.mod_small gain 256) by lia.
    rewrite (Z.div_small gain 256) by lia.
    destruct useHGC; reflexivity.
  - split; [repeat split | ].
    split; [ | split].
    + intro H. destruct (Hhdr H) as [-> ->]. split; reflexivity.
    + intros H Hge. destruct (Hhcg H Hge) as [-> ->]. split; reflexivity.
    + intros H Hlt. destruct (Hlcg H Hlt) as [-> ->]. split; reflexivity.
Qed.

Lemma analogue_gain_stage_witness :
  exists r w' stage reg_gain,
    imx586_set_ctrl V4L2_CID_ANALOGUE_GAIN 100 streaming_world = Done (r, w') /\
    map buf (new_xfers streaming_world w')
    = [ [0x30; 0x01; 1]; [0x30; 0x6C; reg_gain; 0]; [0x30; 0x30; stage]; [0x30; 0x01; 0] ] /\
    (IMX586_ANA_GAIN_HCG_THRESHOLD = 80 /\ IMX586_ANA_GAIN_HCG_LEVEL = 51 /\
     IMX586_ANA_GAIN_HCG_MIN = 34) /\
    (hdr (mode (dev streaming_world)) = true -> stage = 0 /\ reg_gain = 100) /\
    (hdr (mode (dev streaming_world)) = false -> IMX586_ANA_GAIN_HCG_THRESHOLD <= 100 ->
       stage = 1 /\
       reg_gain = Z.max (100 - IMX586_ANA_GAIN_HCG_LEVEL) IMX586_ANA_GAIN_HCG_MIN) /\
    (hdr (mode (dev streaming_world)) = false -> 100 < IMX586_ANA_GAIN_HCG_THRESHOLD ->
       stage = 0 /\ reg_gain = 100).
Proof.
  apply (analogue_gain_stage streaming_world 100).
  - unfold IMX586_ANA_GAIN_MIN, IMX586_ANA_GAIN_MAX. lia.
  - vm_compute. discriminate.
Defined.

(** ** Horizontal blanking to line length *)

(** C9 (as amended).  For every horizontal-blanking value of the control
    range [[0, 0xFFFF]] committed while the device is powered, in a mode of
    the catalog, the new line length is
    [(width + hblank) * IMX586_PIXEL_RATE / (width * IMX586_PIXEL_RATE / min_HMAX)]
    with both divisions truncating; this value is stored in [HMAX] and
    written to the HMAX register, and the pixel-rate control is unchanged. *)
Theorem hblank_line_length (w : world) (v : Z) :
  In (mode (dev w)) mode_catalog ->
  0 <= v <= IMX586_HMAX_MAX ->
  usage_count w <> 0%nat ->
  exists r w' hmax,
    imx586_set_ctrl V4L2_CID_HBLANK v w = Done (r, w') /\
    hmax = (width (mode (dev w)) + v) * IMX586_PIXEL_RATE
           / (width (mode (dev w)) * IMX586_PIXEL_RATE / min_HMAX (mode (dev w))) /\
    HMAX (dev w') = hmax /\
    map buf (new_xfers w w') = [ [0x30; 0x2C; hmax mod 256; hmax / 256] ] /\
    pixel_rate (dev w') = pixel_rate (dev w).
Proof.
  intros Hm Hv Hu.
  destruct (hblank_to_hmax_value (mode (dev w)) v Hm Hv) as (E & Hrange & Hmin).
  set (hmax := (width (mode (dev w)) + v) * IMX586_PIXEL_RATE
               / (width (mode (dev w)) * IMX586_PIXEL_RATE / min_HMAX (mode (dev w)))) in *.
  unfold imx586_set_ctrl, imx586_set_ctrl_apply. rewrite bind_ret.
  erewrite bind_done by (apply pm_runtime_get_if_in_use_active; exact Hu).
  cbn [Z.eqb].
  erewrite bind_done;
    [ | unfold imx586_set_ctrl_switch; rewrite bind_get_dev; cbv zeta;
        cbn [dev with_usage_count];
        erewrite bind_lift_done by exact E;
        rewrite bind_modify_dev;
        apply imx586_write_reg_2byte_run ].
  unfold bind. cbn [pm_runtime_put ret].
  eexists _, _, hmax.
  split; [reflexivity | ]. split; [reflexivity | ].
  assert (H0 : 0 <= hmax < 2 ^ 16) by lia.
  split; [ | split].
  - cbn [dev sent with_i2c_log with_usage_count with_dev HMAX set_HMAX].
    apply u16_small. exact H0.
  - erewrite new_xfers_app
      by (cbn [i2c_log sent with_i2c_log with_usage_count with_dev]; reflexivity).
    cbn [map buf].
    destruct (byte_pair_small hmax H0) as [E1 E2]. rewrite E1, E2. reflexivity.
  - reflexivity.
Qed.

Lemma hblank_line_length_witness :
  exists r w' hmax,
    imx586_set_ctrl V4L2_CID_HBLANK 4 streaming_world = Done (r, w') /\
    hmax = (width (mode (dev streaming_world)) + 4) * IMX586_PIXEL_RATE
           / (width (mode (dev streaming_world)) * IMX586_PIXEL_RATE
              / min_HMAX (mode (dev streaming_world))) /\
    HMAX (dev w') = hmax /\
    map buf (new_xfers streaming_world w') = [ [0x30; 0x2C; hmax mod 256; hmax / 256] ] /\
    pixel_rate (dev w') = pixel_rate (dev streaming_world).
Proof.
  apply (hblank_line_length streaming_world 4).
  - left. reflexivity.
  - unfold IMX586_HMAX_MAX. lia.
  - vm_compute. discriminate.
Defined.

(** C9, the claim as stated, fails: on the streaming 4K colour device a
    horizontal blanking of 4 gives the line length 550 (the quotient
    550.57 truncated), where rounding to nearest gives 551, whether the pixel
    rate at the minimum line length is taken exactly or as an integer
    quotient. *)
Lemma hblank_rounding_counterexample :
  match imx586_set_ctrl V4L2_CID_HBLANK 4 streaming_world with
  | Done (r, w') =>
      r = 0 /\ HMAX (dev w') = 550 /\
      spec_line_length_exact (mode (dev streaming_world)) 4 = 551 /\
      spec_line_length_floor (mode (dev streaming_world)) 4 = 551
  | Fault _ => False
  end.
Proof. vm_compute. conjuncts; reflexivity. Qed.

(** ** Blanking changes and the exposure range *)







(** ** Flip controls and streaming *)

(** C2 (the source departs from its own comment).  After a successful
    stream-on of the probed colour device the vertical-flip control is
    grabbed and a request to change it is refused with [-EBUSY], but the
    horizontal-flip control is not grabbed: a request to set it while
    streaming is accepted, recorded and written to the sensor.  In general a
    stream-on never changes the horizontal-flip control. *)
Theorem hflip_not_frozen_while_streaming :
  streaming (dev streaming_world) = true /\
  grabbed (vflip (dev streaming_world)) = true /\
  grabbed (hflip (dev streaming_world)) = false /\
  match v4l2_s_ctrl V4L2_CID_VFLIP 1 streaming_world with
  | Done (r, w') => r = - EBUSY /\ cur (vflip (dev w')) = 0
  | Fault _ => False
  end /\
  match v4l2_s_ctrl V4L2_CID_HFLIP 1 streaming_world with
  | Done (r, w') =>
      r = 0 /\ streaming (dev w') = true /\ cur (hflip (dev w')) = 1 /\
      map buf (new_xfers streaming_world w') = [ [0x30; 0x20; 1] ]
  | Fault _ => False
  end /\
  (forall w, wf_dev (dev w) -> streaming (dev w) = false ->
     exists r w', imx586_set_stream 1 w = Done (r, w') /\
                  hflip (dev w') = hflip (dev w)).
Proof.
  do 5 (split; [vm_compute; conjuncts; reflexivity | ]).
  intros w Hwf Hs.
  destruct (returns_done _ _ (imx586_set_stream_on_returns w Hwf Hs))
    as (r & w' & E & _ & _ & _ & Hf).
  exists r, w'. split; [exact E | exact Hf].
Qed.

(** ** Concrete runs *)

Example exposure_limits_at_default_timing :
  calculate_min_max_v4l2_cid_exposure 550 2250 20 0 209 = Done (4, 2230).
Proof. vm_compute. reflexivity. Qed.

Example shr_of_default_exposure :
  calculate_shr IMX586_EXPOSURE_DEFAULT 550 2250 0 209 = Done 1251.
Proof. vm_compute. reflexivity. Qed.

Example division_by_zero_line_length :
  calculate_v4l2_cid_exposure 0 2250 20 0 209 = Fault DivByZero.
Proof. vm_compute. reflexivity. Qed.

(** After probe: the timing of the 4K mode, a vertical blanking of 70 lines,
    the pixel rate 520560000, and nothing sent to the sensor. *)
Example probed_state :
  HMAX (dev (probed_world false [] 0 0)) = 550 /\
  VMAX (dev (probed_world false [] 0 0)) = 2250 /\
  cur (hblank (dev (probed_world false [] 0 0))) = 0 /\
  cur (vblank (dev (probed_world false [] 0 0))) = 70 /\
  cur (pixel_rate (dev (probed_world false [] 0 0))) = 520560000 /\
  minimum (exposure (dev (probed_world false [] 0 0))) = 4 /\
  maximum (exposure (dev (probed_world false [] 0 0))) = 2230 /\
  i2c_log (probed_world false [] 0 0) = [].
Proof. vm_compute. conjuncts; reflexivity. Qed.

(** A clean stream-on of the probed device: 242 common registers, the black
    level, 18 mode registers, 4 curve points, the digital clamp, 9 control
    writes and mode-select; the last transfers are SHR = 1251 for the default
    exposure and the mode-select write. *)
Example clean_stream_on :
  length (i2c_log streaming_world) = 276%nat /\
  streaming (dev streaming_world) = true /\
  common_regs_written (dev streaming_world) = true /\
  usage_count streaming_world = 1%nat /\
  nth_error (i2c_log streaming_world) 268 = Some (Xfer [0x30; 0x50; 0xE3; 0x04] 4) /\
  nth_error (i2c_log streaming_world) 275 = Some (Xfer [0x30; 0x00; 0x00] 3).
Proof. vm_compute. conjuncts; reflexivity. Qed.

(** The 12-bit colour format at 3840x2160 resolves to the linear 4K mode
    (no change of mode after probe), and with the gradation-compression
    transfer function to the non-linear 4K mode, whose default frame length
    is twice as long. *)
Example format_selects_partition :
  match imx586_set_pad_format blank_sd_state
          (format_request V4L2_SUBDEV_FORMAT_ACTIVE MEDIA_BUS_FMT_SRGGB12_1X12 3840 2160)
          (probed_world false [] 0 0) with
  | Done (r, _, fmt', w') =>
      r = 0 /\ mode (dev w') = mode_4k /\
      (fmt_width (format fmt'), fmt_height (format fmt')) = (3856, 2180)
  | Fault _ => False
  end /\
  match imx586_set_pad_format blank_sd_state
          {| which := V4L2_SUBDEV_FORMAT_ACTIVE; pad := IMAGE_PAD;
             format := {| fmt_width := 3840; fmt_height := 2160;
                          code := MEDIA_BUS_FMT_SRGGB12_1X12; field := 0;
                          colorspace := 0; ycbcr_enc := 0; quantization := 0;
                          xfer_func := V4L2_XFER_FUNC_GRADATION_COMPRESSION |} |}
          (probed_world false [] 0 0) with
  | Done (r, _, fmt', w') =>
      r = 0 /\ mode (dev w') = mode_4k_nonlinear /\ VMAX (dev w') = 4500 /\
      xfer_func (format fmt') = V4L2_XFER_FUNC_GRADATION_COMPRESSION /\
      (minimum (exposure (dev w')), maximum (exposure (dev w'))) = (4, 4480)
  | Fault _ => False
  end.
Proof. vm_compute. conjuncts; reflexivity. Qed.

(** A second stream-on while streaming, and a stream-off, send nothing
    respectively one transfer; the stream-off releases the vertical flip. *)
Example stream_on_twice_then_off :
  match imx586_set_stream 1 streaming_world with
  | Done (r, w') => r = 0 /\ w' = streaming_world
  | Fault _ => False
  end /\
  match imx586_set_stream 0 streaming_world with
  | Done (r, w') =>
      r = 0 /\ streaming (dev w') = false /\ grabbed (vflip (dev w')) = false /\
      usage_count w' = 0%nat /\
      map buf (new_xfers streaming_world w') = [ [0x30; 0x00; 0x01] ]
  | Fault _ => False
  end.
Proof. vm_compute. conjuncts; reflexivity. Qed.

(** * The driver as a whole *)

(** ** Format resolution *)

Lemma code_table_u32 (d : imx586) (c : Z) : In c (code_table d) -> u32 c = c.
Proof.
  unfold code_table. destruct (mono d); cbn [In mono_codes codes];
    intros H; repeat (destruct H as [<- | H]; [reflexivity | ]); contradiction.
Qed.

Lemma get_mode_table_supported (d : imx586) (c tf : Z) :
  In (u32 c) (code_table d) ->
  get_mode_table d c tf = supported_modes_16bit \/
  get_mode_table d c tf = supported_modes_12bit \/
  get_mode_table d c tf = supported_modes_nonlinear_12bit.
Proof.
  unfold code_table, get_mode_table. destruct (mono d); cbn [In mono_codes codes];
    intros H; repeat (destruct H as [<- | H];
      [destruct (tf =? V4L2_XFER_FUNC_GRADATION_COMPRESSION); cbn; auto | ]);
    contradiction.
Qed.

Lemma get_mode_table_catalog (d : imx586) (c tf : Z) (m : imx586_mode) :
  In m (get_mode_table d c tf) -> In m mode_catalog.
Proof.
  unfold get_mode_table, mode_catalog.
  destruct (mono d);
    repeat match goal with
           | |- context [if ?b then _ else _] => destruct b
           end;
    rewrite !in_app_iff; cbn [In]; tauto.
Qed.

Lemma find_nearest_size_from_member (arr : list imx586_mode) (w h e : Z)
    (b : imx586_mode) :
  exists m, find_nearest_size_from arr w h e (Some b) = Some m /\ In m (b :: arr).
Proof.
  revert e b. induction arr as [ | x arr IH]; intros e b; cbn [find_nearest_size_from].
  - exists b. split; [reflexivity | left; reflexivity].
  - destruct (e <? _).
    + destruct (IH e b) as (m & E & [-> | Hin]); exists m;
        (split; [exact E | ]); cbn [In]; auto.
    + destruct (_ =? 0).
      * exists x. split; [reflexivity | right; left; reflexivity].
      * destruct (IH (u32 (Z.abs (s32 (width x - w)) + Z.abs (s32 (height x - h)))) x)
          as (m & E & [-> | Hin]); exists m; (split; [exact E | ]); cbn [In]; auto.
Qed.

Lemma v4l2_find_nearest_size_member (arr : list imx586_mode) (w h : Z) :
  arr <> [] -> exists m, v4l2_find_nearest_size arr w h = Some m /\ In m arr.
Proof.
  destruct arr as [ | x arr]; [congruence | intros _].
  unfold v4l2_find_nearest_size. cbn [find_nearest_size_from].
  set (err := u32 _).
  assert (Herr : 0 <= err < 2 ^ 32) by (apply Z.mod_pos_bound; reflexivity).
  destruct (Z.ltb_spec 0xFFFFFFFF err); [change (2 ^ 32) with 4294967296 in Herr; lia | ].
  destruct (err =? 0).
  - exists x. split; [reflexivity | left; reflexivity].
  - apply find_nearest_size_from_member.
Qed.

(** ** Formats *)

Lemma u32_u32 (x : Z) : u32 (u32 x) = u32 x.
Proof. unfold u32. apply Z.mod_mod. discriminate. Qed.

Lemma get_mode_table_u32 (d : imx586) (c tf : Z) :
  get_mode_table d (u32 c) tf = get_mode_table d c tf.
Proof. unfold get_mode_table. rewrite u32_u32. reflexivity. Qed.

(** Decide the comparisons of a code with the codes of the tables. *)
Ltac code_cases x :=
  repeat match goal with
         | |- context [x =? ?k] =>
             destruct (Z.eqb_spec x k) as [-> | ?]; cbn [orb]
         end.

Lemma get_mode_table_empty (d : imx586) (c tf : Z) :
  get_mode_table d c tf = [] <-> ~ In (u32 c) (code_table d).
Proof.
  unfold get_mode_table, code_table.
  generalize (u32 c). intros x.
  assert (Hx : forall l : list imx586_mode,
             (if tf =? V4L2_XFER_FUNC_GRADATION_COMPRESSION
              then supported_modes_nonlinear_12bit else supported_modes_12bit) <> []).
  { intros _. destruct (tf =? _); discriminate. }
  specialize (Hx []).
  destruct (mono d); code_cases x; cbn [In mono_codes codes];
    (split; [intros E; first [discriminate E | contradiction | intuition congruence]
            | intros H; first [reflexivity | exfalso; apply H; auto 10]]).
Qed.


(** The codes of sixteen bits per pixel. *)
Lemma mode_table_flags (d : imx586) (c tf : Z) (m : imx586_mode) :
  In m (get_mode_table d c tf) ->
  In m mode_catalog /\
  (In (u32 c) [MEDIA_BUS_FMT_SRGGB16_1X16; MEDIA_BUS_FMT_SGRBG16_1X16;
               MEDIA_BUS_FMT_SGBRG16_1X16; MEDIA_BUS_FMT_SBGGR16_1X16;
               MEDIA_BUS_FMT_Y16_1X16] ->
     hdr m = true /\ linear m = true) /\
  (~ In (u32 c) [MEDIA_BUS_FMT_SRGGB16_1X16; MEDIA_BUS_FMT_SGRBG16_1X16;
                 MEDIA_BUS_FMT_SGBRG16_1X16; MEDIA_BUS_FMT_SBGGR16_1X16;
                 MEDIA_BUS_FMT_Y16_1X16] ->
     (tf = V4L2_XFER_FUNC_GRADATION_COMPRESSION -> hdr m = true /\ linear m = false) /\
     (tf <> V4L2_XFER_FUNC_GRADATION_COMPRESSION -> hdr m = false /\ linear m = true)).
Proof.
  intros Hin. split; [eapply get_mode_table_catalog; exact Hin | ].
  revert Hin. unfold get_mode_table. generalize (u32 c). intros x.
  destruct (Z.eqb_spec tf V4L2_XFER_FUNC_GRADATION_COMPRESSION) as [Etf | Etf];
    destruct (mono d); code_cases x;
    cbn [In supported_modes_16bit supported_modes_12bit supported_modes_nonlinear_12bit];
    intros Hm;
    repeat match goal with
           | H : _ \/ _ |- _ => destruct H as [<- | H]
           | H : False |- _ => contradiction
           end;
    (split; [ intros H16;
              first [ solve [split; reflexivity]
                    | solve [exfalso; vm_compute in H16; intuition discriminate] ]
            | intros H12;
              first [ solve [exfalso; apply H12; vm_compute; auto 10]
                    | solve [split; intros Ht; first [congruence | split; reflexivity]] ] ]).
Qed.
Lemma mode_eqb_catalog (a b : imx586_mode) :
  In a mode_catalog -> In b mode_catalog -> (mode_eqb a b = true <-> a = b).
Proof.
  intros Ha Hb. revert b Hb. apply mode_catalog_cases. revert a Ha.
  apply mode_catalog_cases.
  cbv [mode_catalog supported_modes_12bit supported_modes_nonlinear_12bit
       supported_modes_16bit app].
  repeat (apply Forall_cons;
          [ repeat (apply Forall_cons;
                    [ split; [ vm_compute; first [reflexivity | discriminate]
                             | intros E; first [ vm_compute; reflexivity
                                               | exfalso; revert E;
                                                 unfold mode_4k, mode_1080, mode_4k_nonlinear,
                                                   mode_1080_16bit, mode_4k_16bit;
                                                 congruence ] ]
                    | ]); apply Forall_nil
          | ]).
  apply Forall_nil.
Qed.

(** [get_mode_table] selects by code and transfer function.  It yields
    no mode exactly for the codes that are not in the device's table;
    every mode it yields is one of the catalog; for a code of sixteen bits
    the transfer-function hint is ignored and the modes are the Clear-HDR
    ones; for a code of twelve bits the hint for gradation compression
    selects the non-linear HDR modes and any other hint the linear,
    non-HDR ones. *)
Theorem mode_table_partition (d : imx586) (c tf : Z) :
  (get_mode_table d c tf = [] <-> ~ In (u32 c) (code_table d)) /\
  forall m, In m (get_mode_table d c tf) ->
    In m mode_catalog /\
    (In (u32 c) [MEDIA_BUS_FMT_SRGGB16_1X16; MEDIA_BUS_FMT_SGRBG16_1X16;
                 MEDIA_BUS_FMT_SGBRG16_1X16; MEDIA_BUS_FMT_SBGGR16_1X16;
                 MEDIA_BUS_FMT_Y16_1X16] ->
       hdr m = true /\ linear m = true) /\
    (~ In (u32 c) [MEDIA_BUS_FMT_SRGGB16_1X16; MEDIA_BUS_FMT_SGRBG16_1X16;
                   MEDIA_BUS_FMT_SGBRG16_1X16; MEDIA_BUS_FMT_SBGGR16_1X16;
                   MEDIA_BUS_FMT_Y16_1X16] ->
       (tf = V4L2_XFER_FUNC_GRADATION_COMPRESSION -> hdr m = true /\ linear m = false) /\
       (tf <> V4L2_XFER_FUNC_GRADATION_COMPRESSION -> hdr m = false /\ linear m = true)).
Proof.
  split; [apply get_mode_table_empty | apply mode_table_flags].
Qed.

(** [imx586_enum_mbus_code] never reads outside its tables and lists
    only supported codes: for every pad and index it returns, with status
    0 exactly for indices 0 and 1 of the image pad and index 0 of the
    metadata pad and [-EINVAL] otherwise; on the image pad the codes are
    the sixteen-bit and the twelve-bit head of the device's table (RGGB or
    Y), each of which has a non-empty mode table for every transfer
    function. *)
Theorem enum_mbus_code_supported (d : imx586) (p i : Z) :
  exists r oc,
    imx586_enum_mbus_code d p i = Done (r, oc) /\
    (r = 0 /\ (exists c, oc = Some c) \/ r = - EINVAL /\ oc = None) /\
    (r = 0 <-> (u32 p = IMAGE_PAD /\ u32 i < 2) \/ (u32 p = METADATA_PAD /\ u32 i = 0)) /\
    (u32 p = IMAGE_PAD -> forall c, oc = Some c ->
       c = nth (Z.to_nat (u32 i))
             (if mono d then [MEDIA_BUS_FMT_Y16_1X16; MEDIA_BUS_FMT_Y12_1X12]
              else [MEDIA_BUS_FMT_SRGGB16_1X16; MEDIA_BUS_FMT_SRGGB12_1X12]) 0 /\
       In c (code_table d) /\
       forall tf, get_mode_table d c tf <> []).
Proof.
  unfold imx586_enum_mbus_code.
  assert (Hp : 0 <= u32 p) by (apply Z.mod_pos_bound; reflexivity).
  assert (Hi : 0 <= u32 i) by (apply Z.mod_pos_bound; reflexivity).
  set (x := u32 p) in *. set (y := u32 i) in *. clearbody x y.
  unfold imx586_get_format_code, NUM_PADS, IMAGE_PAD, METADATA_PAD.
  destruct (Z.leb_spec 2 x).
  { eexists _, _. split; [reflexivity | ]. split; [right; split; reflexivity | ].
    split; [ | intros; lia].
    split; [discriminate | intros [[? ?] | [? ?]]; lia]. }
  destruct (Z.eqb_spec x 0) as [Ex | Ex].
  - assert (Hnempty : forall c tf, In (u32 c) (code_table d) -> get_mode_table d c tf <> []).
    { intros c tf Hin E. apply get_mode_table_empty in E. contradiction. }
    unfold code_table in *.
    destruct (mono d); cbn [length mono_codes codes Z.of_nat Pos.of_succ_nat Pos.succ].
    + destruct (Z.leb_spec 2 y).
      { eexists _, _. split; [reflexivity | ]. split; [right; split; reflexivity | ].
        split; [ | intros _ c Hc; discriminate Hc].
        split; [discriminate | intros [[? ?] | [? ?]]; lia]. }
      assert (Hy : y = 0 \/ y = 1) by lia.
      destruct Hy as [-> | ->];
        (eexists _, _; split; [vm_compute; reflexivity | ];
         split; [left; split; [reflexivity | eexists; reflexivity] | ];
         split; [split; [intros _; left; lia | reflexivity] | ];
         intros _ c Hc; injection Hc as <-;
         split; [reflexivity | ];
         split; [vm_compute; auto 10 | intros tf; apply Hnempty; vm_compute; auto 10]).
    + change (8 / 4) with 2.
      destruct (Z.leb_spec 2 y).
      { eexists _, _. split; [reflexivity | ]. split; [right; split; reflexivity | ].
        split; [ | intros _ c Hc; discriminate Hc].
        split; [discriminate | intros [[? ?] | [? ?]]; lia]. }
      assert (Hy : y = 0 \/ y = 1) by lia.
      destruct Hy as [-> | ->];
        (eexists _, _; split; [vm_compute; reflexivity | ];
         split; [left; split; [reflexivity | eexists; reflexivity] | ];
         split; [split; [intros _; left; lia | reflexivity] | ];
         intros _ c Hc; injection Hc as <-;
         split; [reflexivity | ];
         split; [vm_compute; auto 10 | intros tf; apply Hnempty; vm_compute; auto 10]).
  - destruct (Z.ltb_spec 0 y).
    + eexists _, _. split; [reflexivity | ]. split; [right; split; reflexivity | ].
      split; [ | intros; lia].
      split; [discriminate | intros [[? ?] | [? ?]]; lia].
    + eexists _, _. split; [reflexivity | ].
      split; [left; split; [reflexivity | eexists; reflexivity] | ].
      split; [ | intros; lia].
      split; [intros _; right; lia | reflexivity].
Qed.

(** ** The control framework *)

Lemma clamp_inside (x lo hi : Z) : lo <= x <= hi -> clamp x lo hi = x.
Proof. unfold clamp. lia. Qed.

Lemma clamp_between (x lo hi : Z) : lo <= hi -> lo <= clamp x lo hi <= hi.
Proof. unfold clamp. lia. Qed.

Lemma clamp_same (x a : Z) : clamp x a a = a.
Proof. unfold clamp. lia. Qed.

Lemma ctrl_id_eq_dec (a b : ctrl_id) : {a = b} + {a <> b}.
Proof. decide equality. Qed.

Lemma dev_inv_wf (d : imx586) : dev_inv d -> wf_dev d.
Proof.
  intros [Hb Hh]. pose proof (bi_mode _ Hb) as Hm.
  destruct (hblank_to_hmax_value (mode d) 0 Hm ltac:(unfold IMX586_HMAX_MAX; lia))
    as (_ & _ & Hmin).
  destruct (bi_hblank _ Hb) as (E1 & E2 & Hin). unfold ctrl_in_range in Hin.
  rewrite E1, E2 in Hin.
  split; [exact Hm | split; [lia | exact Hin]].
Qed.

Lemma framed_refl (w : world) : framed w w.
Proof.
  split; try reflexivity; [ | tauto]. exists []. symmetry. apply app_nil_r.
Qed.

Lemma framed_trans (w w1 w2 : world) : framed w w1 -> framed w1 w2 -> framed w w2.
Proof.
  intros [(a & Ha) Hm1 Ho1 Hf1 Hs1 Hu1 Hc1] [(b & Hb) Hm2 Ho2 Hf2 Hs2 Hu2 Hc2].
  split; try congruence; [ | tauto].
  exists (a ++ b). rewrite Hb, Ha. symmetry. apply app_assoc.
Qed.

Lemma evolves_framed (S : list i2c_xfer -> Prop) (w w' : world) :
  evolves S w w' -> framed w w'.
Proof.
  intros [(new & E & _) _ _ Hm Ho Hf _ Hc _ Hs Hu].
  split; try assumption. exists new. exact E.
Qed.

Lemma kept_refl (id : ctrl_id) (w : world) : kept id w w.
Proof. split; [apply framed_refl | reflexivity]. Qed.

Lemma kept_trans (id : ctrl_id) (w w1 w2 : world) :
  kept id w w1 -> kept id w1 w2 -> kept id w w2.
Proof.
  intros [F1 O1] [F2 O2]. split; [eapply framed_trans; eassumption | ].
  intros i H1 H2. rewrite (O2 i H1 H2). apply O1; assumption.
Qed.

Lemma evolves_kept (id : ctrl_id) (S : list i2c_xfer -> Prop) (w w' : world) :
  evolves S w w' -> kept id w w'.
Proof.
  intros H. split; [eapply evolves_framed; exact H | ].
  intros i _ Hi. apply (ev_ctrls _ _ _ H). exact Hi.
Qed.

(** Reduce the projections of an updated driver structure. *)
Ltac dev_cbn :=
  cbn [get_ctrl put_ctrl set_cur set_VMAX set_HMAX set_mode set_fmt_code
       set_streaming set_common_regs_written
       minimum maximum step default_value cur read_only grabbed
       fmt_code pixel_rate exposure vflip hflip vblank hblank analogue_gain
       mode mono HMAX VMAX streaming common_regs_written code_table
       dev with_dev].

(** Replacing a control by one with the same flags keeps the invariant; a
    control of fixed range must keep its range and hold a value inside. *)
Lemma dev_inv_put_ctrl (id : ctrl_id) (c : v4l2_ctrl) (d : imx586) :
  dev_inv d ->
  read_only c = read_only (get_ctrl d id) ->
  grabbed c = grabbed (get_ctrl d id) ->
  (fixed_range id ->
   minimum c = minimum (get_ctrl d id) /\ maximum c = maximum (get_ctrl d id) /\
   minimum c <= cur c <= maximum c) ->
  dev_inv (put_ctrl id c d).
Proof.
  intros [[Hmode Hcode Hhb Hgain Hhf Hvf Hro Hfree Hheld Hcommon] HH] Er Eg Hfix.
  unfold fixed_range in Hfix. unfold ctrl_in_range in *.
  split; [ | exact HH].
  pose proof (Hro id) as Hro_id. pose proof (Hfree id) as Hfree_id.
  destruct id; cbn [get_ctrl] in *;
    (constructor; dev_cbn; unfold ctrl_in_range;
     try assumption;
     try (intros i; specialize (Hro i); specialize (Hfree i);
          destruct i; dev_cbn; cbn [get_ctrl] in *; congruence);
     try (destruct Hfix as (E1 & E2 & E3); [cbn [In]; tauto | ];
          rewrite E1, E2 in *; tauto);
     try (rewrite Eg; assumption)).
Qed.

Lemma dev_inv_set_cur (id : ctrl_id) (x : Z) (d : imx586) :
  dev_inv d ->
  (fixed_range id -> minimum (get_ctrl d id) <= x <= maximum (get_ctrl d id)) ->
  dev_inv (put_ctrl id (set_cur x (get_ctrl d id)) d).
Proof.
  intros Hinv Hx. apply dev_inv_put_ctrl; try reflexivity; [exact Hinv | ].
  intros Hf. cbn [set_cur minimum maximum cur].
  split; [reflexivity | split; [reflexivity | apply Hx; exact Hf]].
Qed.

(** The ranges of the controls of fixed range are not empty. *)
Lemma fixed_range_ordered (id : ctrl_id) (d : imx586) :
  dev_inv d -> fixed_range id ->
  minimum (get_ctrl d id) <= maximum (get_ctrl d id).
Proof.
  intros [Hb _] Hf. unfold fixed_range in Hf. cbn [In] in Hf.
  destruct (bi_hblank _ Hb) as (A1 & A2 & _).
  destruct (bi_gain _ Hb) as (B1 & B2 & _).
  destruct (bi_hflip _ Hb) as (C1 & C2 & _).
  destruct (bi_vflip _ Hb) as (D1 & D2 & _).
  unfold IMX586_HMAX_MAX, IMX586_ANA_GAIN_MIN, IMX586_ANA_GAIN_MAX in *.
  destruct Hf as [<- | [<- | [<- | [<- | []]]]]; cbn [get_ctrl]; lia.
Qed.

(** *** [set_ctrl] *)

Lemma set_ctrl_grabbed (s : ctrl_id -> Z -> M Z) (id : ctrl_id) (v : Z) (w : world) :
  grabbed (get_ctrl (dev w) id) = true ->
  set_ctrl s id v w = Done (- EBUSY, w).
Proof. intro E. unfold set_ctrl. rewrite bind_get_dev. cbv zeta. rewrite E. reflexivity. Qed.

Lemma set_ctrl_unchanged (s : ctrl_id -> Z -> M Z) (id : ctrl_id) (v : Z) (w : world) :
  grabbed (get_ctrl (dev w) id) = false ->
  clamp v (minimum (get_ctrl (dev w) id)) (maximum (get_ctrl (dev w) id))
  = cur (get_ctrl (dev w) id) ->
  set_ctrl s id v w = Done (0, w).
Proof.
  intros Eg E. unfold set_ctrl. rewrite bind_get_dev. cbv zeta.
  rewrite Eg, E, Z.eqb_refl. reflexivity.
Qed.

Lemma set_ctrl_changed (s : ctrl_id -> Z -> M Z) (id : ctrl_id) (v : Z) (w : world) :
  grabbed (get_ctrl (dev w) id) = false ->
  clamp v (minimum (get_ctrl (dev w) id)) (maximum (get_ctrl (dev w) id))
  <> cur (get_ctrl (dev w) id) ->
  set_ctrl s id v w
  = bind (s id (clamp v (minimum (get_ctrl (dev w) id)) (maximum (get_ctrl (dev w) id))))
      (fun r => if negb (r =? 0) then ret r
                else modify_dev (fun d =>
                       put_ctrl id
                         (set_cur (clamp v (minimum (get_ctrl (dev w) id))
                                           (maximum (get_ctrl (dev w) id)))
                                  (get_ctrl d id)) d) ;;; ret 0) w.
Proof.
  intros Eg E. unfold set_ctrl. rewrite bind_get_dev. cbv zeta.
  rewrite Eg. apply Z.eqb_neq in E. rewrite E. reflexivity.
Qed.

(** A request to set a control, as the framework handles it: whatever the
    driver and the bus do, the invariant of the driver structure holds
    afterwards, the control keeps its range, and the other controls but
    the exposure are untouched. *)
Lemma set_ctrl_returns (id : ctrl_id) (v : Z) (w : world) :
  dev_inv (dev w) ->
  returns (set_ctrl imx586_set_ctrl id v w)
    (fun r w' =>
       kept id w w' /\ dev_inv (dev w') /\
       (id <> V4L2_CID_EXPOSURE ->
        minimum (get_ctrl (dev w') id) = minimum (get_ctrl (dev w) id) /\
        maximum (get_ctrl (dev w') id) = maximum (get_ctrl (dev w) id))).
Proof.
  intros Hinv. pose proof (dev_inv_wf _ Hinv) as Hwf.
  set (c := get_ctrl (dev w) id).
  set (v' := clamp v (minimum c) (maximum c)).
  destruct (grabbed c) eqn:Eg.
  { rewrite set_ctrl_grabbed by exact Eg. cbn [returns].
    split; [apply kept_refl | split; [exact Hinv | intros _; split; reflexivity]]. }
  destruct (Z.eq_dec v' (cur c)) as [Esame | Ediff].
  { rewrite set_ctrl_unchanged by assumption. cbn [returns].
    split; [apply kept_refl | split; [exact Hinv | intros _; split; reflexivity]]. }
  rewrite set_ctrl_changed by assumption. fold c. fold v'.
  apply returns_bind. eapply returns_weaken.
  { apply imx586_set_ctrl_returns; [exact Hwf | ].
    intros ->. destruct Hinv as [Hb _]. destruct (bi_hblank _ Hb) as (E1 & E2 & _).
    subst v' c. cbn [get_ctrl]. rewrite E1, E2.
    apply clamp_between. unfold IMX586_HMAX_MAX. lia. }
  cbn beta. intros r w1 Hev.
  pose proof (ev_inv _ _ _ Hev Hinv) as Hinv1.
  destruct (r =? 0); cbn [negb].
  - rewrite bind_modify_dev. apply returns_ret. cbn [dev with_dev].
    split; [ | split].
    + destruct (evolves_kept id _ _ _ Hev) as [[Hl Hm Ho Hf Hs Hu Hc] Hoth].
      split; [split; try assumption | ].
      intros i Hi Hx. rewrite <- (Hoth i Hi Hx). cbn [dev with_dev].
      destruct id, i; try reflexivity; contradiction.
    + apply dev_inv_set_cur; [exact Hinv1 | ].
      intros Hfix.
      assert (Hid : id <> V4L2_CID_EXPOSURE).
      { unfold fixed_range in Hfix. cbn [In] in Hfix. intro E. subst id.
        intuition discriminate. }
      rewrite (ev_ctrls _ _ _ Hev id Hid). fold c. subst v'.
      apply clamp_between. apply (fixed_range_ordered id (dev w) Hinv Hfix).
    + intros Hid. unfold c. rewrite <- (ev_ctrls _ _ _ Hev id Hid).
      destruct id; split; reflexivity.
  - apply returns_ret.
    split; [apply (evolves_kept id _ _ _ Hev) | split; [exact Hinv1 | ]].
    intros Hid. unfold c. rewrite (ev_ctrls _ _ _ Hev id Hid). split; reflexivity.
Qed.

(** *** [__v4l2_ctrl_modify_range] *)

Lemma modify_range_rejected (s : ctrl_id -> Z -> M Z) (id : ctrl_id)
    (min max stp def : Z) (w : world) :
  (u64 stp =? 0) || (s64 max <? s64 min) || (s64 def <? s64 min) || (s64 max <? s64 def)
  = true ->
  modify_range s id min max stp def w = Done (- ERANGE, w).
Proof. intro E. unfold modify_range. rewrite bind_get_dev. cbv zeta. rewrite E. reflexivity. Qed.

Lemma modify_range_accepted (s : ctrl_id -> Z -> M Z) (id : ctrl_id)
    (min max stp def : Z) (w : world) :
  (u64 stp =? 0) || (s64 max <? s64 min) || (s64 def <? s64 min) || (s64 max <? s64 def)
  = false ->
  modify_range s id min max stp def w
  = (if negb (clamp (cur (get_ctrl (dev w) id)) (s64 min) (s64 max)
              =? cur (get_ctrl (dev w) id))
     then set_ctrl s id (cur (get_ctrl (dev w) id))
     else ret 0)
      (with_dev (put_ctrl id
                   {| minimum := s64 min; maximum := s64 max; step := u64 stp;
                      default_value := s64 def; cur := cur (get_ctrl (dev w) id);
                      read_only := read_only (get_ctrl (dev w) id);
                      grabbed := grabbed (get_ctrl (dev w) id) |} (dev w)) w).
Proof.
  intro E. unfold modify_range. rewrite bind_get_dev. cbv zeta. rewrite E.
  rewrite bind_modify_dev. reflexivity.
Qed.

Lemma range_check (min max def : Z) :
  min <= def <= max ->
  (1 =? 0) || (max <? min) || (def <? min) || (max <? def) = false.
Proof.
  intro H. cbn [Z.eqb orb].
  destruct (Z.ltb_spec max min); [lia | ].
  destruct (Z.ltb_spec def min); [lia | ].
  destruct (Z.ltb_spec max def); [lia | reflexivity].
Qed.

Lemma fixed_in_range (id : ctrl_id) (d : imx586) :
  dev_inv d -> fixed_range id ->
  minimum (get_ctrl d id) <= cur (get_ctrl d id) <= maximum (get_ctrl d id).
Proof.
  intros [Hb _] Hf. unfold fixed_range in Hf. cbn [In] in Hf.
  destruct (bi_hblank _ Hb) as (_ & _ & A).
  destruct (bi_gain _ Hb) as (_ & _ & B).
  destruct (bi_hflip _ Hb) as (_ & _ & C).
  destruct (bi_vflip _ Hb) as (_ & _ & D).
  unfold ctrl_in_range in *.
  destruct Hf as [<- | [<- | [<- | [<- | []]]]]; cbn [get_ctrl]; assumption.
Qed.

Lemma put_ctrl_kept (id : ctrl_id) (c : v4l2_ctrl) (w : world) :
  kept id w (with_dev (put_ctrl id c (dev w)) w).
Proof.
  split.
  - split; try (destruct id; reflexivity); [ | destruct id; intro H; exact H].
    exists []. symmetry. apply app_nil_r.
  - intros i Hi _. cbn [dev with_dev]. destruct id, i; try reflexivity; contradiction.
Qed.

(** A range published on a control other than the exposure: whatever the
    driver and the bus do when the value has to move, the invariant of the
    driver structure holds afterwards, the other controls but the exposure
    are untouched, and an accepted range is the range of the control. *)
Lemma modify_range_returns (id : ctrl_id) (min max stp def : Z) (w : world) :
  dev_inv (dev w) ->
  id <> V4L2_CID_EXPOSURE ->
  (fixed_range id -> s64 min = minimum (get_ctrl (dev w) id) /\
                     s64 max = maximum (get_ctrl (dev w) id)) ->
  returns (modify_range imx586_set_ctrl id min max stp def w)
    (fun r w' =>
       kept id w w' /\ dev_inv (dev w') /\
       ((u64 stp =? 0) || (s64 max <? s64 min) || (s64 def <? s64 min)
        || (s64 max <? s64 def) = false ->
        minimum (get_ctrl (dev w') id) = s64 min /\
        maximum (get_ctrl (dev w') id) = s64 max)).
Proof.
  intros Hinv Hid Hfix.
  destruct ((u64 stp =? 0) || (s64 max <? s64 min) || (s64 def <? s64 min)
            || (s64 max <? s64 def)) eqn:Echeck.
  { rewrite modify_range_rejected by exact Echeck. cbn [returns].
    split; [apply kept_refl | split; [exact Hinv | discriminate]]. }
  rewrite modify_range_accepted by exact Echeck.
  set (c1 := {| minimum := s64 min; maximum := s64 max; step := u64 stp;
                default_value := s64 def; cur := cur (get_ctrl (dev w) id);
                read_only := read_only (get_ctrl (dev w) id);
                grabbed := grabbed (get_ctrl (dev w) id) |}).
  set (w1 := with_dev (put_ctrl id c1 (dev w)) w).
  assert (Hk1 : kept id w w1) by apply put_ctrl_kept.
  assert (Hinv1 : dev_inv (dev w1)).
  { apply dev_inv_put_ctrl; try reflexivity; [exact Hinv | ].
    intros Hf. destruct (Hfix Hf) as [E1 E2]. cbn [c1 minimum maximum cur].
    split; [exact E1 | split; [exact E2 | ]]. rewrite E1, E2.
    apply fixed_in_range; assumption. }
  assert (Hc1 : get_ctrl (dev w1) id = c1) by (destruct id; reflexivity).
  destruct (negb _).
  - eapply returns_weaken; [apply set_ctrl_returns; exact Hinv1 | ].
    cbn beta. intros r w2 (Hk2 & Hinv2 & Hr2).
    split; [eapply kept_trans; eassumption | split; [exact Hinv2 | ]].
    intros _. destruct (Hr2 Hid) as [E1 E2]. rewrite E1, E2, Hc1. split; reflexivity.
  - apply returns_ret.
    split; [exact Hk1 | split; [exact Hinv1 | ]].
    intros _. rewrite Hc1. split; reflexivity.
Qed.

(** The pixel rate, published as the single value of its control, becomes
    the value of the control. *)
Lemma modify_range_pixel_rate (pr : Z) (w : world) :
  dev_inv (dev w) -> s64 pr = pr ->
  returns (modify_range imx586_set_ctrl V4L2_CID_PIXEL_RATE pr pr 1 pr w)
    (fun r w' =>
       kept V4L2_CID_PIXEL_RATE w w' /\ dev_inv (dev w') /\
       minimum (pixel_rate (dev w')) = pr /\ maximum (pixel_rate (dev w')) = pr /\
       cur (pixel_rate (dev w')) = pr).
Proof.
  intros Hinv Epr.
  rewrite modify_range_accepted by (rewrite Epr; apply range_check; lia).
  rewrite Epr. cbn [get_ctrl].
  set (c1 := {| minimum := pr; maximum := pr; step := u64 1;
                default_value := pr; cur := cur (pixel_rate (dev w));
                read_only := read_only (pixel_rate (dev w));
                grabbed := grabbed (pixel_rate (dev w)) |}).
  set (w1 := with_dev (put_ctrl V4L2_CID_PIXEL_RATE c1 (dev w)) w).
  assert (Hk1 : kept V4L2_CID_PIXEL_RATE w w1) by apply put_ctrl_kept.
  assert (Hinv1 : dev_inv (dev w1)).
  { apply dev_inv_put_ctrl; try reflexivity; [exact Hinv | ].
    unfold fixed_range. cbn [In]. intuition discriminate. }
  rewrite clamp_same.
  destruct (Z.eqb_spec pr (cur (pixel_rate (dev w)))) as [E | N]; cbn [negb].
  - apply returns_ret.
    split; [exact Hk1 | split; [exact Hinv1 | ]].
    cbn. split; [reflexivity | split; [reflexivity | symmetry; exact E]].
  - assert (Eg : grabbed (get_ctrl (dev w1) V4L2_CID_PIXEL_RATE) = false).
    { destruct Hinv as [Hb _]. apply (bi_free _ Hb V4L2_CID_PIXEL_RATE). }
    rewrite set_ctrl_changed
      by (try exact Eg; cbn [dev with_dev get_ctrl put_ctrl pixel_rate c1 minimum
                               maximum cur]; rewrite clamp_same; exact N).
    cbn [dev with_dev get_ctrl put_ctrl pixel_rate c1 minimum maximum cur].
    rewrite clamp_same.
    apply returns_bind. eapply returns_weaken; [apply imx586_set_ctrl_pixel_rate | ].
    cbn beta. intros r w2 (-> & Hdev2 & Hev2). cbn [Z.eqb negb].
    rewrite bind_modify_dev. apply returns_ret. cbn [dev with_dev]. rewrite Hdev2.
    split; [ | split].
    + eapply kept_trans; [exact Hk1 | ].
      eapply kept_trans; [apply (evolves_kept _ _ _ _ Hev2) | ].
      replace (with_dev _ w2)
        with (with_dev (put_ctrl V4L2_CID_PIXEL_RATE
                          (set_cur pr (get_ctrl (dev w2) V4L2_CID_PIXEL_RATE))
                          (dev w2)) w2)
        by (rewrite Hdev2; reflexivity).
      apply put_ctrl_kept.
    + apply dev_inv_set_cur; [exact Hinv1 | ].
      unfold fixed_range. cbn [In]. intuition discriminate.
    + cbn. split; [reflexivity | split; reflexivity].
Qed.

(** ** Framing limits *)

Lemma catalog_timing (m : imx586_mode) :
  In m mode_catalog ->
  366 <= min_HMAX m <= 550 /\ default_HMAX m = min_HMAX m /\
  min_VMAX m <= default_VMAX m <= 4500 /\
  1928 <= width m <= 3856.
Proof.
  revert m. apply mode_catalog_cases.
  repeat constructor; cbn; lia.
Qed.

Lemma framing_facts (m : imx586_mode) :
  In m mode_catalog ->
  u32 (default_VMAX m) = default_VMAX m /\
  u16 (default_HMAX m) = default_HMAX m /\
  mode_pixel_rate m = Done (width m * IMX586_PIXEL_RATE / min_HMAX m) /\
  (exists q,
     do_div (u64 (default_HMAX m * (width m * IMX586_PIXEL_RATE / min_HMAX m)))
            IMX586_PIXEL_RATE = Done q /\
     clamp (s32 (u64 (q - width m))) 0 IMX586_HMAX_MAX = 0 /\
     (s64 (u64 (q - width m)) = 0 \/ s64 (u64 (q - width m)) < 0)) /\
  (width m + 0) * IMX586_PIXEL_RATE / (width m * IMX586_PIXEL_RATE / min_HMAX m)
  = default_HMAX m /\
  s64 (u64 (min_VMAX m - height m)) = min_VMAX m - height m /\
  s64 (u64 (IMX586_VMAX_MAX - height m)) = IMX586_VMAX_MAX - height m /\
  s64 (u64 (default_VMAX m - height m)) = default_VMAX m - height m /\
  s32 (u64 (default_VMAX m - height m)) = default_VMAX m - height m /\
  min_VMAX m - height m <= default_VMAX m - height m <= IMX586_VMAX_MAX - height m /\
  s64 (width m * IMX586_PIXEL_RATE / min_HMAX m)
  = width m * IMX586_PIXEL_RATE / min_HMAX m.
Proof.
  revert m. apply mode_catalog_cases.
  cbv [mode_catalog supported_modes_12bit supported_modes_nonlinear_12bit
       supported_modes_16bit app].
  repeat (apply Forall_cons;
          [ do 3 (split; [vm_compute; reflexivity | ]);
            split; [ eexists; split; [vm_compute; reflexivity | ];
                     split; [vm_compute; reflexivity | ];
                     first [left; vm_compute; reflexivity | right; vm_compute; reflexivity]
                   | ];
            do 5 (split; [vm_compute; reflexivity | ]);
            split; [vm_compute; split; discriminate | vm_compute; reflexivity]
          | ]).
  apply Forall_nil.
Qed.

(** [imx586_set_framing_limits] establishes the invariant for the mode
    that is set, whatever the timing and the ranges were before and
    whatever the bus does. *)
Lemma imx586_set_framing_limits_returns (w : world) :
  base_inv (dev w) ->
  returns (imx586_set_framing_limits w)
    (fun _ w' => dev_inv (dev w') /\ timing_inv (dev w') /\ framed w w').
Proof.
  intros Hb. pose proof (bi_mode _ Hb) as Hm.
  destruct (framing_facts _ Hm)
    as (F1 & F2 & F3 & (q & F4 & F5 & F6) & F7 & F8 & F9 & F10 & F11 & F12 & F13).
  destruct (catalog_timing _ Hm) as (T1 & T2 & T3 & T4).
  set (m := mode (dev w)) in *.
  unfold imx586_set_framing_limits.
  rewrite bind_get_dev, !bind_modify_dev. fold m. rewrite F1, F2.
  erewrite bind_lift_done by exact F3. erewrite bind_lift_done by exact F4.
  cbn [dev with_dev].
  set (d1 := set_HMAX (default_HMAX m) (set_VMAX (default_VMAX m) (dev w))).
  set (w1 := with_dev d1 (with_dev _ w)).
  assert (Hf1 : framed w w1).
  { split; try reflexivity; [ | intro H; exact H]. exists []. symmetry. apply app_nil_r. }
  assert (Hinv1 : dev_inv (dev w1)).
  { split.
    - destruct Hb. constructor; assumption.
    - change (min_HMAX m <= default_HMAX m < 2 ^ 16). change (2 ^ 16) with 65536. lia. }
  (* horizontal blanking *)
  apply returns_bind. eapply returns_weaken.
  { apply modify_range_returns; [exact Hinv1 | discriminate | ].
    intros _. destruct (bi_hblank _ Hb) as (E1 & E2 & _).
    change (get_ctrl (dev w1) V4L2_CID_HBLANK) with (hblank (dev w)).
    rewrite E1, E2. split; reflexivity. }
  cbn beta. intros _ w2 ([Hf2 _] & Hinv2 & _).
  apply returns_bind. eapply returns_weaken.
  { apply set_ctrl_returns. exact Hinv2. }
  cbn beta. intros _ w3 ([Hf3 _] & Hinv3 & _).
  (* vertical blanking *)
  assert (Em3 : mode (dev w3) = m).
  { rewrite (f_mode _ _ Hf3), (f_mode _ _ Hf2). reflexivity. }
  apply returns_bind. eapply returns_weaken.
  { apply modify_range_returns; [exact Hinv3 | discriminate | ].
    unfold fixed_range. cbn [In]. intuition discriminate. }
  cbn beta. intros _ w4 ([Hf4 _] & Hinv4 & Hr4).
  destruct Hr4 as [V1 V2].
  { rewrite F8, F9, F10. apply range_check. exact F12. }
  rewrite F8 in V1. rewrite F9 in V2.
  apply returns_bind. eapply returns_weaken.
  { apply set_ctrl_returns. exact Hinv4. }
  cbn beta. intros _ w5 ([Hf5 _] & Hinv5 & Hr5).
  destruct (Hr5 ltac:(discriminate)) as [V3 V4]. rewrite V1 in V3. rewrite V2 in V4.
  (* pixel rate *)
  apply returns_bind. eapply returns_weaken.
  { apply modify_range_pixel_rate; [exact Hinv5 | exact F13]. }
  cbn beta. intros _ w6 ([Hf6 Ho6] & Hinv6 & P1 & P2 & P3).
  apply returns_ret.
  assert (Hf : framed w w6).
  { eapply framed_trans; [exact Hf1 | ]. eapply framed_trans; [exact Hf2 | ].
    eapply framed_trans; [exact Hf3 | ]. eapply framed_trans; [exact Hf4 | ].
    eapply framed_trans; [exact Hf5 | exact Hf6]. }
  split; [exact Hinv6 | split; [ | exact Hf]].
  assert (Em6 : mode (dev w6) = m) by apply (f_mode _ _ Hf).
  pose proof (Ho6 V4L2_CID_VBLANK ltac:(discriminate) ltac:(discriminate)) as Ev.
  cbn [get_ctrl] in Ev, V3, V4.
  constructor; rewrite Em6.
  - rewrite Ev. split; assumption.
  - rewrite P1, P2, P3. split; [reflexivity | split; reflexivity].
Qed.

(** ** Every call keeps the invariant *)

Lemma framed_inv (w w' : world) :
  framed w w' -> driver_inv w -> dev_inv (dev w') -> timing_inv (dev w') -> driver_inv w'.
Proof.
  intros Hf (_ & _ & Hp) Hi Ht. split; [exact Hi | split; [exact Ht | ]].
  rewrite (f_streaming _ _ Hf), (f_usage _ _ Hf). exact Hp.
Qed.

Lemma timing_kept (id : ctrl_id) (w w' : world) :
  id <> V4L2_CID_PIXEL_RATE ->
  kept id w w' ->
  (minimum (get_ctrl (dev w') V4L2_CID_VBLANK) = minimum (get_ctrl (dev w) V4L2_CID_VBLANK) /\
   maximum (get_ctrl (dev w') V4L2_CID_VBLANK) = maximum (get_ctrl (dev w) V4L2_CID_VBLANK)) ->
  timing_inv (dev w) -> timing_inv (dev w').
Proof.
  intros Hid [Hf Ho] [V1 V2] [(T1 & T2) T3].
  pose proof (Ho V4L2_CID_PIXEL_RATE ltac:(congruence) ltac:(discriminate)) as Ep.
  cbn [get_ctrl] in *.
  constructor; rewrite (f_mode _ _ Hf).
  - rewrite V1, V2. split; assumption.
  - rewrite Ep. exact T3.
Qed.

Lemma evolves_timing (S : list i2c_xfer -> Prop) (w w' : world) :
  evolves S w w' -> timing_inv (dev w) -> timing_inv (dev w').
Proof.
  intros Hev. apply (timing_kept V4L2_CID_EXPOSURE); [discriminate | | ].
  - apply (evolves_kept _ _ _ _ Hev).
  - rewrite (ev_ctrls _ _ _ Hev V4L2_CID_VBLANK) by discriminate. split; reflexivity.
Qed.

(** A request of user space to set a control. *)
Lemma v4l2_s_ctrl_inv (id : ctrl_id) (v : Z) (w : world) :
  driver_inv w ->
  returns (v4l2_s_ctrl id v w) (fun _ w' => driver_inv w' /\ framed w w').
Proof.
  intros Hinv. pose proof Hinv as (Hi & Ht & Hp).
  unfold v4l2_s_ctrl. rewrite bind_get_dev.
  assert (Hsame : returns (ret (A := Z) (- EINVAL) w)
                    (fun _ w' => driver_inv w' /\ framed w w')).
  { apply returns_ret. split; [exact Hinv | apply framed_refl]. }
  assert (Hset : id <> V4L2_CID_PIXEL_RATE ->
            returns ((if read_only (get_ctrl (dev w) id) then ret (- EACCES)
                      else set_ctrl imx586_set_ctrl id (s32 v)) w)
              (fun _ w' => driver_inv w' /\ framed w w')).
  { intros Hid. destruct (read_only (get_ctrl (dev w) id)).
    - apply returns_ret. split; [exact Hinv | apply framed_refl].
    - eapply returns_weaken; [apply set_ctrl_returns; exact Hi | ].
      cbn beta. intros r w' (Hk & Hi' & Hr).
      split; [ | exact (proj1 Hk)].
      apply (framed_inv w w' (proj1 Hk) Hinv Hi').
      apply (timing_kept id w w' Hid Hk); [ | exact Ht].
      destruct (ctrl_id_eq_dec id V4L2_CID_VBLANK) as [-> | Nv].
      + apply Hr. discriminate.
      + destruct Hk as [_ Ho].
        destruct (ctrl_id_eq_dec id V4L2_CID_EXPOSURE) as [-> | Ne].
        * rewrite (Ho V4L2_CID_VBLANK) by discriminate. split; reflexivity.
        * rewrite (Ho V4L2_CID_VBLANK) by congruence. split; reflexivity. }
  destruct id; first [exact Hsame | apply Hset; discriminate].
Qed.

(** *** Formats *)

Lemma base_inv_new_mode (m : imx586_mode) (c : Z) (d : imx586) :
  base_inv d -> In m mode_catalog -> In c (code_table d) ->
  base_inv (set_fmt_code c (set_mode m d)).
Proof.
  intros [] Hm Hc. constructor; dev_cbn; assumption.
Qed.

Lemma call_ok_image (fmt : v4l2_subdev_format) (d : imx586) :
  call_ok (mono d) (Set_fmt fmt) = true -> (u32 (pad fmt) =? IMAGE_PAD) = true ->
  In (u32 (code (format fmt))) (code_table d).
Proof.
  unfold call_ok, code_table. intros H Ep. rewrite Ep in H. cbn [negb orb] in H.
  apply existsb_exists in H. destruct H as (x & Hx & E).
  apply Z.eqb_eq in E. rewrite E. exact Hx.
Qed.

Lemma code_table_framed (w w' : world) :
  framed w w' -> code_table (dev w') = code_table (dev w).
Proof. intros Hf. unfold code_table. rewrite (f_mono _ _ Hf). reflexivity. Qed.

Lemma imx586_set_pad_format_inv (sd : v4l2_subdev_state) (fmt : v4l2_subdev_format)
    (w : world) :
  driver_inv w ->
  call_ok (mono (dev w)) (Set_fmt fmt) = true ->
  In (code (try_fmt_image sd)) (code_table (dev w)) ->
  returns (imx586_set_pad_format sd fmt w)
    (fun x w' =>
       driver_inv w' /\ mono (dev w') = mono (dev w) /\
       In (code (try_fmt_image (snd (fst x)))) (code_table (dev w'))).
Proof.
  intros Hinv Hok Hsd. pose proof Hinv as ((Hb & Hh) & Ht & Hp).
  unfold imx586_set_pad_format.
  destruct (NUM_PADS <=? u32 (pad fmt)).
  { apply returns_ret. split; [exact Hinv | split; [reflexivity | exact Hsd]]. }
  destruct (u32 (pad fmt) =? IMAGE_PAD) eqn:Ep.
  - pose proof (call_ok_image fmt (dev w) Hok Ep) as Hin.
    rewrite bind_get_dev.
    erewrite bind_lift_done by (apply imx586_get_format_code_member; exact Hin).
    cbn [format with_format code with_code xfer_func fmt_width fmt_height which pad].
    set (c := u32 (code (format fmt))) in *.
    assert (Hlist : get_mode_table (dev w) c (xfer_func (format fmt)) <> []).
    { destruct (get_mode_table_supported (dev w) c (xfer_func (format fmt)))
        as [E | [E | E]];
        [rewrite (code_table_u32 _ _ Hin); exact Hin | | | ]; rewrite E; discriminate. }
    destruct (v4l2_find_nearest_size_member _ (fmt_width (format fmt))
                (fmt_height (format fmt)) Hlist) as (m & Em & Hm).
    apply get_mode_table_catalog in Hm.
    rewrite Em. erewrite bind_lift_done by reflexivity.
    cbn [format with_format code with_code which pad].
    destruct (which fmt =? V4L2_SUBDEV_FORMAT_TRY).
    + apply returns_ret.
      split; [exact Hinv | split; [reflexivity | ]].
      cbn [fst snd]. unfold set_try_format. rewrite Ep. cbn [try_fmt_image code]. exact Hin.
    + destruct (negb (mode_eqb (mode (dev w)) m)).
      * rewrite !bind_modify_dev.
        match goal with |- context [bind imx586_set_framing_limits _ ?W] => set (w1 := W) end.
        assert (Hf1 : framed w w1 -> False \/ True) by (intros _; right; exact I).
        apply returns_bind. eapply returns_weaken.
        { apply (imx586_set_framing_limits_returns w1).
          subst w1. cbn [dev with_dev]. apply base_inv_new_mode; assumption. }
        cbn beta. intros _ w2 (Hi2 & Ht2 & Hf2). apply returns_ret. cbn [fst snd].
        assert (Es : streaming (dev w2) = streaming (dev w))
          by (rewrite (f_streaming _ _ Hf2); reflexivity).
        assert (Eu : usage_count w2 = usage_count w)
          by (rewrite (f_usage _ _ Hf2); reflexivity).
        assert (Eo : mono (dev w2) = mono (dev w))
          by (rewrite (f_mono _ _ Hf2); reflexivity).
        split; [ | split; [exact Eo | ]].
        -- split; [exact Hi2 | split; [exact Ht2 | ]]. rewrite Es, Eu. exact Hp.
        -- unfold code_table in *. rewrite Eo. exact Hsd.
      * apply returns_ret. split; [exact Hinv | split; [reflexivity | exact Hsd]].
  - destruct (which fmt =? V4L2_SUBDEV_FORMAT_TRY).
    + apply returns_ret. split; [exact Hinv | split; [reflexivity | ]].
      cbn [fst snd]. unfold set_try_format. rewrite Ep. exact Hsd.
    + apply returns_ret. split; [exact Hinv | split; [reflexivity | exact Hsd]].
Qed.

Lemma imx586_get_pad_format_inv (sd : v4l2_subdev_state) (fmt : v4l2_subdev_format)
    (w : world) :
  driver_inv w ->
  In (code (try_fmt_image sd)) (code_table (dev w)) ->
  returns (imx586_get_pad_format sd fmt w)
    (fun x w' => w' = w /\ In (code (try_fmt_image (snd (fst x)))) (code_table (dev w))).
Proof.
  intros ((Hb & _) & _ & _) Hsd. unfold imx586_get_pad_format.
  destruct (NUM_PADS <=? u32 (pad fmt)).
  { apply returns_ret. split; [reflexivity | exact Hsd]. }
  rewrite bind_get_dev.
  destruct (which fmt =? V4L2_SUBDEV_FORMAT_TRY).
  - destruct (u32 (pad fmt) =? IMAGE_PAD) eqn:Ep.
    + unfold get_try_format. rewrite Ep.
      erewrite bind_lift_done
        by (apply imx586_get_format_code_member;
            rewrite (code_table_u32 _ _ Hsd); exact Hsd).
      apply returns_ret. split; [reflexivity | ]. cbn [fst snd].
      unfold set_try_format. rewrite Ep. cbn [try_fmt_image code with_code].
      rewrite (code_table_u32 _ _ Hsd). exact Hsd.
    + rewrite bind_ret.
      apply returns_ret. split; [reflexivity | ]. cbn [fst snd].
      unfold set_try_format. rewrite Ep. exact Hsd.
  - destruct (u32 (pad fmt) =? IMAGE_PAD).
    + erewrite bind_lift_done by reflexivity.
      pose proof (bi_fmt_code _ Hb) as Hc.
      erewrite bind_lift_done
        by (apply imx586_get_format_code_member;
            rewrite (code_table_u32 _ _ Hc); exact Hc).
      apply returns_ret. split; [reflexivity | exact Hsd].
    + apply returns_ret. split; [reflexivity | exact Hsd].
Qed.

Lemma default_code_supported (d : imx586) :
  In (u32 (if mono d then MEDIA_BUS_FMT_Y12_1X12 else MEDIA_BUS_FMT_SRGGB12_1X12))
     (code_table d).
Proof. unfold code_table. destruct (mono d); cbn; auto 10. Qed.

Lemma imx586_open_run (sd : v4l2_subdev_state) (w : world) :
  exists sd',
    imx586_open sd w = Done (0, sd', pixel_array_crop, w) /\
    In (code (try_fmt_image sd')) (code_table (dev w)).
Proof.
  unfold imx586_open. rewrite bind_get_dev.
  erewrite bind_lift_done
    by (apply imx586_get_format_code_member; apply default_code_supported).
  eexists. split; [reflexivity | ]. cbn [try_fmt_image code].
  apply default_code_supported.
Qed.

(** *** Streaming and system sleep *)

Lemma dev_inv_started (d : imx586) :
  dev_inv d -> common_regs_written d = true ->
  dev_inv (put_ctrl V4L2_CID_VFLIP
             {| minimum := minimum (vflip d); maximum := maximum (vflip d);
                step := step (vflip d); default_value := default_value (vflip d);
                cur := cur (vflip d); read_only := read_only (vflip d);
                grabbed := true |} (set_streaming true d)).
Proof.
  intros [[Hmode Hcode Hhb Hgain Hhf Hvf Hro Hfree Hheld Hcommon] HH] Hc.
  split; [ | exact HH].
  constructor; dev_cbn; try assumption.
  - intros i. specialize (Hro i). destruct i; exact Hro.
  - intros i. specialize (Hfree i). destruct i; first [exact Hfree | reflexivity].
  - reflexivity.
  - intros _. exact Hc.
Qed.

Lemma dev_inv_stopped (d : imx586) :
  dev_inv d ->
  dev_inv (put_ctrl V4L2_CID_VFLIP
             {| minimum := minimum (vflip d); maximum := maximum (vflip d);
                step := step (vflip d); default_value := default_value (vflip d);
                cur := cur (vflip d); read_only := read_only (vflip d);
                grabbed := false |} (set_streaming false d)).
Proof.
  intros [[Hmode Hcode Hhb Hgain Hhf Hvf Hro Hfree Hheld Hcommon] HH].
  split; [ | exact HH].
  constructor; dev_cbn; try assumption; try discriminate.
  - intros i. specialize (Hro i). destruct i; exact Hro.
  - intros i. specialize (Hfree i). destruct i; first [exact Hfree | reflexivity].
Qed.

Lemma dev_inv_halted (d : imx586) : dev_inv d -> dev_inv (set_streaming false d).
Proof.
  intros [[Hmode Hcode Hhb Hgain Hhf Hvf Hro Hfree Hheld Hcommon] HH].
  split; [ | exact HH].
  constructor; dev_cbn; try assumption; try discriminate.
Qed.

Lemma timing_inv_flags (d d' : imx586) :
  mode d' = mode d -> vblank d' = vblank d -> pixel_rate d' = pixel_rate d ->
  timing_inv d -> timing_inv d'.
Proof. intros Em Ev Ep [T1 T2]. constructor; rewrite Em, ?Ev, ?Ep; assumption. Qed.

Lemma imx586_stop_streaming_run (w : world) :
  imx586_stop_streaming w
  = Done (tt, sent (put_unaligned_be16 IMX586_REG_MODE_SELECT ++ [u8 IMX586_MODE_STANDBY])
                3 w).
Proof.
  unfold imx586_stop_streaming. erewrite bind_done by apply imx586_write_reg_1byte_run.
  reflexivity.
Qed.

(** [imx586_set_stream], whatever the request and the state. *)
Lemma imx586_set_stream_inv (enable : Z) (w : world) :
  driver_inv w ->
  returns (imx586_set_stream enable w)
    (fun _ w' => driver_inv w' /\ mono (dev w') = mono (dev w)).
Proof.
  intros Hinv. pose proof Hinv as (Hi & Ht & Hp).
  pose proof (dev_inv_wf _ Hi) as Hwf.
  unfold imx586_set_stream. rewrite bind_get_dev.
  destruct ((if streaming (dev w) then 1 else 0) =? enable) eqn:Esame.
  { apply returns_ret. split; [exact Hinv | reflexivity]. }
  destruct (enable =? 0) eqn:Ez; cbn [negb].
  - (* stop *)
    assert (Es : streaming (dev w) = true).
    { apply Z.eqb_eq in Ez. subst enable.
      destruct (streaming (dev w)); [reflexivity | discriminate Esame]. }
    erewrite bind_done by apply imx586_stop_streaming_run.
    cbv [bind pm_runtime_put modify_dev get_dev __v4l2_ctrl_grab ret returns].
    cbn [dev with_dev with_usage_count sent with_i2c_log get_ctrl set_streaming vflip].
    split; [ | reflexivity].
    split; [apply (dev_inv_stopped _ Hi) | split; [ | discriminate]].
    revert Ht. apply timing_inv_flags; reflexivity.
  - (* start *)
    unfold bind at 1. cbn [pm_runtime_get_sync].
    set (w1 := with_usage_count _ w).
    destruct (resume_status w <? 0).
    + unfold bind. cbn [pm_runtime_put_noidle pm_runtime_put ret returns].
      cbn [dev with_usage_count usage_count w1 Nat.pred].
      split; [ | reflexivity].
      split; [exact Hi | split; [exact Ht | exact Hp]].
    + apply returns_bind. eapply returns_weaken.
      { apply (imx586_start_streaming_returns w1). exact Hwf. }
      cbn beta. intros r w2 [Hev Hflag].
      pose proof (ev_inv _ _ _ Hev Hi) as Hi2.
      pose proof (evolves_timing _ _ _ Hev Ht) as Ht2.
      pose proof (ev_mono _ _ _ Hev) as Eo2.
      pose proof (ev_streaming _ _ _ Hev) as Es2.
      pose proof (ev_usage _ _ _ Hev) as Eu2.
      cbn [dev usage_count with_usage_count w1] in Eo2, Es2, Eu2.
      destruct (Z.eqb_spec r 0) as [-> | Nr]; cbn [negb].
      * cbv [bind modify_dev get_dev __v4l2_ctrl_grab ret returns].
        cbn [dev with_dev get_ctrl set_streaming vflip].
        split; [ | exact Eo2].
        split; [apply (dev_inv_started _ Hi2 (Hflag eq_refl)) | split].
        -- revert Ht2. apply timing_inv_flags; reflexivity.
        -- intros _. cbn [usage_count with_dev]. rewrite Eu2. discriminate.
      * unfold bind. cbn [pm_runtime_put ret returns].
        cbn [dev with_usage_count usage_count].
        split; [ | exact Eo2].
        split; [exact Hi2 | split; [exact Ht2 | ]].
        change (streaming (dev w2) = true -> Nat.pred (usage_count w2) <> 0%nat).
        rewrite Es2, Eu2. exact Hp.
Qed.

Lemma imx586_suspend_inv (w : world) :
  driver_inv w ->
  returns (imx586_suspend w) (fun _ w' => driver_inv w' /\ mono (dev w') = mono (dev w)).
Proof.
  intros Hinv. unfold imx586_suspend. rewrite bind_get_dev.
  destruct (streaming (dev w)).
  - erewrite bind_done by apply imx586_stop_streaming_run.
    apply returns_ret. split; [exact Hinv | reflexivity].
  - rewrite bind_ret. apply returns_ret. split; [exact Hinv | reflexivity].
Qed.

Lemma imx586_resume_inv (w : world) :
  driver_inv w ->
  returns (imx586_resume w) (fun _ w' => driver_inv w' /\ mono (dev w') = mono (dev w)).
Proof.
  intros Hinv. pose proof Hinv as (Hi & Ht & Hp).
  pose proof (dev_inv_wf _ Hi) as Hwf.
  unfold imx586_resume. rewrite bind_get_dev.
  destruct (streaming (dev w)) eqn:Es;
    [ | apply returns_ret; split; [exact Hinv | reflexivity]].
  apply returns_bind. eapply returns_weaken.
  { apply (imx586_start_streaming_returns w). exact Hwf. }
  cbn beta. intros r w2 [Hev _].
  pose proof (ev_inv _ _ _ Hev Hi) as Hi2.
  pose proof (evolves_timing _ _ _ Hev Ht) as Ht2.
  pose proof (ev_mono _ _ _ Hev) as Eo2.
  pose proof (ev_streaming _ _ _ Hev) as Es2.
  pose proof (ev_usage _ _ _ Hev) as Eu2.
  destruct (Z.eqb_spec r 0) as [-> | Nr]; cbn [negb].
  - apply returns_ret. split; [ | exact Eo2].
    split; [exact Hi2 | split; [exact Ht2 | ]]. rewrite Eu2. intros _. apply Hp. reflexivity.
  - erewrite bind_done by apply imx586_stop_streaming_run.
    rewrite bind_modify_dev. apply returns_ret.
    cbn [dev with_dev sent with_i2c_log].
    split; [ | exact Eo2].
    split; [apply (dev_inv_halted _ Hi2) | split; [ | discriminate]].
    revert Ht2. apply timing_inv_flags; reflexivity.
Qed.

(** *** Sessions *)

Lemma do_call_inv (mono_mode : bool) (c : call) (sd : v4l2_subdev_state) (w : world) :
  driver_inv w -> mono (dev w) = mono_mode ->
  In (code (try_fmt_image sd)) (code_table (dev w)) ->
  call_ok mono_mode c = true ->
  returns (do_call c sd w)
    (fun sd' w' =>
       driver_inv w' /\ mono (dev w') = mono_mode /\
       In (code (try_fmt_image sd')) (code_table (dev w'))).
Proof.
  intros Hinv Eo Hsd Hok.
  assert (Hkeep : forall w', mono (dev w') = mono (dev w) ->
            mono (dev w') = mono_mode /\
            In (code (try_fmt_image sd)) (code_table (dev w'))).
  { intros w' E. split; [congruence | ]. unfold code_table in *. rewrite E. exact Hsd. }
  destruct c; cbn [do_call].
  - apply returns_bind. eapply returns_weaken; [apply imx586_set_stream_inv; exact Hinv | ].
    cbn beta. intros _ w' [Hi E]. apply returns_ret. split; [exact Hi | apply Hkeep; exact E].
  - apply returns_bind. eapply returns_weaken; [apply v4l2_s_ctrl_inv; exact Hinv | ].
    cbn beta. intros _ w' [Hi Hf]. apply returns_ret.
    split; [exact Hi | apply Hkeep; apply (f_mono _ _ Hf)].
  - apply returns_bind. eapply returns_weaken.
    { apply imx586_set_pad_format_inv; [exact Hinv | rewrite Eo; exact Hok | exact Hsd]. }
    cbn beta. intros x w' (Hi & E & Hc). apply returns_ret.
    split; [exact Hi | split; [congruence | exact Hc]].
  - apply returns_bind. eapply returns_weaken.
    { apply imx586_get_pad_format_inv; [exact Hinv | exact Hsd]. }
    cbn beta. intros x w' (-> & Hc). apply returns_ret.
    split; [exact Hinv | split; [exact Eo | exact Hc]].
  - apply returns_bind. eapply returns_weaken; [apply imx586_suspend_inv; exact Hinv | ].
    cbn beta. intros _ w' [Hi E]. apply returns_ret. split; [exact Hi | apply Hkeep; exact E].
  - apply returns_bind. eapply returns_weaken; [apply imx586_resume_inv; exact Hinv | ].
    cbn beta. intros _ w' [Hi E]. apply returns_ret. split; [exact Hi | apply Hkeep; exact E].
Qed.

Lemma do_calls_inv (mono_mode : bool) (cs : list call) (sd : v4l2_subdev_state)
    (w : world) :
  driver_inv w -> mono (dev w) = mono_mode ->
  In (code (try_fmt_image sd)) (code_table (dev w)) ->
  forallb (call_ok mono_mode) cs = true ->
  returns (do_calls cs sd w) (fun _ w' => driver_inv w' /\ mono (dev w') = mono_mode).
Proof.
  revert sd w. induction cs as [ | c cs IH]; intros sd w Hinv Eo Hsd Hok; cbn [do_calls].
  - apply returns_ret. split; assumption.
  - cbn [forallb] in Hok. apply andb_prop in Hok. destruct Hok as [Hc Hcs].
    apply returns_bind. eapply returns_weaken; [apply do_call_inv; eassumption | ].
    cbn beta. intros sd' w' (Hi & E & Hsd'). apply IH; assumption.
Qed.

Lemma probe_base_inv (mono_mode : bool) : base_inv (imx586_new_controls mono_mode).
Proof.
  constructor; cbn; unfold ctrl_in_range; cbn.
  - left. reflexivity.
  - destruct mono_mode; cbn; auto 10.
  - unfold IMX586_HMAX_MAX. conjuncts; try reflexivity; lia.
  - unfold IMX586_ANA_GAIN_MIN, IMX586_ANA_GAIN_MAX, IMX586_ANA_GAIN_DEFAULT.
    conjuncts; try reflexivity; lia.
  - conjuncts; try reflexivity; lia.
  - conjuncts; try reflexivity; lia.
  - intros id; destruct id; reflexivity.
  - intros id; destruct id; reflexivity.
  - discriminate.
  - discriminate.
Qed.

Lemma probed_world_inv (mono_mode : bool) (faults : list (nat * Z)) (resume junk : Z) :
  driver_inv (probed_world mono_mode faults resume junk) /\
  mono (dev (probed_world mono_mode faults resume junk)) = mono_mode.
Proof.
  unfold probed_world, exec.
  destruct (returns_done _ _
              (imx586_set_framing_limits_returns
                 (attach_world mono_mode faults resume junk) (probe_base_inv mono_mode)))
    as ([] & w' & E & Hi & Ht & Hf).
  rewrite E. split; [ | apply (f_mono _ _ Hf)].
  split; [exact Hi | split; [exact Ht | ]].
  rewrite (f_streaming _ _ Hf). discriminate.
Qed.

(** Every state the driver reaches satisfies its invariant, and no call
    hits undefined behaviour on the way: a device probed in either colour
    mode, on any bus (whatever transfers fail), with any resume status and
    any content of the uninitialised local, then opened and driven by any
    sequence of stream, control, format, suspend and resume calls whose
    format requests on the image pad carry a code of the device's table,
    runs to the end and is left in a state where the mode is of the
    catalog, [HMAX] is an admissible non-zero line length, the format code
    is of the table, the fixed-range controls hold a value of their range,
    the vertical-blanking range and the pixel rate are those of the mode,
    and the device is powered while it is streaming. *)
Theorem driver_inv_reachable (mono_mode : bool) (faults : list (nat * Z))
    (resume junk : Z) (sd : v4l2_subdev_state) (cs : list call) :
  forallb (call_ok mono_mode) cs = true ->
  exists sd' w',
    session cs sd (probed_world mono_mode faults resume junk) = Done (sd', w') /\
    driver_inv w' /\ wf_dev (dev w') /\ mono (dev w') = mono_mode.
Proof.
  intros Hok.
  destruct (probed_world_inv mono_mode faults resume junk) as [Hinv Eo].
  set (w := probed_world mono_mode faults resume junk) in *.
  unfold session.
  destruct (imx586_open_run sd w) as (sd0 & Eopen & Hsd0).
  erewrite bind_done by exact Eopen. cbn [fst snd].
  destruct (returns_done _ _ (do_calls_inv mono_mode cs sd0 w Hinv Eo Hsd0 Hok))
    as (sd' & w' & E & Hinv' & Eo').
  exists sd', w'. split; [exact E | split; [exact Hinv' | split; [ | exact Eo']]].
  apply dev_inv_wf. exact (proj1 Hinv').
Qed.

Lemma driver_inv_reachable_witness :
  exists sd' w',
    session
      [ S_ctrl V4L2_CID_VBLANK 1160; S_ctrl V4L2_CID_EXPOSURE 3000;
        Set_fmt (format_request V4L2_SUBDEV_FORMAT_ACTIVE
                   MEDIA_BUS_FMT_SRGGB12_1X12 1920 1080);
        Set_stream 1; S_ctrl V4L2_CID_HBLANK 100; Suspend; Resume; Set_stream 0 ]
      blank_sd_state (probed_world false [(300%nat, - EIO)] 0 7)
    = Done (sd', w') /\
    driver_inv w' /\ wf_dev (dev w') /\ mono (dev w') = false.
Proof.
  apply (driver_inv_reachable false [(300%nat, - EIO)] 0 7 blank_sd_state).
  reflexivity.
Defined.

(** ** Register reads, the chip identity and the power rails *)

Lemma be_fold_bound (l : list Z) (acc : Z) :
  Forall (fun x => 0 <= x < 256) l -> 0 <= acc ->
  acc * 256 ^ Z.of_nat (length l)
  <= fold_left (fun a x => a * 256 + x) l acc
  < (acc + 1) * 256 ^ Z.of_nat (length l).
Proof.
  intros H. revert acc.
  induction H as [ | x l Hx Hl IH]; intros acc Hacc; cbn [fold_left length].
  - change (256 ^ Z.of_nat 0) with 1. lia.
  - rewrite Nat2Z.inj_succ, Z.pow_succ_r by lia.
    assert (Hn : 0 <= acc * 256 + x) by lia.
    specialize (IH (acc * 256 + x) Hn).
    assert (Hp : 0 < 256 ^ Z.of_nat (length l)) by (apply Z.pow_pos_nonneg; lia).
    nia.
Qed.

Lemma be_fold_zeros (n : nat) :
  fold_left (fun a x => a * 256 + x) (repeat 0 n) 0 = 0.
Proof. induction n as [ | n IH]; [reflexivity | exact IH]. Qed.

Lemma Forall_firstn_bytes (n : nat) (l : list Z) :
  Forall (fun x => 0 <= x < 256) l -> Forall (fun x => 0 <= x < 256) (firstn n l).
Proof.
  intros H. revert n. induction H as [ | x l Hx Hl IH]; intros [ | n]; cbn [firstn];
    constructor; [exact Hx | apply IH].
Qed.

Lemma u8_byte (x : Z) : 0 <= u8 x < 256.
Proof. unfold u8. apply Z.mod_pos_bound. lia. Qed.

Lemma read_payload (n : nat) (data : list Z) :
  (n <= 4)%nat ->
  length (firstn n (map u8 data ++ repeat 0 4)) = n /\
  Forall (fun x => 0 <= x < 256) (firstn n (map u8 data ++ repeat 0 4)).
Proof.
  intros Hn. split.
  - apply firstn_length_le. rewrite length_app, repeat_length. lia.
  - apply Forall_firstn_bytes. apply Forall_app. split.
    + apply Forall_forall. intros x Hx. apply in_map_iff in Hx.
      destruct Hx as (y & <- & _). apply u8_byte.
    + apply Forall_forall. intros x Hx. apply repeat_spec in Hx. subst x. lia.
Qed.

(** What a register read leaves behind.  [imx586_read_reg] has three
    outcomes.  With a length above 4 it returns [-EINVAL].  Otherwise it
    returns [-EIO] when the bus did not complete both messages, and 0 when
    it did; the value stored is then below [256 ^ len], because the bytes
    read land at the end of a zeroed four-byte buffer that is decoded big
    endian.  On both failures [*val] keeps what it held. *)
Theorem imx586_read_reg_outcome (bus : i2c_read_bus) (reg len val : Z) :
  let r := fst (imx586_read_reg bus reg len val) in
  let v := snd (imx586_read_reg bus reg len val) in
  let done :=
    fst (bus [u8 (Z.shiftr (u16 reg) 8); u8 (Z.land (u16 reg) 0xff)]
             (Z.to_nat (u32 len))) in
  (r = 0 /\ u32 len <= 4 /\ done = 2 /\ 0 <= v < 256 ^ u32 len) \/
  (r = - EIO /\ u32 len <= 4 /\ done <> 2 /\ v = val) \/
  (r = - EINVAL /\ 4 < u32 len /\ v = val).
Proof.
  cbv zeta. unfold imx586_read_reg.
  destruct (4 <? u32 len) eqn:El.
  { right. right. apply Z.ltb_lt in El. cbn [fst snd]. auto. }
  apply Z.ltb_ge in El.
  destruct (bus _ _) as [r data]. cbn [fst].
  destruct (r =? 2) eqn:Er; cbn [negb fst snd].
  - apply Z.eqb_eq in Er. left.
    split; [reflexivity | split; [exact El | split; [exact Er | ]]].
    assert (H0 : 0 <= u32 len) by (unfold u32; apply Z.mod_pos_bound; lia).
    assert (Hn : (Z.to_nat (u32 len) <= 4)%nat) by lia.
    destruct (read_payload (Z.to_nat (u32 len)) data Hn) as (Hlen & Hall).
    unfold get_unaligned_be32.
    rewrite firstn_all2 by (rewrite length_app, repeat_length, Hlen; lia).
    rewrite fold_left_app, be_fold_zeros.
    pose proof (be_fold_bound _ 0 Hall (Z.le_refl 0)) as Hb.
    rewrite Hlen, Z2Nat.id in Hb by exact H0. lia.
  - apply Z.eqb_neq in Er. right. left. auto.
Qed.

(** The chip identity is read and never compared.
    [imx586_identify_module] returns 0 exactly when the bus completed the
    two messages of the one-byte read of register 0x30DC, and [-EIO]
    otherwise: neither the identity it is handed nor the byte the device
    answers enters the result. *)
Theorem imx586_identify_module_ignores_id (bus : i2c_read_bus)
    (id1 id2 junk1 junk2 : Z) :
  imx586_identify_module bus id1 junk1 = imx586_identify_module bus id2 junk2 /\
  (imx586_identify_module bus id1 junk1 = 0 <-> fst (bus [0x30; 0xDC] 1%nat) = 2) /\
  (imx586_identify_module bus id1 junk1 <> 0 ->
   imx586_identify_module bus id1 junk1 = - EIO).
Proof.
  unfold imx586_identify_module, imx586_read_reg.
  change (4 <? u32 1) with false. cbv iota.
  change [u8 (Z.shiftr (u16 IMX586_REG_CHIP_ID) 8);
          u8 (Z.land (u16 IMX586_REG_CHIP_ID) 0xff)] with [0x30; 0xDC].
  change (Z.to_nat (u32 1)) with 1%nat.
  destruct (bus [0x30; 0xDC] 1%nat) as [r data]. cbn [fst].
  destruct (r =? 2) eqn:Er; cbn [negb].
  - apply Z.eqb_eq in Er. change (negb (0 =? 0)) with false. cbv iota.
    split; [reflexivity | split; [ | intros H; contradiction H; reflexivity]].
    split; intros _; [exact Er | reflexivity].
  - apply Z.eqb_neq in Er. change (negb (- EIO =? 0)) with true. cbv iota.
    split; [reflexivity | split; [ | reflexivity]].
    split; [discriminate | intros H; contradiction].
Qed.

(** Power-up is all or nothing.  On rails that are off,
    [imx586_power_on] returns 0 exactly when the regulators and the clock
    both came up, and then the supplies and the clock are on and the reset
    line is released; when either fails it returns that status and leaves
    the rails as they were, the supplies switched off again after a clock
    failure.  [imx586_power_off] switches everything off and clears
    [common_regs_written], whatever the state, touching no other field that
    a stream start reads. *)
Theorem power_on_all_or_nothing (regulator_ret clk_ret : Z) (p : power_rails)
    (d : imx586) :
  supplies_enabled p = false ->
  let r := fst (imx586_power_on regulator_ret clk_ret p) in
  let p' := snd (imx586_power_on regulator_ret clk_ret p) in
  (r = 0 <-> regulator_ret = 0 /\ clk_ret = 0) /\
  (r = 0 ->
   supplies_enabled p' = true /\ xclk_enabled p' = true /\ reset_gpio p' = 1) /\
  (r <> 0 -> p' = p /\ (r = regulator_ret \/ r = clk_ret)) /\
  (let '(s, q, d') := imx586_power_off p' d in
   s = 0 /\
   supplies_enabled q = false /\ xclk_enabled q = false /\ reset_gpio q = 0 /\
   common_regs_written d' = false /\
   mode d' = mode d /\ streaming d' = streaming d /\
   forall id, get_ctrl d' id = get_ctrl d id).
Proof.
  intros Hs. cbv zeta. unfold imx586_power_on, imx586_power_off.
  destruct (regulator_ret =? 0) eqn:Er; cbn [negb].
  - apply Z.eqb_eq in Er.
    destruct (clk_ret =? 0) eqn:Ec; cbn [negb fst snd].
    + apply Z.eqb_eq in Ec.
      split; [split; [intros _; split; assumption | reflexivity] | ].
      split; [intros _; cbn; auto | ].
      split; [intros H; contradiction H; reflexivity | ].
      cbn. conjuncts; try reflexivity; intros []; reflexivity.
    + apply Z.eqb_neq in Ec.
      split; [split; [intros H; contradiction | intros [_ H]; contradiction] | ].
      split; [intros H; contradiction | ].
      split.
      * intros _. split; [ | right; reflexivity].
        destruct p as [s x g]. cbn in Hs |- *. subst s. reflexivity.
      * cbn. conjuncts; try reflexivity; intros []; reflexivity.
  - apply Z.eqb_neq in Er. cbn [fst snd].
    split; [split; [intros H; contradiction | intros [H _]; contradiction] | ].
    split; [intros H; contradiction | ].
    split; [intros _; split; [reflexivity | left; reflexivity] | ].
    cbn. conjuncts; try reflexivity; intros []; reflexivity.
Qed.

Lemma power_on_all_or_nothing_witness :
  (fst (imx586_power_on 0 (- EIO) (Build_power_rails false false 0)) = 0
   <-> 0 = 0 /\ - EIO = 0) /\
  (fst (imx586_power_on 0 (- EIO) (Build_power_rails false false 0)) = 0 ->
   supplies_enabled (snd (imx586_power_on 0 (- EIO) (Build_power_rails false false 0)))
   = true /\
   xclk_enabled (snd (imx586_power_on 0 (- EIO) (Build_power_rails false false 0)))
   = true /\
   reset_gpio (snd (imx586_power_on 0 (- EIO) (Build_power_rails false false 0))) = 1) /\
  (fst (imx586_power_on 0 (- EIO) (Build_power_rails false false 0)) <> 0 ->
   snd (imx586_power_on 0 (- EIO) (Build_power_rails false false 0))
   = Build_power_rails false false 0 /\
   (fst (imx586_power_on 0 (- EIO) (Build_power_rails false false 0)) = 0 \/
    fst (imx586_power_on 0 (- EIO) (Build_power_rails false false 0)) = - EIO)) /\
  (let '(s, q, d') :=
     imx586_power_off (snd (imx586_power_on 0 (- EIO) (Build_power_rails false false 0)))
       (imx586_new_controls false) in
   s = 0 /\
   supplies_enabled q = false /\ xclk_enabled q = false /\ reset_gpio q = 0 /\
   common_regs_written d' = false /\
   mode d' = mode (imx586_new_controls false) /\
   streaming d' = streaming (imx586_new_controls false) /\
   forall id, get_ctrl d' id = get_ctrl (imx586_new_controls false) id).
Proof.
  exact (power_on_all_or_nothing 0 (- EIO) (Build_power_rails false false 0)
           (imx586_new_controls false) eq_refl).
Defined.

(** ** Selection rectangles *)

(** Every selection rectangle lies on the sensor.  For a [which] of try
    or active, [imx586_get_selection] never dereferences a null crop; an
    unknown target returns [-EINVAL] and leaves the rectangle of the
    request alone; the try crop is handed back as stored; and every other
    rectangle it returns lies inside the native 3856 x 2180 area: the
    active crop, the default and the bounds are the same pixel array for
    every mode of the catalog, the binned ones included. *)
Theorem get_selection_rectangles (d : imx586) (try_crop r : v4l2_rect)
    (target which : Z) :
  In (mode d) mode_catalog ->
  which = V4L2_SUBDEV_FORMAT_TRY \/ which = V4L2_SUBDEV_FORMAT_ACTIVE ->
  exists s r',
    imx586_get_selection d try_crop target which r = Done (s, r') /\
    (s = 0 \/ s = - EINVAL /\ r' = r) /\
    (s = 0 ->
     (u32 target = V4L2_SEL_TGT_CROP /\ which = V4L2_SUBDEV_FORMAT_TRY /\ r' = try_crop) \/
     (0 <= rect_left r' /\ 0 <= rect_top r' /\ 0 < rect_width r' /\ 0 < rect_height r' /\
      rect_left r' + rect_width r' <= IMX586_NATIVE_WIDTH /\
      rect_top r' + rect_height r' <= IMX586_NATIVE_HEIGHT /\
      (u32 target <> V4L2_SEL_TGT_NATIVE_SIZE -> r' = pixel_array_crop))).
Proof.
  intros Hm Hw. unfold imx586_get_selection, __imx586_get_pad_crop.
  assert (Hc : crop (mode d) = pixel_array_crop).
  { unfold mode_catalog in Hm. cbn in Hm.
    destruct Hm as [<- | [<- | [<- | [<- | [<- | []]]]]]; reflexivity. }
  destruct (u32 target =? V4L2_SEL_TGT_CROP) eqn:E1.
  - apply Z.eqb_eq in E1. destruct Hw as [-> | ->].
    + change (V4L2_SUBDEV_FORMAT_TRY =? V4L2_SUBDEV_FORMAT_TRY) with true. cbv iota.
      eexists _, _. split; [reflexivity | ]. split; [left; reflexivity | ].
      intros _. left. auto.
    + change (V4L2_SUBDEV_FORMAT_ACTIVE =? V4L2_SUBDEV_FORMAT_TRY) with false.
      change (V4L2_SUBDEV_FORMAT_ACTIVE =? V4L2_SUBDEV_FORMAT_ACTIVE) with true. cbv iota.
      eexists _, _. split; [reflexivity | ]. split; [left; reflexivity | ].
      intros _. right. rewrite Hc. unfold pixel_array_crop; cbn [rect_left rect_top rect_width rect_height]; conjuncts; try reflexivity; try (intros _; reflexivity); vm_compute; intro H; discriminate H.
  - destruct (u32 target =? V4L2_SEL_TGT_NATIVE_SIZE) eqn:E2.
    + apply Z.eqb_eq in E2.
      eexists _, _. split; [reflexivity | ]. split; [left; reflexivity | ].
      intros _. right. cbn [rect_left rect_top rect_width rect_height].
      split; [lia | ]. split; [lia | ].
      split; [reflexivity | ]. split; [reflexivity | ].
      split; [vm_compute; discriminate | ]. split; [vm_compute; discriminate | ].
      intros H. contradiction.
    + destruct ((u32 target =? V4L2_SEL_TGT_CROP_DEFAULT)
                || (u32 target =? V4L2_SEL_TGT_CROP_BOUNDS)).
      * eexists _, _. split; [reflexivity | ]. split; [left; reflexivity | ].
        intros _. right. unfold pixel_array_crop; cbn [rect_left rect_top rect_width rect_height]; conjuncts; try reflexivity; try (intros _; reflexivity); vm_compute; intro H; discriminate H.
      * eexists _, _. split; [reflexivity | ]. split; [right; auto | ].
        intros H. discriminate H.
Qed.

Lemma get_selection_rectangles_witness :
  exists s r',
    imx586_get_selection (imx586_new_controls false) (Rect 1 2 3 4)
      V4L2_SEL_TGT_CROP V4L2_SUBDEV_FORMAT_ACTIVE (Rect 0 0 0 0) = Done (s, r') /\
    (s = 0 \/ s = - EINVAL /\ r' = Rect 0 0 0 0) /\
    (s = 0 ->
     (u32 V4L2_SEL_TGT_CROP = V4L2_SEL_TGT_CROP /\
      V4L2_SUBDEV_FORMAT_ACTIVE = V4L2_SUBDEV_FORMAT_TRY /\ r' = Rect 1 2 3 4) \/
     (0 <= rect_left r' /\ 0 <= rect_top r' /\ 0 < rect_width r' /\ 0 < rect_height r' /\
      rect_left r' + rect_width r' <= IMX586_NATIVE_WIDTH /\
      rect_top r' + rect_height r' <= IMX586_NATIVE_HEIGHT /\
      (u32 V4L2_SEL_TGT_CROP <> V4L2_SEL_TGT_NATIVE_SIZE -> r' = pixel_array_crop))).
Proof.
  apply (get_selection_rectangles (imx586_new_controls false) (Rect 1 2 3 4)
           (Rect 0 0 0 0) V4L2_SEL_TGT_CROP V4L2_SUBDEV_FORMAT_ACTIVE).
  - vm_compute. left. reflexivity.
  - right. reflexivity.
Defined.

(** ** Formats set and read back *)

Lemma imx586_set_pad_format_image (sd : v4l2_subdev_state) (fmt : v4l2_subdev_format)
    (w : world) :
  u32 (pad fmt) = IMAGE_PAD ->
  In (u32 (code (format fmt))) (code_table (dev w)) ->
  exists m,
    v4l2_find_nearest_size
      (get_mode_table (dev w) (code (format fmt)) (xfer_func (format fmt)))
      (fmt_width (format fmt)) (fmt_height (format fmt)) = Some m /\
    In m (get_mode_table (dev w) (code (format fmt)) (xfer_func (format fmt))) /\
    imx586_set_pad_format sd fmt w
    = (let fmt' :=
         with_format
           {| fmt_width := width m; fmt_height := height m;
              code := u32 (code (format fmt));
              field := V4L2_FIELD_NONE; colorspace := V4L2_COLORSPACE_RAW;
              ycbcr_enc := V4L2_YCBCR_ENC_601;
              quantization := V4L2_QUANTIZATION_FULL_RANGE;
              xfer_func := if linear m then V4L2_XFER_FUNC_NONE
                           else V4L2_XFER_FUNC_GRADATION_COMPRESSION |} fmt in
       if which fmt =? V4L2_SUBDEV_FORMAT_TRY
       then Done (0, set_try_format (pad fmt) (format fmt') sd, fmt', w)
       else if negb (mode_eqb (mode (dev w)) m)
       then bind imx586_set_framing_limits (fun _ => ret (0, sd, fmt'))
              (with_dev (set_fmt_code (u32 (code (format fmt))) (set_mode m (dev w))) w)
       else Done (0, sd, fmt', w)).
Proof.
  intros Ep Hin.
  assert (Hlist : get_mode_table (dev w) (code (format fmt)) (xfer_func (format fmt)) <> []).
  { intros E. apply get_mode_table_empty in E. contradiction. }
  destruct (v4l2_find_nearest_size_member _ (fmt_width (format fmt))
              (fmt_height (format fmt)) Hlist) as (m & Em & Hm).
  exists m. split; [exact Em | ]. split; [exact Hm | ].
  unfold imx586_set_pad_format. rewrite Ep.
  change (NUM_PADS <=? IMAGE_PAD) with false. change (IMAGE_PAD =? IMAGE_PAD) with true.
  cbv iota. rewrite bind_get_dev.
  erewrite bind_lift_done by (apply imx586_get_format_code_member; exact Hin).
  cbn [format with_format code with_code xfer_func fmt_width fmt_height which pad].
  rewrite get_mode_table_u32, Em.
  erewrite bind_lift_done by reflexivity.
  cbn [format with_format code with_code which pad]. cbv zeta.
  destruct (which fmt =? V4L2_SUBDEV_FORMAT_TRY); [reflexivity | ].
  destruct (negb (mode_eqb (mode (dev w)) m)); [ | reflexivity].
  rewrite !bind_modify_dev. destruct w; reflexivity.
Qed.

(** A try format reads back as it was set.  Setting a try format on
    the image pad with a code of the device's table returns 0, leaves the
    device and the bus untouched and stores the adjusted format in the try
    state; reading the try format of the image pad back returns exactly
    that format and leaves the try state as it is. *)
Theorem try_format_round_trip (sd : v4l2_subdev_state) (fmt fmt2 : v4l2_subdev_format)
    (w : world) :
  u32 (pad fmt) = IMAGE_PAD -> which fmt = V4L2_SUBDEV_FORMAT_TRY ->
  In (u32 (code (format fmt))) (code_table (dev w)) ->
  u32 (pad fmt2) = IMAGE_PAD -> which fmt2 = V4L2_SUBDEV_FORMAT_TRY ->
  exists sd' fmt',
    imx586_set_pad_format sd fmt w = Done (0, sd', fmt', w) /\
    try_fmt_image sd' = format fmt' /\ try_fmt_meta sd' = try_fmt_meta sd /\
    code (format fmt') = u32 (code (format fmt)) /\
    imx586_get_pad_format sd' fmt2 w = Done (0, sd', with_format (format fmt') fmt2, w).
Proof.
  intros Ep Ew Hin Ep2 Ew2.
  destruct (imx586_set_pad_format_image sd fmt w Ep Hin) as (m & _ & _ & E).
  rewrite Ew in E. change (V4L2_SUBDEV_FORMAT_TRY =? V4L2_SUBDEV_FORMAT_TRY) with true in E.
  cbv zeta iota in E.
  eexists _, _. split; [exact E | ].
  unfold set_try_format. rewrite Ep. change (IMAGE_PAD =? IMAGE_PAD) with true. cbv iota.
  cbn [try_fmt_image try_fmt_meta format with_format code].
  split; [reflexivity | ]. split; [reflexivity | ]. split; [reflexivity | ].
  unfold imx586_get_pad_format, get_try_format, set_try_format. rewrite Ep2, Ew2.
  change (NUM_PADS <=? IMAGE_PAD) with false.
  change (IMAGE_PAD =? IMAGE_PAD) with true.
  change (V4L2_SUBDEV_FORMAT_TRY =? V4L2_SUBDEV_FORMAT_TRY) with true. cbv iota.
  rewrite bind_get_dev. cbn [try_fmt_image code].
  erewrite bind_lift_done
    by (apply imx586_get_format_code_member; rewrite u32_u32; exact Hin).
  rewrite u32_u32. reflexivity.
Qed.

Lemma try_format_round_trip_witness :
  exists sd' fmt',
    imx586_set_pad_format blank_sd_state
      (format_request V4L2_SUBDEV_FORMAT_TRY MEDIA_BUS_FMT_SRGGB16_1X16 1920 1080)
      (probed_world false [] 0 0)
    = Done (0, sd', fmt', probed_world false [] 0 0) /\
    try_fmt_image sd' = format fmt' /\
    try_fmt_meta sd' = try_fmt_meta blank_sd_state /\
    code (format fmt')
    = u32 (code (format (format_request V4L2_SUBDEV_FORMAT_TRY
                           MEDIA_BUS_FMT_SRGGB16_1X16 1920 1080))) /\
    imx586_get_pad_format sd'
      (format_request V4L2_SUBDEV_FORMAT_TRY 0 0 0) (probed_world false [] 0 0)
    = Done (0, sd',
            with_format (format fmt') (format_request V4L2_SUBDEV_FORMAT_TRY 0 0 0),
            probed_world false [] 0 0).
Proof.
  apply (try_format_round_trip blank_sd_state
           (format_request V4L2_SUBDEV_FORMAT_TRY MEDIA_BUS_FMT_SRGGB16_1X16 1920 1080)
           (format_request V4L2_SUBDEV_FORMAT_TRY 0 0 0) (probed_world false [] 0 0)).
  - reflexivity.
  - reflexivity.
  - vm_compute. auto 10.
  - reflexivity.
  - reflexivity.
Defined.



Lemma imx586_set_pad_format_active (sd : v4l2_subdev_state) (fmt : v4l2_subdev_format)
    (w : world) :
  driver_inv w ->
  u32 (pad fmt) = IMAGE_PAD -> which fmt <> V4L2_SUBDEV_FORMAT_TRY ->
  In (u32 (code (format fmt))) (code_table (dev w)) ->
  exists m fmt' w',
    v4l2_find_nearest_size
      (get_mode_table (dev w) (code (format fmt)) (xfer_func (format fmt)))
      (fmt_width (format fmt)) (fmt_height (format fmt)) = Some m /\
    imx586_set_pad_format sd fmt w = Done (0, sd, fmt', w') /\
    format fmt'
    = {| fmt_width := width m; fmt_height := height m;
         code := u32 (code (format fmt));
         field := V4L2_FIELD_NONE; colorspace := V4L2_COLORSPACE_RAW;
         ycbcr_enc := V4L2_YCBCR_ENC_601;
         quantization := V4L2_QUANTIZATION_FULL_RANGE;
         xfer_func := if linear m then V4L2_XFER_FUNC_NONE
                      else V4L2_XFER_FUNC_GRADATION_COMPRESSION |} /\
    mode (dev w') = m /\
    (m = mode (dev w) -> w' = w) /\
    (m <> mode (dev w) -> fmt_code (dev w') = u32 (code (format fmt))) /\
    driver_inv w'.
Proof.
  intros Hinv Ep Ew Hin. pose proof Hinv as ((Hb & Hh) & Ht & Hp).
  destruct (imx586_set_pad_format_image sd fmt w Ep Hin) as (m & Em & Hm & E).
  apply get_mode_table_catalog in Hm.
  assert (Ew' : (which fmt =? V4L2_SUBDEV_FORMAT_TRY) = false) by (apply Z.eqb_neq; exact Ew).
  rewrite Ew' in E. cbv zeta iota in E.
  pose proof (mode_eqb_catalog _ _ (bi_mode _ Hb) Hm) as Heq.
  exists m. destruct (mode_eqb (mode (dev w)) m) eqn:Emode; cbn [negb] in E.
  - assert (Esame : mode (dev w) = m) by (apply Heq; reflexivity).
    eexists _, w. split; [exact Em | ]. split; [exact E | ].
    cbn [format with_format].
    split; [reflexivity | ]. split; [exact Esame | ]. split; [reflexivity | ].
    split; [congruence | exact Hinv].
  - assert (Ediff : mode (dev w) <> m) by (intros H; apply Heq in H; congruence).
    set (w1 := with_dev (set_fmt_code (u32 (code (format fmt))) (set_mode m (dev w))) w) in *.
    assert (Hb1 : base_inv (dev w1))
      by (subst w1; cbn [dev with_dev]; apply base_inv_new_mode; assumption).
    destruct (returns_done _ _ (imx586_set_framing_limits_returns w1 Hb1))
      as ([] & w2 & Erun & Hi2 & Ht2 & Hf2).
    erewrite bind_done in E by exact Erun. unfold ret in E.
    eexists _, w2. split; [exact Em | ]. split; [exact E | ].
    cbn [format with_format].
    split; [reflexivity | ].
    split; [rewrite (f_mode _ _ Hf2); reflexivity | ].
    split; [congruence | ].
    split; [intros _; rewrite (f_fmt_code _ _ Hf2); reflexivity | ].
    split; [exact Hi2 | split; [exact Ht2 | ]].
    rewrite (f_streaming _ _ Hf2), (f_usage _ _ Hf2). exact Hp.
Qed.

(** What an active format commits, and how it reads back.  An active
    format set on the image pad with a code of the device's table returns 0
    with the size of the nearest mode of the table that [get_mode_table]
    selects.  When that is the current mode, nothing changes: not the
    timing, and not the stored format code either, whatever code was
    requested; reading the active format back then returns the code stored
    before.  When it is another mode, the mode and the requested code are
    stored, the vertical-blanking range and the pixel rate are published
    for the new mode, and the format reads back exactly as the set returned
    it. *)
Theorem active_format_read_back (sd sd2 : v4l2_subdev_state)
    (fmt fmt2 : v4l2_subdev_format) (w : world) :
  driver_inv w ->
  u32 (pad fmt) = IMAGE_PAD -> which fmt <> V4L2_SUBDEV_FORMAT_TRY ->
  In (u32 (code (format fmt))) (code_table (dev w)) ->
  u32 (pad fmt2) = IMAGE_PAD -> which fmt2 <> V4L2_SUBDEV_FORMAT_TRY ->
  exists m fmt' w' fmt2',
    v4l2_find_nearest_size
      (get_mode_table (dev w) (code (format fmt)) (xfer_func (format fmt)))
      (fmt_width (format fmt)) (fmt_height (format fmt)) = Some m /\
    imx586_set_pad_format sd fmt w = Done (0, sd, fmt', w') /\
    fmt_width (format fmt') = width m /\ fmt_height (format fmt') = height m /\
    code (format fmt') = u32 (code (format fmt)) /\
    mode (dev w') = m /\
    imx586_get_pad_format sd2 fmt2 w' = Done (0, sd2, fmt2', w') /\
    format fmt2' = with_code (fmt_code (dev w')) (format fmt') /\
    (m = mode (dev w) -> w' = w /\ code (format fmt2') = fmt_code (dev w)) /\
    (m <> mode (dev w) ->
       format fmt2' = format fmt' /\
       minimum (vblank (dev w')) = min_VMAX m - height m /\
       maximum (vblank (dev w')) = IMX586_VMAX_MAX - height m /\
       cur (pixel_rate (dev w')) = width m * IMX586_PIXEL_RATE / min_HMAX m).
Proof.
  intros Hinv Ep Ew Hin Ep2 Ew2.
  destruct (imx586_set_pad_format_active sd fmt w Hinv Ep Ew Hin)
    as (m & fmt' & w' & Em & E & Efmt & Fm & Hsame & Hdiff & Hinv').
  pose proof (bi_fmt_code _ (proj1 (proj1 Hinv'))) as Hcode.
  assert (Ew2' : (which fmt2 =? V4L2_SUBDEV_FORMAT_TRY) = false)
    by (apply Z.eqb_neq; exact Ew2).
  eexists m, fmt', w', _. split; [exact Em | ]. split; [exact E | ].
  rewrite Efmt. cbn [fmt_width fmt_height code].
  split; [reflexivity | ]. split; [reflexivity | ]. split; [reflexivity | ].
  split; [exact Fm | ].
  split.
  { unfold imx586_get_pad_format. rewrite Ep2, Ew2'.
    change (NUM_PADS <=? IMAGE_PAD) with false.
    change (IMAGE_PAD =? IMAGE_PAD) with true. cbv iota.
    rewrite bind_get_dev. erewrite bind_lift_done by reflexivity.
    erewrite bind_lift_done
      by (apply imx586_get_format_code_member;
          rewrite (code_table_u32 _ _ Hcode); exact Hcode).
    rewrite (code_table_u32 _ _ Hcode). reflexivity. }
  cbn [format with_format]. rewrite Fm. unfold with_code.
  cbn [fmt_width fmt_height code field colorspace ycbcr_enc quantization xfer_func].
  split; [reflexivity | ]. split.
  - intros Hs. rewrite (Hsame Hs). split; reflexivity.
  - intros Hd. rewrite (Hdiff Hd).
    destruct Hinv' as (_ & Ht' & _).
    pose proof (ti_vblank _ Ht') as (V1 & V2).
    pose proof (ti_pixel_rate _ Ht') as P.
    rewrite Fm in V1, V2, P.
    split; [reflexivity | ]. split; [exact V1 | ]. split; [exact V2 | ].
    apply P.
Qed.

(** Discharge [driver_inv] on a concrete world by evaluation. *)
Ltac concrete_inv :=
  split; [split; [constructor | ] | split; [constructor | ]];
  try match goal with
      | |- forall _ : ctrl_id, _ => let i := fresh "i" in intros i; destruct i
      end;
  vm_compute; conjuncts;
  first [ reflexivity
        | solve [let H := fresh in intro H; discriminate H]
        | solve [let H := fresh in intros _ H; discriminate H]
        | solve [intros; reflexivity]
        | solve [repeat (first [left; reflexivity | right])] ].

Lemma active_format_read_back_witness :
  exists m fmt' w' fmt2',
    v4l2_find_nearest_size
      (get_mode_table (dev (probed_world false [] 0 0))
         (code (format (format_request V4L2_SUBDEV_FORMAT_ACTIVE
                          MEDIA_BUS_FMT_SRGGB16_1X16 1920 1080)))
         (xfer_func (format (format_request V4L2_SUBDEV_FORMAT_ACTIVE
                               MEDIA_BUS_FMT_SRGGB16_1X16 1920 1080))))
      (fmt_width (format (format_request V4L2_SUBDEV_FORMAT_ACTIVE
                            MEDIA_BUS_FMT_SRGGB16_1X16 1920 1080)))
      (fmt_height (format (format_request V4L2_SUBDEV_FORMAT_ACTIVE
                             MEDIA_BUS_FMT_SRGGB16_1X16 1920 1080))) = Some m /\
    imx586_set_pad_format blank_sd_state
      (format_request V4L2_SUBDEV_FORMAT_ACTIVE MEDIA_BUS_FMT_SRGGB16_1X16 1920 1080)
      (probed_world false [] 0 0)
    = Done (0, blank_sd_state, fmt', w') /\
    fmt_width (format fmt') = width m /\ fmt_height (format fmt') = height m /\
    code (format fmt')
    = u32 (code (format (format_request V4L2_SUBDEV_FORMAT_ACTIVE
                           MEDIA_BUS_FMT_SRGGB16_1X16 1920 1080))) /\
    mode (dev w') = m /\
    imx586_get_pad_format blank_sd_state
      (format_request V4L2_SUBDEV_FORMAT_ACTIVE 0 0 0) w'
    = Done (0, blank_sd_state, fmt2', w') /\
    format fmt2' = with_code (fmt_code (dev w')) (format fmt') /\
    (m = mode (dev (probed_world false [] 0 0)) ->
       w' = probed_world false [] 0 0 /\
       code (format fmt2') = fmt_code (dev (probed_world false [] 0 0))) /\
    (m <> mode (dev (probed_world false [] 0 0)) ->
       format fmt2' = format fmt' /\
       minimum (vblank (dev w')) = min_VMAX m - height m /\
       maximum (vblank (dev w')) = IMX586_VMAX_MAX - height m /\
       cur (pixel_rate (dev w')) = width m * IMX586_PIXEL_RATE / min_HMAX m).
Proof.
  apply (active_format_read_back blank_sd_state blank_sd_state
           (format_request V4L2_SUBDEV_FORMAT_ACTIVE MEDIA_BUS_FMT_SRGGB16_1X16 1920 1080)
           (format_request V4L2_SUBDEV_FORMAT_ACTIVE 0 0 0)
           (probed_world false [] 0 0)).
  - concrete_inv.
  - reflexivity.
  - discriminate.
  - vm_compute. auto 10.
  - reflexivity.
  - discriminate.
Defined.

(** ** Controls of an idle device *)





Lemma get_put_ctrl_other (id i : ctrl_id) (c : v4l2_ctrl) (d : imx586) :
  i <> id -> get_ctrl (put_ctrl id c d) i = get_ctrl d i.
Proof. intro H. destruct id, i; first [reflexivity | contradiction H; reflexivity]. Qed.




(** ** The stream cycle and system sleep *)

Lemma imx586_set_stream_on_usage (w : world) :
  wf_dev (dev w) -> streaming (dev w) = false ->
  returns (imx586_set_stream 1 w)
    (fun r w' => r = 0 ->
       usage_count w' = S (usage_count w) /\
       forall id, id <> V4L2_CID_EXPOSURE -> id <> V4L2_CID_VFLIP ->
                  get_ctrl (dev w') id = get_ctrl (dev w) id).
Proof.
  intros Hwf Hs. unfold imx586_set_stream. rewrite bind_get_dev, Hs.
  cbn [Z.eqb negb].
  unfold bind at 1. cbn [pm_runtime_get_sync].
  set (w1 := with_usage_count _ w).
  destruct (Z.ltb_spec (resume_status w) 0) as [Hneg | Hpos].
  - unfold bind. cbn [pm_runtime_put_noidle pm_runtime_put ret returns]. lia.
  - apply returns_bind. eapply returns_weaken.
    { apply (imx586_start_streaming_returns w1). exact Hwf. }
    cbn beta. intros r w2 [Hev _].
    pose proof (ev_usage _ _ _ Hev) as Eu2.
    pose proof (ev_ctrls _ _ _ Hev) as Ec2.
    cbn [dev usage_count with_usage_count w1] in Eu2, Ec2.
    destruct (Z.eqb_spec r 0) as [-> | Nr]; cbn [negb].
    + cbv [bind modify_dev get_dev __v4l2_ctrl_grab ret returns].
      cbn [dev with_dev usage_count].
      intros _. split; [exact Eu2 | ].
      intros id He Hv. rewrite get_put_ctrl_other by exact Hv.
      rewrite <- (Ec2 id He). destruct id; reflexivity.
    + unfold bind. cbn [pm_runtime_put ret returns]. intro H. contradiction.
Qed.

Lemma imx586_set_stream_off_run (w : world) :
  streaming (dev w) = true ->
  exists w2,
    imx586_set_stream 0 w = Done (0, w2) /\
    new_xfers w w2 = [Xfer [0x30; 0x00; 0x01] (next_status w 3)] /\
    usage_count w2 = Nat.pred (usage_count w) /\
    streaming (dev w2) = false /\
    grabbed (vflip (dev w2)) = false /\
    HMAX (dev w2) = HMAX (dev w) /\ VMAX (dev w2) = VMAX (dev w) /\
    forall id, id <> V4L2_CID_VFLIP -> get_ctrl (dev w2) id = get_ctrl (dev w) id.
Proof.
  intros Hs. unfold imx586_set_stream. rewrite bind_get_dev, Hs.
  cbn [Z.eqb negb].
  erewrite bind_done by apply imx586_stop_streaming_run.
  cbv [bind pm_runtime_put modify_dev get_dev __v4l2_ctrl_grab ret].
  eexists. split; [reflexivity | ].
  split.
  { apply new_xfers_app. reflexivity. }
  cbn [dev with_dev with_usage_count sent with_i2c_log usage_count].
  split; [reflexivity | ].
  split; [reflexivity | ]. split; [reflexivity | ].
  split; [reflexivity | ]. split; [reflexivity | ].
  intros id Hv. rewrite get_put_ctrl_other by exact Hv. destruct id; reflexivity.
Qed.

(** A stream cycle is balanced.  From a state of the invariant that is
    not streaming, [imx586_set_stream(1)] either fails, and then leaves the
    power usage count and the streaming flag as they were, or succeeds, and
    then holds one more power reference, has set the flag and grabbed the
    vertical flip.  A following [imx586_set_stream(0)] cannot fail: it
    sends the one standby write, returns 0 whatever the bus answers, drops
    the reference, clears the flag and releases the flip, and leaves the
    frame timing and every control other than the exposure with the value
    it had before the cycle. *)
Theorem stream_cycle_balanced (w : world) :
  driver_inv w -> streaming (dev w) = false ->
  exists r w1,
    imx586_set_stream 1 w = Done (r, w1) /\
    (r <> 0 -> usage_count w1 = usage_count w /\ streaming (dev w1) = false) /\
    (r = 0 ->
       usage_count w1 = S (usage_count w) /\
       streaming (dev w1) = true /\ grabbed (vflip (dev w1)) = true /\
       exists s w2,
         imx586_set_stream 0 w1 = Done (0, w2) /\
         new_xfers w1 w2 = [Xfer [0x30; 0x00; 0x01] s] /\
         usage_count w2 = usage_count w /\
         streaming (dev w2) = false /\
         grabbed (vflip (dev w2)) = false /\
         HMAX (dev w2) = HMAX (dev w1) /\ VMAX (dev w2) = VMAX (dev w1) /\
         (forall id, id <> V4L2_CID_EXPOSURE -> id <> V4L2_CID_VFLIP ->
                     get_ctrl (dev w2) id = get_ctrl (dev w) id) /\
         driver_inv w2).
Proof.
  intros Hinv Hs. pose proof (dev_inv_wf _ (proj1 Hinv)) as Hwf.
  pose proof (returns_and _ _ _ (imx586_set_stream_on_returns w Hwf Hs)
                (returns_and _ _ _ (imx586_set_stream_on_usage w Hwf Hs)
                   (imx586_set_stream_inv 1 w Hinv))) as H.
  apply returns_done in H.
  destruct H as (r & w1 & E & (Hfail & Hok & _) & Huse & Hinv1 & _).
  exists r, w1. split; [exact E | ].
  split.
  { intros Nr. destruct (Hfail Nr) as (A & B). split; [exact B | exact A]. }
  intros Er. destruct (Hok Er) as (Hs1 & Hg1). destruct (Huse Er) as (Hu1 & Hc1).
  split; [exact Hu1 | ]. split; [exact Hs1 | ]. split; [exact Hg1 | ].
  destruct (imx586_set_stream_off_run w1 Hs1)
    as (w2 & E2 & X2 & U2 & S2 & G2 & HH2 & HV2 & C2).
  exists (next_status w1 3), w2.
  split; [exact E2 | ]. split; [exact X2 | ].
  split; [rewrite U2, Hu1; reflexivity | ].
  split; [exact S2 | ]. split; [exact G2 | ].
  split; [exact HH2 | ]. split; [exact HV2 | ].
  split.
  { intros id He Hv. rewrite (C2 id Hv). apply Hc1; assumption. }
  pose proof (returns_done _ _ (imx586_set_stream_inv 0 w1 Hinv1)) as (r' & w2' & E' & Hinv2 & _).
  rewrite E2 in E'. injection E' as _ <-. exact Hinv2.
Qed.

Lemma stream_cycle_balanced_witness :
  exists r w1,
    imx586_set_stream 1 (probed_world false [] 0 0) = Done (r, w1) /\
    (r <> 0 -> usage_count w1 = usage_count (probed_world false [] 0 0) /\
               streaming (dev w1) = false) /\
    (r = 0 ->
       usage_count w1 = S (usage_count (probed_world false [] 0 0)) /\
       streaming (dev w1) = true /\ grabbed (vflip (dev w1)) = true /\
       exists s w2,
         imx586_set_stream 0 w1 = Done (0, w2) /\
         new_xfers w1 w2 = [Xfer [0x30; 0x00; 0x01] s] /\
         usage_count w2 = usage_count (probed_world false [] 0 0) /\
         streaming (dev w2) = false /\
         grabbed (vflip (dev w2)) = false /\
         HMAX (dev w2) = HMAX (dev w1) /\ VMAX (dev w2) = VMAX (dev w1) /\
         (forall id, id <> V4L2_CID_EXPOSURE -> id <> V4L2_CID_VFLIP ->
                     get_ctrl (dev w2) id
                     = get_ctrl (dev (probed_world false [] 0 0)) id) /\
         driver_inv w2).
Proof.
  apply (stream_cycle_balanced (probed_world false [] 0 0)).
  - concrete_inv.
  - reflexivity.
Defined.

(** A failed resume keeps what a stream start took.  On a streaming
    device of the invariant, [imx586_resume] re-runs the start sequence and
    keeps the power usage count in every case.  When the sequence fails,
    the streaming flag is cleared, but the vertical flip stays grabbed and
    the power reference taken at stream start is not dropped; and because
    the flag is already clear, a following [imx586_set_stream(0)] returns 0
    without doing anything, so neither is released by it, and a request on
    the vertical flip is still refused with [-EBUSY]. *)
Theorem resume_failure_keeps_grab (w : world) :
  driver_inv w -> streaming (dev w) = true ->
  exists r w',
    imx586_resume w = Done (r, w') /\
    usage_count w' = usage_count w /\
    (r = 0 -> streaming (dev w') = true) /\
    (r <> 0 ->
       streaming (dev w') = false /\
       grabbed (vflip (dev w')) = true /\
       usage_count w' <> 0%nat /\
       imx586_set_stream 0 w' = Done (0, w') /\
       forall v, v4l2_s_ctrl V4L2_CID_VFLIP v w' = Done (- EBUSY, w')).
Proof.
  intros Hinv Hs. pose proof Hinv as ((Hb & Hh) & Ht & Hp).
  pose proof (dev_inv_wf _ (proj1 Hinv)) as Hwf.
  pose proof (bi_vflip_held _ Hb Hs) as Hg.
  unfold imx586_resume. rewrite bind_get_dev, Hs.
  destruct (returns_done _ _ (imx586_start_streaming_returns w Hwf))
    as (r & w2 & E & Hev & _).
  erewrite bind_done by exact E.
  pose proof (ev_usage _ _ _ Hev) as Eu2.
  pose proof (ev_streaming _ _ _ Hev) as Es2.
  pose proof (ev_ctrls _ _ _ Hev V4L2_CID_VFLIP ltac:(discriminate)) as Ev2.
  pose proof (ev_inv _ _ _ Hev (proj1 Hinv)) as (Hb2 & _).
  cbn [get_ctrl] in Ev2.
  destruct (Z.eqb_spec r 0) as [-> | Nr]; cbn [negb].
  - exists 0, w2. split; [reflexivity | ]. split; [exact Eu2 | ].
    split; [intros _; rewrite Es2; exact Hs | ].
    intro H. contradiction H. reflexivity.
  - erewrite bind_done by apply imx586_stop_streaming_run.
    rewrite bind_modify_dev. unfold ret.
    eexists r, _. split; [reflexivity | ].
    cbn [dev with_dev sent with_i2c_log usage_count streaming set_streaming vflip].
    split; [exact Eu2 | ].
    split; [intro H; contradiction | ].
    intros _. split; [reflexivity | ].
    split; [rewrite Ev2; exact Hg | ].
    split; [rewrite Eu2; apply Hp; exact Hs | ].
    split; [reflexivity | ].
    intros v. unfold v4l2_s_ctrl. rewrite bind_get_dev.
    cbn [dev with_dev get_ctrl set_streaming vflip read_only].
    pose proof (bi_read_only _ Hb2 V4L2_CID_VFLIP) as Hro. cbn [get_ctrl] in Hro.
    rewrite Hro. apply set_ctrl_grabbed.
    cbn [dev with_dev get_ctrl set_streaming vflip]. rewrite Ev2. exact Hg.
Qed.

Lemma resume_failure_keeps_grab_witness :
  exists r w',
    imx586_resume (exec (imx586_set_stream 1) (probed_world false [(276%nat, - EIO)] 0 0))
    = Done (r, w') /\
    usage_count w'
    = usage_count (exec (imx586_set_stream 1) (probed_world false [(276%nat, - EIO)] 0 0)) /\
    (r = 0 -> streaming (dev w') = true) /\
    (r <> 0 ->
       streaming (dev w') = false /\
       grabbed (vflip (dev w')) = true /\
       usage_count w' <> 0%nat /\
       imx586_set_stream 0 w' = Done (0, w') /\
       forall v, v4l2_s_ctrl V4L2_CID_VFLIP v w' = Done (- EBUSY, w')).
Proof.
  apply (resume_failure_keeps_grab
           (exec (imx586_set_stream 1) (probed_world false [(276%nat, - EIO)] 0 0))).
  - concrete_inv.
  - reflexivity.
Defined.

(** Suspend stops the sensor and keeps the flag.  [imx586_suspend]
    always returns 0 and changes nothing in the driver structure nor in the
    power usage count: on a streaming device it sends the one standby
    write, whose status it drops, and leaves the streaming flag set for
    [imx586_resume] to find; on an idle device it does nothing, and so does
    [imx586_resume]. *)
Theorem suspend_keeps_streaming_flag (w : world) :
  exists w',
    imx586_suspend w = Done (0, w') /\
    dev w' = dev w /\ usage_count w' = usage_count w /\
    new_xfers w w'
    = (if streaming (dev w) then [Xfer [0x30; 0x00; 0x01] (next_status w 3)] else []) /\
    (streaming (dev w) = false -> w' = w /\ imx586_resume w = Done (0, w)).
Proof.
  unfold imx586_suspend, imx586_resume. rewrite !bind_get_dev.
  destruct (streaming (dev w)) eqn:Es.
  - erewrite bind_done by apply imx586_stop_streaming_run.
    eexists. split; [reflexivity | ].
    split; [reflexivity | ]. split; [reflexivity | ].
    split; [apply new_xfers_app; reflexivity | ].
    intro H. discriminate H.
  - exists w. split; [reflexivity | ].
    split; [reflexivity | ]. split; [reflexivity | ].
    split; [apply new_xfers_app; rewrite app_nil_r; reflexivity | ].
    intros _. split; reflexivity.
Qed.

(** ** The order of the register writes *)

Lemma xfer_reg_be16 (reg : Z) (rest : list Z) (s : Z) :
  xfer_reg (Xfer (put_unaligned_be16 reg ++ rest) s) = u16 reg.
Proof.
  unfold xfer_reg, put_unaligned_be16. cbn [buf app]. unfold u8.
  set (r := u16 reg).
  assert (Hr : 0 <= r < 65536) by (unfold r, u16; apply Z.mod_pos_bound; lia).
  rewrite Z.shiftr_div_pow2 by lia. change (2 ^ 8) with 256.
  rewrite (Z.mod_small (r / 256))
    by (split; [apply Z.div_pos; lia | apply Z.div_lt_upper_bound; lia]).
  pose proof (Z.div_mod r 256 ltac:(lia)). lia.
Qed.

Lemma in_order_done (e : list Z) (r : Z) (new : list i2c_xfer) :
  map xfer_reg new = e -> in_order e r new.
Proof.
  intros H. split; [ | intros _; exact H].
  exists (length e). rewrite firstn_all. exact H.
Qed.

Lemma in_order_app (e1 e2 : list Z) (r : Z) (n1 n2 : list i2c_xfer) :
  map xfer_reg n1 = e1 -> in_order e2 r n2 -> in_order (e1 ++ e2) r (n1 ++ n2).
Proof.
  intros H1 [(k & Hk) H2]. unfold in_order. rewrite map_app, H1. split.
  - exists (length e1 + k)%nat. rewrite firstn_app_2, Hk. reflexivity.
  - intros Hr. rewrite (H2 Hr). reflexivity.
Qed.

Lemma in_order_abort (e1 e2 : list Z) (r : Z) (n1 : list i2c_xfer) :
  in_order e1 r n1 -> r <> 0 -> in_order (e1 ++ e2) r n1.
Proof.
  intros [(k & Hk) _] Nr. split; [ | intro; contradiction].
  exists (Nat.min k (length e1)).
  rewrite firstn_app.
  replace (Nat.min k (length e1) - length e1)%nat with 0%nat by lia.
  cbn [firstn]. rewrite app_nil_r, Hk.
  destruct (Nat.le_ge_cases k (length e1)) as [H | H].
  - rewrite Nat.min_l by exact H. reflexivity.
  - rewrite Nat.min_r by exact H. rewrite !firstn_all2 by lia. reflexivity.
Qed.

Lemma logs_refl (S : list i2c_xfer -> Prop) (w : world) : S [] -> logs S w w.
Proof. intro H. exists []. split; [symmetry; apply app_nil_r | exact H]. Qed.

Lemma logs_trans (S1 S2 S3 : list i2c_xfer -> Prop) (w w1 w2 : world) :
  logs S1 w w1 -> logs S2 w1 w2 ->
  (forall a b, S1 a -> S2 b -> S3 (a ++ b)) ->
  logs S3 w w2.
Proof.
  intros (a & Ha & Sa) (b & Hb & Sb) H. exists (a ++ b).
  split; [rewrite Hb, Ha, app_assoc; reflexivity | apply H; assumption].
Qed.

Lemma logs_weaken (S S' : list i2c_xfer -> Prop) (w w' : world) :
  logs S w w' -> (forall new, S new -> S' new) -> logs S' w w'.
Proof. intros (a & Ha & Sa) H. exists a. split; [exact Ha | apply H; exact Sa]. Qed.

Lemma logs_sent (S1 S2 : list i2c_xfer -> Prop) (b : list Z) (count : Z)
    (w w1 : world) :
  logs S1 w w1 ->
  (forall a, S1 a -> S2 (a ++ [Xfer b (next_status w1 count)])) ->
  logs S2 w (sent b count w1).
Proof.
  intros (a & Ha & Sa) H. exists (a ++ [Xfer b (next_status w1 count)]).
  split; [ | apply H; exact Sa].
  unfold sent. cbn [i2c_log with_i2c_log]. rewrite Ha, app_assoc. reflexivity.
Qed.

Lemma logs_same_log (S : list i2c_xfer -> Prop) (w w1 w2 : world) :
  logs S w w1 -> i2c_log w2 = i2c_log w1 -> logs S w w2.
Proof. intros (a & Ha & Sa) E. exists a. split; [rewrite E; exact Ha | exact Sa]. Qed.

Lemma evolves_logs (S : list i2c_xfer -> Prop) (w w' : world) :
  evolves S w w' -> logs S w w'.
Proof. intros H. exact (ev_log _ _ _ H). Qed.

(** The transfers a run added are determined by the two logs. *)
Lemma logs_new_xfers (S : list i2c_xfer -> Prop) (w w' : world) :
  logs S w w' -> S (new_xfers w w').
Proof. intros (a & Ha & Sa). rewrite (new_xfers_app _ _ _ Ha). exact Sa. Qed.

(** A register list is written in order, up to the first write that
    reports a non-zero status. *)
Lemma imx586_write_regs_order (regs : list imx586_reg) (w : world) :
  returns (imx586_write_regs regs w)
    (fun r w' =>
       logs (in_order (map (fun x => u16 (address x)) regs) r) w w' /\
       dev w' = dev w /\ usage_count w' = usage_count w).
Proof.
  revert w. induction regs as [ | x regs IH]; intros w; cbn [imx586_write_regs map].
  - apply returns_ret.
    split; [apply logs_refl; apply in_order_done; reflexivity | split; reflexivity].
  - apply returns_bind. rewrite imx586_write_reg_1byte_run. cbn [returns].
    set (s := next_status w 3). set (w1 := sent _ 3 w).
    assert (H1 : logs (fun new => map xfer_reg new = [u16 (address x)]) w w1).
    { apply (logs_sent (fun new => new = []) _ _ _ w w); [apply logs_refl; reflexivity | ].
      intros a ->. cbn [app map]. rewrite xfer_reg_be16. reflexivity. }
    destruct ((if s =? 3 then 0 else s) =? 0) eqn:E.
    + eapply returns_weaken; [apply IH | ].
      cbn beta. intros r w' (Hl & Hd & Hu).
      split; [ | split; [rewrite Hd; reflexivity | rewrite Hu; reflexivity]].
      eapply logs_trans; [exact H1 | exact Hl | ].
      cbn beta. intros a b Ha Hb.
      change (u16 (address x) :: map (fun y => u16 (address y)) regs)
        with ([u16 (address x)] ++ map (fun y => u16 (address y)) regs).
      apply in_order_app; assumption.
    + apply returns_ret. apply Z.eqb_neq in E.
      split; [ | split; reflexivity].
      eapply logs_weaken; [exact H1 | ].
      cbn beta. intros new Hn.
      change (u16 (address x) :: map (fun y => u16 (address y)) regs)
        with ([u16 (address x)] ++ map (fun y => u16 (address y)) regs).
      apply in_order_abort; [apply in_order_done; exact Hn | exact E].
Qed.

(** The addresses of the register tables are 16-bit values. *)
Lemma table_addresses :
  map (fun x => u16 (address x)) mode_common_regs = map address mode_common_regs /\
  forall m, In m mode_catalog ->
            map (fun x => u16 (address x)) (reg_list m) = map address (reg_list m).
Proof.
  split; [vm_compute; reflexivity | ].
  apply mode_catalog_cases.
  unfold mode_catalog, supported_modes_12bit, supported_modes_nonlinear_12bit,
    supported_modes_16bit. cbn [app].
  repeat (apply Forall_cons; [vm_compute; reflexivity | ]). apply Forall_nil.
Qed.

(** The third part of [imx586_set_ctrl] always sends the writes of its
    case, whatever they report. *)
Lemma imx586_set_ctrl_switch_order (id : ctrl_id) (v : Z) (w : world) :
  wf_dev (dev w) ->
  (id = V4L2_CID_HBLANK -> 0 <= v <= IMX586_HMAX_MAX) ->
  returns (imx586_set_ctrl_switch id v w)
    (fun _ w' => logs (fun new => map xfer_reg new = ctrl_regs id) w w').
Proof.
  intros Hwf Hv. unfold imx586_set_ctrl_switch. rewrite bind_get_dev.
  assert (Hone : forall b count w1 reg,
            i2c_log w1 = i2c_log w ->
            xfer_reg (Xfer b 0) = reg ->
            logs (fun new => map xfer_reg new = [reg]) w (sent b count w1)).
  { intros b count w1 reg El Er.
    apply (logs_sent (fun new => new = []) _ _ _ w w1).
    - exists []. split; [rewrite El, app_nil_r; reflexivity | reflexivity].
    - intros a ->. cbn [app map]. rewrite <- Er. reflexivity. }
  destruct id; cbn [ctrl_regs].
  - apply returns_ret. apply logs_refl. reflexivity.
  - rewrite bind_modify_dev, bind_get_dev, imx586_write_reg_3byte_run. cbn [returns].
    apply Hone; reflexivity.
  - destruct Hwf as (Hm & Hh & Hb).
    destruct (hblank_to_hmax_value (mode (dev w)) v Hm (Hv eq_refl)) as (E & _).
    erewrite bind_lift_done by exact E.
    rewrite bind_modify_dev, imx586_write_reg_2byte_run. cbn [returns].
    apply Hone; reflexivity.
  - destruct (calculate_shr_total v (HMAX (dev w)) (VMAX (dev w)) 0 209
                (wf_dev_nonzero_HMAX _ Hwf)) as (shr & E).
    erewrite bind_lift_done by exact E.
    rewrite imx586_write_reg_2byte_run. cbn [returns].
    apply Hone; reflexivity.
  - cbv zeta.
    erewrite bind_done by apply imx586_register_hold_run.
    erewrite bind_done by apply imx586_write_reg_2byte_run.
    erewrite bind_done by apply imx586_write_reg_1byte_run.
    erewrite bind_done by apply imx586_register_hold_run.
    apply returns_ret.
    set (gain := if negb (hdr (mode (dev w))) && (IMX586_ANA_GAIN_HCG_THRESHOLD <=? v)
                 then _ else v).
    set (w1 := sent _ 3 w).
    set (w2 := sent _ 4 w1).
    set (w3 := sent _ 3 w2).
    assert (H1 : logs (fun new => map xfer_reg new = [0x3001]) w w1)
      by (apply Hone; reflexivity).
    assert (H2 : logs (fun new => map xfer_reg new = [0x3001; IMX586_REG_ANALOG_GAIN])
                   w w2).
    { apply (logs_sent _ _ _ _ _ _ H1).
      intros a Ha. rewrite map_app, Ha. reflexivity. }
    assert (H3 : logs (fun new => map xfer_reg new
                                  = [0x3001; IMX586_REG_ANALOG_GAIN; IMX586_REG_FDG_SEL0])
                   w w3).
    { apply (logs_sent _ _ _ _ _ _ H2).
      intros a Ha. rewrite map_app, Ha. reflexivity. }
    apply (logs_sent _ _ _ _ _ _ H3).
    intros a Ha. rewrite map_app, Ha. reflexivity.
  - rewrite imx586_write_reg_1byte_run. cbn [returns]. apply Hone; reflexivity.
  - rewrite imx586_write_reg_1byte_run. cbn [returns]. apply Hone; reflexivity.
Qed.

(** The second part applies the control on a powered device only. *)
Lemma imx586_set_ctrl_apply_order (id : ctrl_id) (v : Z) (w : world) :
  wf_dev (dev w) ->
  (id = V4L2_CID_HBLANK -> 0 <= v <= IMX586_HMAX_MAX) ->
  returns (imx586_set_ctrl_apply id v w)
    (fun _ w' =>
       logs (fun new => map xfer_reg new
                        = if Nat.eqb (usage_count w) 0 then [] else ctrl_regs id) w w').
Proof.
  intros Hwf Hv. unfold imx586_set_ctrl_apply.
  destruct (Nat.eq_dec (usage_count w) 0) as [Eu | Nu].
  - erewrite bind_done by (apply pm_runtime_get_if_in_use_idle; exact Eu).
    cbn [Z.eqb]. apply returns_ret. rewrite Eu. apply logs_refl. reflexivity.
  - erewrite bind_done by (apply pm_runtime_get_if_in_use_active; exact Nu).
    cbn [Z.eqb]. apply returns_bind.
    eapply returns_weaken.
    { apply imx586_set_ctrl_switch_order; [exact Hwf | exact Hv]. }
    cbn beta. intros r w2 Hl.
    unfold bind at 1. cbn [pm_runtime_put]. apply returns_ret.
    apply Nat.eqb_neq in Nu. rewrite Nu.
    destruct Hl as (a & Ha & Sa). exists a. split; [exact Ha | exact Sa].
Qed.

(** [imx586_set_ctrl] on a control whose first part moves no exposure. *)
Lemma imx586_set_ctrl_order (id : ctrl_id) (v : Z) (w : world) :
  wf_dev (dev w) ->
  (id = V4L2_CID_HBLANK -> 0 <= v <= IMX586_HMAX_MAX) ->
  (id = V4L2_CID_VBLANK -> exposure_fits (dev w) v) ->
  returns (imx586_set_ctrl id v w)
    (fun _ w' =>
       logs (fun new => map xfer_reg new
                        = if Nat.eqb (usage_count w) 0 then [] else ctrl_regs id) w w').
Proof.
  intros Hwf Hv Hfit. unfold imx586_set_ctrl.
  apply returns_bind.
  apply returns_weaken
    with (Q := fun _ w' => evolves (fun new => new = []) w w').
  { destruct id; try (apply returns_ret; apply evolves_refl; reflexivity).
    eapply returns_weaken; [apply imx586_set_ctrl_vblank_limits_returns; exact Hwf | ].
    cbn beta. intros _ w' Hev. eapply evolves_weaken; [exact Hev | ].
    cbn beta. intros new Hn. apply Hn. apply Hfit. reflexivity. }
  cbn beta. intros _ w0 Hev0.
  eapply returns_weaken.
  { apply imx586_set_ctrl_apply_order; [ | exact Hv].
    apply (ev_wf _ _ _ Hev0). exact Hwf. }
  cbn beta. intros r w1 Hl1. rewrite (ev_usage _ _ _ Hev0) in Hl1.
  eapply logs_trans; [exact (evolves_logs _ _ _ Hev0) | exact Hl1 | ].
  cbn beta. intros a b -> Hb. exact Hb.
Qed.

(** *** Re-applying the controls *)

Lemma writable_ctrl (d : imx586) (id : ctrl_id) :
  dev_inv d -> id <> V4L2_CID_PIXEL_RATE -> read_only (get_ctrl d id) = false.
Proof.
  intros (Hb & _) Hid. rewrite (bi_read_only _ Hb).
  destruct id; first [reflexivity | contradiction Hid; reflexivity].
Qed.

Lemma handler_setup_from_order (ids : list ctrl_id) (w : world) :
  ~ In V4L2_CID_VBLANK ids ->
  dev_inv (dev w) -> usage_count w <> 0%nat ->
  returns (handler_setup_from ids w)
    (fun r w' => logs (in_order (concat (map ctrl_regs ids)) r) w w').
Proof.
  revert w. induction ids as [ | id ids IH]; intros w Hno Hinv Hu;
    cbn [handler_setup_from map concat].
  - apply returns_ret. apply logs_refl. apply in_order_done. reflexivity.
  - assert (Hid : id <> V4L2_CID_VBLANK) by (intro E; apply Hno; left; exact E).
    assert (Hno' : ~ In V4L2_CID_VBLANK ids) by (intro E; apply Hno; right; exact E).
    pose proof (dev_inv_wf _ Hinv) as Hwf.
    rewrite bind_get_dev.
    destruct (ctrl_id_eq_dec id V4L2_CID_PIXEL_RATE) as [-> | Npr].
    + rewrite (bi_read_only _ (proj1 Hinv)). cbn [ctrl_regs app].
      apply IH; assumption.
    + rewrite (writable_ctrl _ _ Hinv Npr).
      assert (Hv : id = V4L2_CID_HBLANK ->
                   0 <= cur (get_ctrl (dev w) id) <= IMX586_HMAX_MAX).
      { intros ->. destruct Hwf as (_ & _ & Hb). exact Hb. }
      apply returns_bind. eapply returns_weaken.
      { apply returns_and.
        - apply imx586_set_ctrl_returns; [exact Hwf | exact Hv].
        - apply imx586_set_ctrl_order; [exact Hwf | exact Hv | ].
          intro E. contradiction. }
      cbn beta. intros r w1 [Hev1 Hl1].
      apply Nat.eqb_neq in Hu. rewrite Hu in Hl1. apply Nat.eqb_neq in Hu.
      destruct (Z.eqb_spec r 0) as [-> | Nr].
      * eapply returns_weaken.
        { apply IH; [exact Hno' | apply (ev_inv _ _ _ Hev1); exact Hinv | ].
          rewrite (ev_usage _ _ _ Hev1). exact Hu. }
        cbn beta. intros r' w2 Hl2.
        eapply logs_trans; [exact Hl1 | exact Hl2 | ].
        cbn beta. intros a b Ha Hb. apply in_order_app; assumption.
      * apply returns_ret. eapply logs_weaken; [exact Hl1 | ].
        cbn beta. intros new Hn.
        apply in_order_abort; [apply in_order_done; exact Hn | exact Nr].
Qed.

Lemma __v4l2_ctrl_handler_setup_order (w : world) :
  dev_inv (dev w) -> usage_count w <> 0%nat -> exposure_settled (dev w) ->
  returns (__v4l2_ctrl_handler_setup w)
    (fun r w' => logs (in_order (concat (map ctrl_regs handler_ctrls)) r) w w').
Proof.
  intros Hinv Hu Hset. pose proof (dev_inv_wf _ Hinv) as Hwf.
  unfold __v4l2_ctrl_handler_setup, handler_ctrls.
  set (rest := [V4L2_CID_HBLANK; V4L2_CID_EXPOSURE; V4L2_CID_ANALOGUE_GAIN;
                V4L2_CID_HFLIP; V4L2_CID_VFLIP]).
  assert (Hrest : ~ In V4L2_CID_VBLANK rest).
  { subst rest. cbn [In]. intuition discriminate. }
  cbn [handler_setup_from map concat ctrl_regs app].
  rewrite bind_get_dev, (bi_read_only _ (proj1 Hinv)).
  rewrite bind_get_dev, (writable_ctrl _ _ Hinv) by discriminate.
  apply returns_bind. eapply returns_weaken.
  { apply returns_and.
    - apply imx586_set_ctrl_returns; [exact Hwf | discriminate].
    - apply imx586_set_ctrl_order; [exact Hwf | discriminate | ].
      intros _. exact Hset. }
  cbn beta. intros r w1 [Hev1 Hl1].
  apply Nat.eqb_neq in Hu. rewrite Hu in Hl1. apply Nat.eqb_neq in Hu.
  cbn [ctrl_regs] in Hl1.
  change (IMX586_REG_VMAX :: concat (map ctrl_regs rest))
    with ([IMX586_REG_VMAX] ++ concat (map ctrl_regs rest)).
  destruct (Z.eqb_spec r 0) as [-> | Nr].
  - eapply returns_weaken.
    { apply handler_setup_from_order;
        [exact Hrest | apply (ev_inv _ _ _ Hev1); exact Hinv | ].
      rewrite (ev_usage _ _ _ Hev1). exact Hu. }
    cbn beta. intros r' w2 Hl2.
    eapply logs_trans; [exact Hl1 | exact Hl2 | ].
    cbn beta. intros a b Ha Hb. apply in_order_app; assumption.
  - apply returns_ret. eapply logs_weaken; [exact Hl1 | ].
    cbn beta. intros new Hn.
    apply in_order_abort; [apply in_order_done; exact Hn | exact Nr].
Qed.

(** *** The start sequence *)

Lemma track_refl (w : world) : track (dev w) [] w w.
Proof. split; [apply logs_refl; reflexivity | split; reflexivity]. Qed.

Lemma track_sent (b : list Z) (count reg : Z) (d : imx586) (e : list Z) (w0 w : world) :
  xfer_reg (Xfer b 0) = reg ->
  track d e w0 w -> track d (e ++ [reg]) w0 (sent b count w).
Proof.
  intros Er (Hl & Hd & Hu). split; [ | split; [exact Hd | exact Hu]].
  apply (logs_sent _ _ _ _ _ _ Hl).
  intros a Ha. rewrite map_app, Ha, <- Er. reflexivity.
Qed.

Lemma step_track_1byte {B} {reg v : Z} {k : Z -> M B} {d : imx586} {e : list Z}
    {w0 w : world} {Q : B -> world -> Prop} :
  track d e w0 w ->
  (forall r w1, track d (e ++ [u16 reg]) w0 w1 -> returns (k r w1) Q) ->
  returns (bind (imx586_write_reg_1byte reg v) k w) Q.
Proof.
  intros Ht Hk. erewrite bind_done by apply imx586_write_reg_1byte_run.
  apply Hk. apply track_sent; [ | exact Ht].
  rewrite <- (xfer_reg_be16 reg [u8 v] 0). reflexivity.
Qed.

Lemma step_track_2byte {B} {reg v : Z} {k : Z -> M B} {d : imx586} {e : list Z}
    {w0 w : world} {Q : B -> world -> Prop} :
  track d e w0 w ->
  (forall r w1, track d (e ++ [u16 reg]) w0 w1 -> returns (k r w1) Q) ->
  returns (bind (imx586_write_reg_2byte reg v) k w) Q.
Proof.
  intros Ht Hk. erewrite bind_done by apply imx586_write_reg_2byte_run.
  apply Hk. apply track_sent; [ | exact Ht].
  rewrite <- (xfer_reg_be16 reg [u8 (u16 v); u8 (Z.shiftr (u16 v) 8)] 0). reflexivity.
Qed.

Lemma step_track_3byte {B} {reg v : Z} {k : Z -> M B} {d : imx586} {e : list Z}
    {w0 w : world} {Q : B -> world -> Prop} :
  track d e w0 w ->
  (forall r w1, track d (e ++ [u16 reg]) w0 w1 -> returns (k r w1) Q) ->
  returns (bind (imx586_write_reg_3byte reg v) k w) Q.
Proof.
  intros Ht Hk. erewrite bind_done by apply imx586_write_reg_3byte_run.
  apply Hk. apply track_sent; [ | exact Ht].
  rewrite <- (xfer_reg_be16 reg
                [u8 (u32 v); u8 (Z.shiftr (u32 v) 8); u8 (Z.shiftr (u32 v) 16)] 0).
  reflexivity.
Qed.

Lemma step_track_regs {B} {regs : list imx586_reg} {k : Z -> M B} {d : imx586}
    {e : list Z} {w0 w : world} {Q : B -> world -> Prop} :
  track d e w0 w ->
  (forall r w1,
     logs (in_order (e ++ map (fun x => u16 (address x)) regs) r) w0 w1 ->
     (r = 0 -> track d (e ++ map (fun x => u16 (address x)) regs) w0 w1) ->
     returns (k r w1) Q) ->
  returns (bind (imx586_write_regs regs) k w) Q.
Proof.
  intros (Hl & Hd & Hu) Hk. apply returns_bind.
  eapply returns_weaken; [apply imx586_write_regs_order | ].
  cbn beta. intros r w1 (Hl1 & Hd1 & Hu1).
  assert (H : logs (in_order (e ++ map (fun x => u16 (address x)) regs) r) w0 w1).
  { eapply logs_trans; [exact Hl | exact Hl1 | ].
    cbn beta. intros a b Ha Hb. apply in_order_app; assumption. }
  apply Hk; [exact H | ].
  intros ->. split; [ | split; [rewrite Hd1; exact Hd | rewrite Hu1; exact Hu]].
  eapply logs_weaken; [exact H | ]. cbn beta. intros new [_ Hn]. apply Hn. reflexivity.
Qed.

Lemma dev_inv_common_written (d : imx586) :
  dev_inv d -> dev_inv (set_common_regs_written true d).
Proof.
  intro H.
  refine (dev_inv_frame _ _ _ _ _ _ _ _ _ _ _ H);
    [ reflexivity | reflexivity | reflexivity | same_ctrls | reflexivity | reflexivity
    | reflexivity | intros _; reflexivity | exact (proj2 H) ].
Qed.

Ltac track_exact H :=
  rewrite <- ?app_assoc in H; rewrite <- ?app_assoc; exact H.

(** [imx586_start_streaming] on a powered device whose exposure is
    settled: the registers of [start_regs], in order, up to the first
    checked write that fails. *)
Lemma imx586_start_streaming_order (w : world) :
  dev_inv (dev w) -> usage_count w <> 0%nat -> exposure_settled (dev w) ->
  returns (imx586_start_streaming w)
    (fun r w' => logs (in_order (start_regs (dev w)) r) w w').
Proof.
  intros Hinv Hu Hset. pose proof (dev_inv_wf _ Hinv) as Hwf.
  destruct table_addresses as (Tc & Tm). specialize (Tm _ (proj1 Hwf)).
  unfold imx586_start_streaming. rewrite bind_get_dev.
  apply returns_bind.
  apply returns_weaken
    with (Q := fun r w1 =>
                 (r <> 0 /\ logs (in_order (start_regs (dev w)) r) w w1) \/
                 (r = 0 /\
                  track (if common_regs_written (dev w) then dev w
                         else set_common_regs_written true (dev w))
                        (if common_regs_written (dev w) then []
                         else map address mode_common_regs ++ [IMX586_REG_BLKLEVEL])
                        w w1)).
  { unfold start_regs.
    destruct (common_regs_written (dev w)); cbn [negb].
    - apply returns_ret. right. split; [reflexivity | apply track_refl].
    - apply (step_track_regs (track_refl w)).
      intros r w1 Hl1 Ht1. cbn [app] in Hl1, Ht1. rewrite Tc in Hl1, Ht1.
      destruct (Z.eqb_spec r 0) as [-> | Nr]; cbn [negb].
      + specialize (Ht1 eq_refl).
        apply (step_track_2byte Ht1). intros _ w2 (Hl2 & Hd2 & Hu2).
        rewrite bind_modify_dev. apply returns_ret. right.
        split; [reflexivity | ].
        split; [ | split; [cbn [dev with_dev]; rewrite Hd2; reflexivity | exact Hu2]].
        eapply logs_same_log; [exact Hl2 | reflexivity].
      + apply returns_ret. left. split; [exact Nr | ].
        eapply logs_weaken; [exact Hl1 | ]. cbn beta. intros new Hn.
        rewrite <- app_assoc. apply in_order_abort; [exact Hn | exact Nr]. }
  cbn beta. intros r w1 [[Nr Hl] | [-> Ht1]].
  { destruct (Z.eqb_spec r 0) as [E | _]; [contradiction | ]. cbn [negb].
    apply returns_ret. exact Hl. }
  cbn [Z.eqb negb].
  set (E1 := if common_regs_written (dev w) then []
             else map address mode_common_regs ++ [IMX586_REG_BLKLEVEL]) in *.
  assert (Estart : start_regs (dev w)
                   = E1 ++ map address (reg_list (mode (dev w)))
                     ++ [IMX586_REG_CCMP1_EXP; IMX586_REG_ACMP1_EXP;
                         IMX586_REG_CCMP2_EXP; IMX586_REG_ACMP2_EXP]
                     ++ (if hdr (mode (dev w))
                         then [IMX586_REG_EXP_TH_H; IMX586_REG_EXP_TH_L; IMX586_REG_EXP_BK]
                         else [])
                     ++ [IMX586_REG_DIGITAL_CLAMP]
                     ++ concat (map ctrl_regs handler_ctrls)
                     ++ [IMX586_REG_MODE_SELECT]) by reflexivity.
  rewrite Estart. clearbody E1.
  assert (Hd1 : dev_inv (dev w1) /\ exposure_settled (dev w1) /\
                mode (dev w1) = mode (dev w)).
  { destruct Ht1 as (_ & -> & _).
    destruct (common_regs_written (dev w)).
    - split; [exact Hinv | split; [exact Hset | reflexivity]].
    - split; [apply dev_inv_common_written; exact Hinv | split; [exact Hset | reflexivity]]. }
  destruct Hd1 as (Hinv1 & Hset1 & Hmode1).
  set (d1 := if common_regs_written (dev w) then dev w
             else set_common_regs_written true (dev w)) in *.
  clearbody d1.
  rewrite bind_get_dev, Hmode1.
  apply (step_track_regs Ht1).
  intros r w2 Hl2 Ht2. rewrite Tm in Hl2, Ht2.
  destruct (Z.eqb_spec r 0) as [-> | Nr]; cbn [negb].
  2:{ apply returns_ret. eapply logs_weaken; [exact Hl2 | ]. cbn beta. intros new Hn.
      rewrite app_assoc. apply in_order_abort; [exact Hn | exact Nr]. }
  specialize (Ht2 eq_refl).
  apply returns_bind.
  apply returns_weaken
    with (Q := fun _ w3 =>
                 track d1 ((E1 ++ map address (reg_list (mode (dev w))))
                           ++ [IMX586_REG_CCMP1_EXP; IMX586_REG_ACMP1_EXP;
                               IMX586_REG_CCMP2_EXP; IMX586_REG_ACMP2_EXP]) w w3).
  { destruct (linear (mode (dev w))); cbn [negb].
    - apply (step_track_3byte Ht2). intros _ wa Ha.
      apply (step_track_1byte Ha). intros _ wb Hb.
      apply (step_track_3byte Hb). intros _ wc Hc.
      apply (step_track_1byte Hc). intros _ wd Hd.
      apply returns_ret. track_exact Hd.
    - apply (step_track_3byte Ht2). intros _ wa Ha.
      apply (step_track_1byte Ha). intros _ wb Hb.
      apply (step_track_3byte Hb). intros _ wc Hc.
      apply (step_track_1byte Hc). intros _ wd Hd.
      apply returns_ret. track_exact Hd. }
  cbn beta. intros _ w3 Ht3.
  apply returns_bind.
  apply returns_weaken
    with (Q := fun _ w4 =>
                 track d1 (((E1 ++ map address (reg_list (mode (dev w))))
                            ++ [IMX586_REG_CCMP1_EXP; IMX586_REG_ACMP1_EXP;
                                IMX586_REG_CCMP2_EXP; IMX586_REG_ACMP2_EXP])
                           ++ (if hdr (mode (dev w))
                               then [IMX586_REG_EXP_TH_H; IMX586_REG_EXP_TH_L;
                                     IMX586_REG_EXP_BK]
                               else [])) w w4).
  { destruct (hdr (mode (dev w))).
    - apply (step_track_2byte Ht3). intros _ wa Ha.
      apply (step_track_2byte Ha). intros _ wb Hb.
      apply (step_track_1byte Hb). intros _ wc Hc.
      apply returns_ret. track_exact Hc.
    - apply returns_ret. rewrite app_nil_r. exact Ht3. }
  cbn beta. intros _ w4 Ht4.
  apply (step_track_1byte Ht4). intros _ w5 (Hl5 & Hd5 & Hu5).
  apply returns_bind. eapply returns_weaken.
  { apply __v4l2_ctrl_handler_setup_order.
    - rewrite Hd5. destruct Ht1 as (_ & <- & _). exact Hinv1.
    - rewrite Hu5. exact Hu.
    - rewrite Hd5. destruct Ht1 as (_ & <- & _). exact Hset1. }
  cbn beta. intros r w6 Hl6.
  assert (Hl6' : logs (in_order
                         (((((E1 ++ map address (reg_list (mode (dev w))))
                             ++ [IMX586_REG_CCMP1_EXP; IMX586_REG_ACMP1_EXP;
                                 IMX586_REG_CCMP2_EXP; IMX586_REG_ACMP2_EXP])
                            ++ (if hdr (mode (dev w))
                                then [IMX586_REG_EXP_TH_H; IMX586_REG_EXP_TH_L;
                                      IMX586_REG_EXP_BK]
                                else []))
                           ++ [u16 IMX586_REG_DIGITAL_CLAMP])
                          ++ concat (map ctrl_regs handler_ctrls)) r) w w6).
  { eapply logs_trans; [exact Hl5 | exact Hl6 | ].
    cbn beta. intros a b Ha Hb. apply in_order_app; assumption. }
  assert (Eall : forall R,
            E1 ++ map address (reg_list (mode (dev w)))
               ++ [IMX586_REG_CCMP1_EXP; IMX586_REG_ACMP1_EXP;
                   IMX586_REG_CCMP2_EXP; IMX586_REG_ACMP2_EXP]
               ++ (if hdr (mode (dev w))
                   then [IMX586_REG_EXP_TH_H; IMX586_REG_EXP_TH_L; IMX586_REG_EXP_BK]
                   else [])
               ++ [IMX586_REG_DIGITAL_CLAMP]
               ++ concat (map ctrl_regs handler_ctrls) ++ R
            = (((((E1 ++ map address (reg_list (mode (dev w))))
                  ++ [IMX586_REG_CCMP1_EXP; IMX586_REG_ACMP1_EXP;
                      IMX586_REG_CCMP2_EXP; IMX586_REG_ACMP2_EXP])
                 ++ (if hdr (mode (dev w))
                     then [IMX586_REG_EXP_TH_H; IMX586_REG_EXP_TH_L;
                           IMX586_REG_EXP_BK]
                     else []))
                ++ [u16 IMX586_REG_DIGITAL_CLAMP])
               ++ concat (map ctrl_regs handler_ctrls)) ++ R).
  { intros R. rewrite <- !app_assoc. reflexivity. }
  rewrite Eall.
  destruct (Z.eqb_spec r 0) as [-> | Nr]; cbn [negb].
  - rewrite imx586_write_reg_1byte_run. cbn [returns].
    apply (logs_sent _ _ _ _ _ _ Hl6').
    intros a [_ Ha]. apply in_order_done. rewrite map_app, (Ha eq_refl). reflexivity.
  - apply returns_ret. eapply logs_weaken; [exact Hl6' | ]. cbn beta. intros new Hn.
    apply in_order_abort; [exact Hn | exact Nr].
Qed.

Lemma start_regs_mode_select_last (d : imx586) :
  In (mode d) mode_catalog ->
  exists before,
    start_regs d = before ++ [IMX586_REG_MODE_SELECT] /\
    ~ In IMX586_REG_MODE_SELECT before.
Proof.
  intros Hm. unfold start_regs.
  eexists. split.
  { rewrite !app_assoc. reflexivity. }
  assert (H : forall l, existsb (Z.eqb IMX586_REG_MODE_SELECT) l = false ->
                        ~ In IMX586_REG_MODE_SELECT l).
  { intros l E Hin.
    assert (existsb (Z.eqb IMX586_REG_MODE_SELECT) l = true)
      by (apply existsb_exists; exists IMX586_REG_MODE_SELECT;
          split; [exact Hin | apply Z.eqb_refl]).
    congruence. }
  apply H. revert Hm. generalize (mode d). intros m Hm. revert m Hm.
  apply mode_catalog_cases.
  cbv [mode_catalog supported_modes_12bit supported_modes_nonlinear_12bit
       supported_modes_16bit app].
  destruct (common_regs_written d);
    repeat (apply Forall_cons; [vm_compute; reflexivity | ]); apply Forall_nil.
Qed.

Lemma imx586_set_stream_on_order (w : world) :
  dev_inv (dev w) -> streaming (dev w) = false -> exposure_settled (dev w) ->
  returns (imx586_set_stream 1 w)
    (fun r w' => logs (in_order (start_regs (dev w)) r) w w').
Proof.
  intros Hinv Hs Hset. unfold imx586_set_stream. rewrite bind_get_dev, Hs.
  cbn [Z.eqb negb].
  unfold bind at 1. cbn [pm_runtime_get_sync].
  set (w1 := with_usage_count _ w).
  destruct (Z.ltb_spec (resume_status w) 0) as [Hneg | Hpos].
  - unfold bind. cbn [pm_runtime_put_noidle pm_runtime_put ret returns].
    exists []. split; [cbn; rewrite app_nil_r; reflexivity | ].
    split; [exists 0%nat; reflexivity | lia].
  - apply returns_bind. eapply returns_weaken.
    { apply (imx586_start_streaming_order w1);
        [exact Hinv | subst w1; cbn; discriminate | exact Hset]. }
    cbn beta. intros r w2 Hl.
    destruct (Z.eqb_spec r 0) as [-> | Nr]; cbn [negb].
    + cbv [bind modify_dev get_dev __v4l2_ctrl_grab ret returns].
      eapply logs_same_log; [exact Hl | reflexivity].
    + unfold bind. cbn [pm_runtime_put ret returns].
      eapply logs_same_log; [exact Hl | reflexivity].
Qed.

(** The order of a stream start.  On a device in Standby whose
    configured exposure lies in the range of the configured vertical
    blanking, [imx586_set_stream(1)] addresses the registers of
    [start_regs] in that order and no others: the common register list and
    the black level if they were not written since power-up, the register
    list of the mode, the four compression-curve points, the three HDR
    registers in an HDR mode, the digital clamp, then VMAX, HMAX, SHR, the
    gain between the two register-hold writes, and the two flips, and
    mode-select last and only there.  A start that fails has addressed a
    prefix of that sequence; a start that succeeds has addressed all of
    it. *)
Theorem stream_start_register_order (w : world) :
  driver_inv w -> streaming (dev w) = false -> exposure_settled (dev w) ->
  exists r w',
    imx586_set_stream 1 w = Done (r, w') /\
    (exists k, map xfer_reg (new_xfers w w') = firstn k (start_regs (dev w))) /\
    (r = 0 -> map xfer_reg (new_xfers w w') = start_regs (dev w)) /\
    exists before,
      start_regs (dev w) = before ++ [IMX586_REG_MODE_SELECT] /\
      ~ In IMX586_REG_MODE_SELECT before.
Proof.
  intros Hinv Hs Hset.
  destruct (returns_done _ _ (imx586_set_stream_on_order w (proj1 Hinv) Hs Hset))
    as (r & w' & E & Hl).
  apply logs_new_xfers in Hl. destruct Hl as [Hk Hall].
  exists r, w'. split; [exact E | ]. split; [exact Hk | ]. split; [exact Hall | ].
  apply start_regs_mode_select_last. exact (bi_mode _ (proj1 (proj1 Hinv))).
Qed.

Lemma stream_start_register_order_witness :
  exists r w',
    imx586_set_stream 1 (probed_world false [(100%nat, - EIO)] 0 0) = Done (r, w') /\
    (exists k, map xfer_reg (new_xfers (probed_world false [(100%nat, - EIO)] 0 0) w')
               = firstn k (start_regs (dev (probed_world false [(100%nat, - EIO)] 0 0)))) /\
    (r = 0 -> map xfer_reg (new_xfers (probed_world false [(100%nat, - EIO)] 0 0) w')
              = start_regs (dev (probed_world false [(100%nat, - EIO)] 0 0))) /\
    exists before,
      start_regs (dev (probed_world false [(100%nat, - EIO)] 0 0))
      = before ++ [IMX586_REG_MODE_SELECT] /\
      ~ In IMX586_REG_MODE_SELECT before.
Proof.
  apply (stream_start_register_order (probed_world false [(100%nat, - EIO)] 0 0)).
  - concrete_inv.
  - reflexivity.
  - vm_compute. split; intro H; discriminate H.
Defined.

(** ** The write helpers *)

Lemma le16_decode (x : Z) : u8 x + 256 * u8 (Z.shiftr x 8) = u16 x.
Proof.
  unfold u8, u16. rewrite Z.shiftr_div_pow2 by lia.
  change (2 ^ 8) with 256. change (2 ^ 16) with (256 * 256).
  rewrite Z.rem_mul_r by lia. reflexivity.
Qed.

Lemma le24_decode (x : Z) :
  u8 x + 256 * u8 (Z.shiftr x 8) + 65536 * u8 (Z.shiftr x 16) = x mod 2 ^ 24.
Proof.
  unfold u8. rewrite !Z.shiftr_div_pow2 by lia.
  change (2 ^ 8) with 256. change (2 ^ 16) with (256 * 256).
  change (2 ^ 24) with (256 * (256 * 256)).
  rewrite (Z.rem_mul_r x 256 (256 * 256)) by lia.
  rewrite (Z.rem_mul_r (x / 256) 256 256) by lia.
  rewrite Z.div_div by lia. lia.
Qed.

(** What one register write sends and reports.  Each helper makes a
    single transfer and leaves the driver structure alone; the buffer is
    the register address, big endian, followed by the value, little
    endian, cut to one, two or three bytes.  The one- and two-byte helpers
    return 0 when the bus reports the full count, and otherwise whatever
    the bus reported: a negative error, a short count, and also 0, so a
    transfer of no byte at all is taken for a success.  The three-byte
    helper returns 0 only for the full count and [-EIO] otherwise. *)
Theorem write_reg_encoding (reg v : Z) (w : world) :
  (exists b,
     imx586_write_reg_1byte reg v w
     = Done ((if next_status w 3 =? 3 then 0 else next_status w 3),
             sent b 3 w) /\
     length b = 3%nat /\ xfer_reg (Xfer b 0) = u16 reg /\
     nth 2 b 0 = v mod 2 ^ 8) /\
  (exists b,
     imx586_write_reg_2byte reg v w
     = Done ((if next_status w 4 =? 4 then 0 else next_status w 4),
             sent b 4 w) /\
     length b = 4%nat /\ xfer_reg (Xfer b 0) = u16 reg /\
     nth 2 b 0 + 256 * nth 3 b 0 = v mod 2 ^ 16) /\
  (exists b,
     imx586_write_reg_3byte reg v w
     = Done ((if next_status w 5 =? 5 then 0 else - EIO), sent b 5 w) /\
     length b = 5%nat /\ xfer_reg (Xfer b 0) = u16 reg /\
     nth 2 b 0 + 256 * nth 3 b 0 + 65536 * nth 4 b 0 = v mod 2 ^ 24) /\
  forall b count, dev (sent b count w) = dev w /\
                  usage_count (sent b count w) = usage_count w /\
                  new_xfers w (sent b count w) = [Xfer b (next_status w count)].
Proof.
  split; [ | split; [ | split]].
  - eexists. split; [apply imx586_write_reg_1byte_run | ].
    split; [reflexivity | ]. split; [apply xfer_reg_be16 | reflexivity].
  - eexists. split; [apply imx586_write_reg_2byte_run | ].
    split; [reflexivity | ]. split; [apply xfer_reg_be16 | ].
    cbn [put_unaligned_be16 app nth]. rewrite le16_decode.
    unfold u16. apply Z.mod_mod. lia.
  - eexists. split; [apply imx586_write_reg_3byte_run | ].
    split; [reflexivity | ]. split; [apply xfer_reg_be16 | ].
    cbn [put_unaligned_be16 app nth]. rewrite le24_decode.
    unfold u32. apply Z.mod_mod_divide.
    exists (2 ^ 8). reflexivity.
  - intros b count. split; [reflexivity | ]. split; [reflexivity | ].
    apply new_xfers_app. reflexivity.
Qed.

Lemma imx586_write_regs_prefix (regs : list imx586_reg) (w : world) :
  returns (imx586_write_regs regs w)
    (fun r w' =>
       logs (fun new =>
               exists a t,
                 new = a ++ t /\
                 Forall (fun x => status x = 3 \/ status x = 0) a /\
                 map buf new
                 = map (fun x => put_unaligned_be16 (address x) ++ [u8 (val x)])
                       (firstn (length new) regs) /\
                 (r = 0 -> t = [] /\ length a = length regs) /\
                 (r <> 0 -> exists b, t = [Xfer b r])) w w').
Proof.
  revert w. induction regs as [ | x regs IH]; intros w; cbn [imx586_write_regs].
  - apply returns_ret. apply logs_refl. exists [], [].
    split; [reflexivity | ]. split; [constructor | ]. split; [reflexivity | ].
    split; [intros _; split; reflexivity | intro H; contradiction H; reflexivity].
  - apply returns_bind. rewrite imx586_write_reg_1byte_run. cbn [returns].
    set (s := next_status w 3).
    set (b := put_unaligned_be16 (address x) ++ [u8 (val x)]).
    assert (H1 : logs (fun new => new = [Xfer b s]) w (sent b 3 w)).
    { exists [Xfer b s]. split; reflexivity. }
    destruct ((if s =? 3 then 0 else s) =? 0) eqn:E.
    + assert (Hs : s = 3 \/ s = 0).
      { apply Z.eqb_eq in E. destruct (Z.eqb_spec s 3); [left | right]; assumption. }
      eapply returns_weaken; [apply IH | ].
      cbn beta. intros r w' Hl.
      eapply logs_trans; [exact H1 | exact Hl | ].
      cbn beta. intros n1 n2 -> (a & t & -> & Ha & Hb & H0 & Hn).
      exists (Xfer b s :: a), t.
      split; [reflexivity | ].
      split; [constructor; [exact Hs | exact Ha] | ].
      split; [cbn [app length firstn map buf]; rewrite Hb; reflexivity | ].
      split; [ | exact Hn].
      intros Hr. destruct (H0 Hr) as (-> & Hlen).
      split; [reflexivity | cbn [length]; rewrite Hlen; reflexivity].
    + apply returns_ret. apply Z.eqb_neq in E.
      assert (Er : (if s =? 3 then 0 else s) = s).
      { destruct (Z.eqb_spec s 3); [contradiction E; reflexivity | reflexivity]. }
      rewrite Er in *.
      eapply logs_weaken; [exact H1 | ].
      cbn beta. intros new ->. exists [], [Xfer b s].
      split; [reflexivity | ]. split; [constructor | ]. split; [reflexivity | ].
      split; [intro H; contradiction | intros _; exists b; reflexivity].
Qed.

(** A register list is written in order and stops at the first refusal.
    [imx586_write_regs] sends the registers of the list one by one, each
    as address (big endian) and value byte, and leaves the driver structure
    alone.  It goes on as long as the bus reports the full count, or 0;
    with status 0 the whole list has been sent.  At the first other report
    it stops and returns that report, which is then the status of the last
    transfer it made. *)
Theorem write_regs_stops_at_first_error (regs : list imx586_reg) (w : world) :
  exists r w' a t,
    imx586_write_regs regs w = Done (r, w') /\
    dev w' = dev w /\ usage_count w' = usage_count w /\
    new_xfers w w' = a ++ t /\
    Forall (fun x => status x = 3 \/ status x = 0) a /\
    map buf (a ++ t)
    = map (fun x => put_unaligned_be16 (address x) ++ [u8 (val x)])
          (firstn (length (a ++ t)) regs) /\
    (r = 0 -> t = [] /\ length a = length regs) /\
    (r <> 0 -> exists b, t = [Xfer b r]).
Proof.
  pose proof (returns_and _ _ _ (imx586_write_regs_prefix regs w)
                (imx586_write_regs_order regs w)) as H.
  apply returns_done in H.
  destruct H as (r & w' & E & Hl & _ & Hd & Hu).
  apply logs_new_xfers in Hl. destruct Hl as (a & t & En & Ha & Hb & H0 & Hn).
  exists r, w', a, t.
  split; [exact E | ]. split; [exact Hd | ]. split; [exact Hu | ].
  split; [exact En | ]. split; [exact Ha | ].
  split; [rewrite <- En; exact Hb | ]. split; [exact H0 | exact Hn].
Qed.

(** ** Framing limits and the exposure range *)

Lemma exposure_kept_refl (w : world) : exposure_kept w w.
Proof. split; reflexivity. Qed.

Lemma exposure_kept_trans (w w1 w2 : world) :
  exposure_kept w w1 -> exposure_kept w1 w2 -> exposure_kept w w2.
Proof. intros [A B] [C D]. split; congruence. Qed.

(** Only the vertical blanking touches the exposure control and [VMAX]. *)
Lemma imx586_set_ctrl_exposure_kept (id : ctrl_id) (v : Z) (w : world) :
  wf_dev (dev w) ->
  (id = V4L2_CID_HBLANK -> 0 <= v <= IMX586_HMAX_MAX) ->
  id <> V4L2_CID_VBLANK ->
  returns (imx586_set_ctrl id v w) (fun _ w' => exposure_kept w w').
Proof.
  intros Hwf Hv Hid. unfold imx586_set_ctrl.
  replace (match id with
           | V4L2_CID_VBLANK => imx586_set_ctrl_vblank_limits v
           | _ => ret tt
           end) with (ret tt : M unit)
    by (destruct id; first [reflexivity | contradiction Hid; reflexivity]).
  rewrite bind_ret. unfold imx586_set_ctrl_apply.
  destruct (Nat.eq_dec (usage_count w) 0) as [Eu | Nu].
  { erewrite bind_done by (apply pm_runtime_get_if_in_use_idle; exact Eu).
    cbn [Z.eqb]. apply returns_ret. apply exposure_kept_refl. }
  erewrite bind_done by (apply pm_runtime_get_if_in_use_active; exact Nu).
  cbn [Z.eqb].
  destruct id; try (contradiction Hid; reflexivity).
  - erewrite bind_done
      by (unfold imx586_set_ctrl_switch; rewrite bind_get_dev; reflexivity).
    cbv [bind ret pm_runtime_put returns]. split; reflexivity.
  - destruct Hwf as (Hm & Hh & Hb).
    destruct (hblank_to_hmax_value (mode (dev w)) v Hm (Hv eq_refl)) as (E & _).
    erewrite bind_done
      by (unfold imx586_set_ctrl_switch; rewrite bind_get_dev;
          cbn [dev with_usage_count];
          erewrite bind_lift_done by exact E; rewrite bind_modify_dev;
          apply imx586_write_reg_2byte_run).
    cbv [bind ret pm_runtime_put returns]. split; reflexivity.
  - destruct (calculate_shr_total v (HMAX (dev w)) (VMAX (dev w)) 0 209
                (wf_dev_nonzero_HMAX _ Hwf)) as (shr & E).
    erewrite bind_done
      by (unfold imx586_set_ctrl_switch; rewrite bind_get_dev;
          cbn [dev with_usage_count];
          erewrite bind_lift_done by exact E; apply imx586_write_reg_2byte_run).
    cbv [bind ret pm_runtime_put returns]. split; reflexivity.
  - erewrite bind_done
      by (unfold imx586_set_ctrl_switch; rewrite bind_get_dev; cbv zeta;
          erewrite bind_done by apply imx586_register_hold_run;
          erewrite bind_done by apply imx586_write_reg_2byte_run;
          erewrite bind_done by apply imx586_write_reg_1byte_run;
          erewrite bind_done by apply imx586_register_hold_run;
          reflexivity).
    cbv [bind ret pm_runtime_put returns]. split; reflexivity.
  - erewrite bind_done
      by (unfold imx586_set_ctrl_switch; rewrite bind_get_dev;
          apply imx586_write_reg_1byte_run).
    cbv [bind ret pm_runtime_put returns]. split; reflexivity.
  - erewrite bind_done
      by (unfold imx586_set_ctrl_switch; rewrite bind_get_dev;
          apply imx586_write_reg_1byte_run).
    cbv [bind ret pm_runtime_put returns]. split; reflexivity.
Qed.

Lemma put_ctrl_exposure_kept (id : ctrl_id) (c : v4l2_ctrl) (w : world) :
  id <> V4L2_CID_EXPOSURE ->
  exposure_kept w (with_dev (put_ctrl id c (dev w)) w).
Proof.
  intros Hid. split; cbn [dev with_dev];
    destruct id; first [reflexivity | contradiction Hid; reflexivity].
Qed.

Lemma set_ctrl_exposure_kept (id : ctrl_id) (v : Z) (w : world) :
  dev_inv (dev w) ->
  id <> V4L2_CID_VBLANK -> id <> V4L2_CID_EXPOSURE ->
  returns (set_ctrl imx586_set_ctrl id v w) (fun _ w' => exposure_kept w w').
Proof.
  intros Hinv Hv He. pose proof (dev_inv_wf _ Hinv) as Hwf.
  set (c := get_ctrl (dev w) id).
  set (v' := clamp v (minimum c) (maximum c)).
  destruct (grabbed c) eqn:Eg.
  { rewrite set_ctrl_grabbed by exact Eg. apply exposure_kept_refl. }
  destruct (Z.eq_dec v' (cur c)) as [Esame | Ediff].
  { rewrite set_ctrl_unchanged by assumption. apply exposure_kept_refl. }
  rewrite set_ctrl_changed by assumption. fold c. fold v'.
  apply returns_bind. eapply returns_weaken.
  { apply imx586_set_ctrl_exposure_kept; [exact Hwf | | exact Hv].
    intros ->. destruct Hinv as [Hb _]. destruct (bi_hblank _ Hb) as (E1 & E2 & _).
    subst v' c. cbn [get_ctrl]. rewrite E1, E2.
    apply clamp_between. unfold IMX586_HMAX_MAX. lia. }
  cbn beta. intros r w1 Hk.
  destruct (r =? 0); cbn [negb].
  - rewrite bind_modify_dev. apply returns_ret.
    eapply exposure_kept_trans; [exact Hk | ].
    apply put_ctrl_exposure_kept. exact He.
  - apply returns_ret. exact Hk.
Qed.

Lemma modify_range_exposure_kept (id : ctrl_id) (min max stp def : Z) (w : world) :
  dev_inv (dev w) ->
  id <> V4L2_CID_VBLANK -> id <> V4L2_CID_EXPOSURE ->
  (fixed_range id -> s64 min = minimum (get_ctrl (dev w) id) /\
                     s64 max = maximum (get_ctrl (dev w) id)) ->
  returns (modify_range imx586_set_ctrl id min max stp def w)
    (fun _ w' => exposure_kept w w').
Proof.
  intros Hinv Hv He Hfix.
  destruct ((u64 stp =? 0) || (s64 max <? s64 min) || (s64 def <? s64 min)
            || (s64 max <? s64 def)) eqn:Echeck.
  { rewrite modify_range_rejected by exact Echeck. apply exposure_kept_refl. }
  rewrite modify_range_accepted by exact Echeck.
  set (c1 := {| minimum := s64 min; maximum := s64 max; step := u64 stp;
                default_value := s64 def; cur := cur (get_ctrl (dev w) id);
                read_only := read_only (get_ctrl (dev w) id);
                grabbed := grabbed (get_ctrl (dev w) id) |}).
  set (w1 := with_dev (put_ctrl id c1 (dev w)) w).
  assert (Hk1 : exposure_kept w w1) by (apply put_ctrl_exposure_kept; exact He).
  assert (Hinv1 : dev_inv (dev w1)).
  { apply dev_inv_put_ctrl; try reflexivity; [exact Hinv | ].
    intros Hf. destruct (Hfix Hf) as [E1 E2]. cbn [c1 minimum maximum cur].
    split; [exact E1 | split; [exact E2 | ]]. rewrite E1, E2.
    apply fixed_in_range; assumption. }
  destruct (negb _).
  - eapply returns_weaken; [apply set_ctrl_exposure_kept; assumption | ].
    cbn beta. intros r w2 Hk2. eapply exposure_kept_trans; eassumption.
  - apply returns_ret. exact Hk1.
Qed.

(** The exposure range is refreshed only through a change of the vertical
    blanking.  [imx586_set_framing_limits] stores the default [VMAX] of
    the mode itself and leaves the exposure limits to the vertical-blanking
    control it sets afterwards.  When that control already holds the
    default of the mode, the control framework does not call the driver:
    the function returns with [VMAX] reset to the default and the exposure
    control, range and value, exactly as it was before, whatever frame
    length it had been derived from. *)
Theorem framing_limits_stale_exposure (w : world) :
  base_inv (dev w) ->
  cur (vblank (dev w)) = default_VMAX (mode (dev w)) - height (mode (dev w)) ->
  exists w',
    imx586_set_framing_limits w = Done (tt, w') /\
    VMAX (dev w') = default_VMAX (mode (dev w)) /\
    exposure (dev w') = exposure (dev w) /\
    cur (vblank (dev w')) = cur (vblank (dev w)) /\
    mode (dev w') = mode (dev w).
Proof.
  intros Hb Hcur. pose proof (bi_mode _ Hb) as Hm.
  destruct (framing_facts _ Hm)
    as (F1 & F2 & F3 & (q & F4 & F5 & F6) & F7 & F8 & F9 & F10 & F11 & F12 & F13).
  destruct (catalog_timing _ Hm) as (T1 & T2 & T3 & T4).
  set (m := mode (dev w)) in *.
  assert (H : returns (imx586_set_framing_limits w)
                (fun _ w' =>
                   VMAX (dev w') = default_VMAX m /\
                   exposure (dev w') = exposure (dev w) /\
                   cur (vblank (dev w')) = cur (vblank (dev w)) /\
                   mode (dev w') = m)).
  { unfold imx586_set_framing_limits.
    rewrite bind_get_dev, !bind_modify_dev. fold m. rewrite F1, F2.
    erewrite bind_lift_done by exact F3. erewrite bind_lift_done by exact F4.
    cbn [dev with_dev].
    set (d1 := set_HMAX (default_HMAX m) (set_VMAX (default_VMAX m) (dev w))).
    set (w1 := with_dev d1 (with_dev _ w)).
    assert (Hinv1 : dev_inv (dev w1)).
    { split.
      - destruct Hb. constructor; assumption.
      - change (min_HMAX m <= default_HMAX m < 2 ^ 16). change (2 ^ 16) with 65536. lia. }
    assert (S1 : VMAX (dev w1) = default_VMAX m /\
                 exposure (dev w1) = exposure (dev w) /\
                 vblank (dev w1) = vblank (dev w) /\ mode (dev w1) = m)
      by (split; [reflexivity | split; [reflexivity | split; reflexivity]]).
    clearbody w1. clear d1. destruct S1 as (SV & SE & SB & SM).
    (* horizontal blanking *)
    apply returns_bind. eapply returns_weaken.
    { apply returns_and.
      - apply modify_range_returns; [exact Hinv1 | discriminate | ].
        intros _. destruct (bi_hblank _ (proj1 Hinv1)) as (E1 & E2 & _).
        cbn [get_ctrl]. rewrite E1, E2. split; reflexivity.
      - apply modify_range_exposure_kept; [exact Hinv1 | discriminate | discriminate | ].
        intros _. destruct (bi_hblank _ (proj1 Hinv1)) as (E1 & E2 & _).
        cbn [get_ctrl]. rewrite E1, E2. split; reflexivity. }
    cbn beta. intros _ w2 (([Hf2 Ho2] & Hinv2 & _) & Hk2).
    apply returns_bind. eapply returns_weaken.
    { apply returns_and.
      - apply set_ctrl_returns. exact Hinv2.
      - apply set_ctrl_exposure_kept; [exact Hinv2 | discriminate | discriminate]. }
    cbn beta. intros _ w3 (([Hf3 Ho3] & Hinv3 & _) & Hk3).
    assert (Em3 : mode (dev w3) = m).
    { rewrite (f_mode _ _ Hf3), (f_mode _ _ Hf2). exact SM. }
    assert (Ev3 : vblank (dev w3) = vblank (dev w)).
    { pose proof (Ho3 V4L2_CID_VBLANK ltac:(discriminate) ltac:(discriminate)) as A.
      pose proof (Ho2 V4L2_CID_VBLANK ltac:(discriminate) ltac:(discriminate)) as B.
      cbn [get_ctrl] in A, B. rewrite A, B. exact SB. }
    assert (Ek3 : exposure_kept w1 w3) by (eapply exposure_kept_trans; eassumption).
    (* vertical blanking: the range is published, the value stays *)
    set (c4 := {| minimum := min_VMAX m - height m;
                  maximum := IMX586_VMAX_MAX - height m; step := u64 1;
                  default_value := default_VMAX m - height m;
                  cur := default_VMAX m - height m;
                  read_only := read_only (vblank (dev w));
                  grabbed := grabbed (vblank (dev w)) |}).
    set (w4 := with_dev (put_ctrl V4L2_CID_VBLANK c4 (dev w3)) w3).
    assert (Eg : grabbed (vblank (dev w)) = false).
    { apply (bi_free _ Hb V4L2_CID_VBLANK). }
    assert (E5 : __v4l2_ctrl_modify_range V4L2_CID_VBLANK
                   (u64 (min_VMAX m - height m)) (u64 (IMX586_VMAX_MAX - height m))
                   1 (u64 (default_VMAX m - height m)) w3
                 = Done (0, w4)).
    { unfold __v4l2_ctrl_modify_range.
      rewrite modify_range_accepted
        by (rewrite F8, F9, F10; apply range_check; exact F12).
      rewrite F8, F9, F10. cbn [get_ctrl]. rewrite Ev3, Hcur. fold m.
      rewrite clamp_inside by exact F12. rewrite Z.eqb_refl. reflexivity. }
    erewrite bind_done by exact E5.
    assert (E6 : __v4l2_ctrl_s_ctrl V4L2_CID_VBLANK
                   (u64 (default_VMAX m - height m)) w4
                 = Done (0, w4)).
    { unfold __v4l2_ctrl_s_ctrl. apply set_ctrl_unchanged.
      - exact Eg.
      - cbn [dev with_dev get_ctrl put_ctrl vblank w4 c4 minimum maximum cur].
        rewrite F11. apply clamp_inside. exact F12. }
    erewrite bind_done by exact E6.
    assert (Hinv4 : dev_inv (dev w4)).
    { apply dev_inv_put_ctrl.
      - exact Hinv3.
      - cbn [get_ctrl c4 read_only]. rewrite Ev3. reflexivity.
      - cbn [get_ctrl c4 grabbed]. rewrite Ev3. reflexivity.
      - unfold fixed_range. cbn [In]. intuition discriminate. }
    assert (Ek4 : exposure_kept w3 w4)
      by (apply put_ctrl_exposure_kept; discriminate).
    (* pixel rate *)
    apply returns_bind. eapply returns_weaken.
    { apply returns_and.
      - apply modify_range_pixel_rate; [exact Hinv4 | exact F13].
      - unfold __v4l2_ctrl_modify_range.
        apply modify_range_exposure_kept.
        + exact Hinv4.
        + discriminate.
        + discriminate.
        + unfold fixed_range. cbn [In]. intuition discriminate. }
    cbn beta. intros _ w6 (([Hf6 Ho6] & _) & Hk6).
    apply returns_ret.
    assert (Ek : exposure_kept w1 w6).
    { eapply exposure_kept_trans; [exact Ek3 | ].
      eapply exposure_kept_trans; [exact Ek4 | exact Hk6]. }
    destruct Ek as [EkE EkV].
    split; [rewrite EkV; exact SV | ].
    split; [rewrite EkE; exact SE | ].
    split.
    - pose proof (Ho6 V4L2_CID_VBLANK ltac:(discriminate) ltac:(discriminate)) as A.
      cbn [get_ctrl] in A. rewrite A. cbn [dev with_dev put_ctrl vblank w4 c4 cur].
      symmetry. exact Hcur.
    - rewrite (f_mode _ _ Hf6). exact Em3. }
  apply returns_done in H. destruct H as ([] & w' & E & H).
  exists w'. split; [exact E | exact H].
Qed.

Lemma framing_limits_stale_exposure_witness :
  exists w',
    imx586_set_framing_limits
      (exec (modify_dev (set_mode mode_1080))
            (exec (v4l2_s_ctrl V4L2_CID_VBLANK 1160) (probed_world false [] 0 0)))
    = Done (tt, w') /\
    VMAX (dev w')
    = default_VMAX
        (mode (dev (exec (modify_dev (set_mode mode_1080))
                         (exec (v4l2_s_ctrl V4L2_CID_VBLANK 1160)
                               (probed_world false [] 0 0))))) /\
    exposure (dev w')
    = exposure (dev (exec (modify_dev (set_mode mode_1080))
                          (exec (v4l2_s_ctrl V4L2_CID_VBLANK 1160)
                                (probed_world false [] 0 0)))) /\
    cur (vblank (dev w'))
    = cur (vblank (dev (exec (modify_dev (set_mode mode_1080))
                             (exec (v4l2_s_ctrl V4L2_CID_VBLANK 1160)
                                   (probed_world false [] 0 0))))) /\
    mode (dev w')
    = mode (dev (exec (modify_dev (set_mode mode_1080))
                      (exec (v4l2_s_ctrl V4L2_CID_VBLANK 1160)
                            (probed_world false [] 0 0)))).
Proof.
  apply (framing_limits_stale_exposure
           (exec (modify_dev (set_mode mode_1080))
                 (exec (v4l2_s_ctrl V4L2_CID_VBLANK 1160) (probed_world false [] 0 0)))).
  - constructor;
      try match goal with
          | |- forall _ : ctrl_id, _ => let i := fresh "i" in intros i; destruct i
          end;
      vm_compute; conjuncts;
      first [ reflexivity
            | solve [let H := fresh in intro H; discriminate H]
            | solve [repeat (first [left; reflexivity | right])] ].
  - reflexivity.
Defined.

